(** * crypto-stock-analyzer: data acquisition, indicators and signal scoring

    A shallow embedding of [src/crypto_data_fetcher.py] (class
    [CryptoDataFetcher]) and [src/technical_analyzer.py] (class
    [TechnicalAnalyzer]), and the properties of the specification that
    were checked against them; then of [src/data_fetcher.py] (class
    [StockDataFetcher]) and of the menus and displays of
    [crypto_analyzer.py] and [Stock_analyzer.py], with further
    properties read off the code.

    Conventions.
    - A Python [float] (and [numpy.float64]) is Rocq's primitive binary64
      [float]; [pd.isna] on such a value is [is_nan].
    - A Python [int] is [Z]; a [str] is a [string] of UTF-8 bytes.
    - A Python [dict] keyed by strings is a [gmap string _].
    - A pandas [DataFrame] of OHLCV rows is a list of [bar]s, a pandas
      [Series] of floats is a list of [float].
    - Code that can raise returns an [outcome]; code that also mutates an
      object threads that object explicitly. *)

From Stdlib Require Import ZArith QArith Qminmax Lqa Lia List String Ascii.
From Stdlib Require Import Floats.
From stdpp Require Import base gmap strings list sorting pretty.

Set Warnings "-inexact-float,-register-all".
#[local] Open Scope string_scope.
#[local] Open Scope Z_scope.

(** ** Python values shared by both classes *)

Inductive exn_kind :=
  | KeyError | IndexError | TypeError | ValueError | AttributeError
  | RequestException | OutOfBoundsDatetime | OverflowError.

(** An exception object; [exn_msg] is what [str(e)] returns. *)
Record exn := Exn { exn_kind_of : exn_kind; exn_msg : string }.

Inductive outcome (A : Type) :=
  | Ok (a : A)
  | Raise (e : exn).
Arguments Ok {A} a.
Arguments Raise {A} e.

(** One OHLCV row; [timestamp] is the index value in milliseconds. *)
Record bar := Bar {
  timestamp : Z;
  Open : float;
  High : float;
  Low : float;
  Close : float;
  Volume : float
}.

Definition DataFrame := list bar.
Definition Series := list float.

(** [df[col]] for one of the five value columns. *)
Definition column (col : bar → float) (df : DataFrame) : Series := map col df.

(** [s.iloc[i]] for an integer [i]; negative positions count from the end. *)
Definition iloc (s : Series) (i : Z) : outcome float :=
  let n := Z.of_nat (length s) in
  let j := if i <? 0 then n + i else i in
  if (0 <=? j) && (j <? n) then
    match s !! Z.to_nat j with
    | Some v => Ok v
    | None => Raise (Exn IndexError "single positional indexer is out-of-bounds")
    end
  else Raise (Exn IndexError "single positional indexer is out-of-bounds").

(** ** Fixed-point formatting of a float: [f"{x:.1f}"], [f"{x:.2f}"]

    CPython rounds the exact binary value to [d] decimals, ties to even, and
    keeps the sign of a negative value that rounds to zero. *)

Module PyFormat.

Definition round_half_even (num den : Z) : Z :=
  let q := num / den in
  let r := num mod den in
  if 2 * r <? den then q
  else if den <? 2 * r then q + 1
  else if Z.even q then q else q + 1.

(** The integer nearest to [m * 2^e * 10^d]. *)
Definition scaled (d : nat) (m : positive) (e : Z) : Z :=
  let x := Z.pos m * 10 ^ Z.of_nat d in
  if 0 <=? e then x * 2 ^ e else round_half_even x (2 ^ (- e)).

Fixpoint zero_pad (width : nat) (s : string) : string :=
  match width with
  | O => s
  | S w => if (String.length s <? S w)%nat then zero_pad w ("0" +:+ s) else s
  end.

Definition digits (d : nat) (n : Z) : string :=
  let p := 10 ^ Z.of_nat d in
  let int_part := pretty (Z.to_N (n / p)) in
  match d with
  | O => int_part
  | S _ => int_part +:+ "." +:+ zero_pad d (pretty (Z.to_N (n mod p)))
  end.

Definition sign_of (s : bool) : string := if s then "-" else "".

Definition format_fixed (d : nat) (x : float) : string :=
  match Prim2SF x with
  | S754_nan => "nan"
  | S754_infinity s => sign_of s +:+ "inf"
  | S754_zero s => sign_of s +:+ digits d 0
  | S754_finite s m e => sign_of s +:+ digits d (scaled d m e)
  end.

End PyFormat.

(** ** [TechnicalAnalyzer] *)

Module Analyzer.

(** The functions of the third-party [ta] package that the class calls,
    with the default windows the calls leave implicit.  They are taken as
    pure functions from input series to an output series. *)
Record TaLib := {
  sma_indicator : Series → Z → Series;
  ema_indicator : Series → Z → Series;
  macd : Series → Series;
  macd_signal : Series → Series;
  macd_diff : Series → Series;
  bollinger_hband : Series → Series;
  bollinger_mavg : Series → Series;
  bollinger_lband : Series → Series;
  bollinger_pband : Series → Series;
  bollinger_wband : Series → Series;
  psar_up : Series → Series → Series → Series;
  ichimoku_a : Series → Series → Series;
  ichimoku_b : Series → Series → Series;
  rsi : Series → Z → Series;
  stoch : Series → Series → Series → Series;
  stoch_signal : Series → Series → Series → Series;
  williams_r : Series → Series → Series → Series;
  cci : Series → Series → Series → Series;
  roc : Series → Z → Series;
  ultimate_oscillator : Series → Series → Series → Series;
  average_true_range : Series → Series → Series → Series;
  donchian_channel_hband : Series → Series → Series → Series;
  donchian_channel_lband : Series → Series → Series → Series;
  donchian_channel_mband : Series → Series → Series → Series;
  keltner_channel_hband : Series → Series → Series → Series;
  keltner_channel_lband : Series → Series → Series → Series;
  keltner_channel_mband : Series → Series → Series → Series;
  on_balance_volume : Series → Series → Series;
  acc_dist_index : Series → Series → Series → Series → Series;
  money_flow_index : Series → Series → Series → Series → Series;
  volume_weighted_average_price : Series → Series → Series → Series → Series;
  ease_of_movement : Series → Series → Series → Series
}.

(** The object state: [self.data] and [self.indicators]. *)
Record analyzer := Analyzer {
  data : DataFrame;
  indicators : gmap string Series
}.

(** [TechnicalAnalyzer(data)]: a private copy of the frame, no indicator. *)
Definition init (d : DataFrame) : analyzer := Analyzer d ∅.

(** [self.indicators.update(new)]: the new entries win. *)
Definition update_indicators (new : gmap string Series) (a : analyzer) : analyzer :=
  Analyzer (data a) (new ∪ indicators a).

Section Indicators.
Variable ta : TaLib.

Definition calculate_trend_indicators (a : analyzer)
  : gmap string Series * analyzer :=
  let close := column Close (data a) in
  let high := column High (data a) in
  let low := column Low (data a) in
  let inds : gmap string Series := ∅ in
  let inds :=
    foldl (λ m period, <["SMA_" +:+ pretty period := sma_indicator ta close period]> m)
          inds [5; 10; 20; 50; 100; 200] in
  let inds :=
    foldl (λ m period, <["EMA_" +:+ pretty period := ema_indicator ta close period]> m)
          inds [12; 26; 50] in
  let inds := <["MACD" := macd ta close]> inds in
  let inds := <["MACD_signal" := macd_signal ta close]> inds in
  let inds := <["MACD_histogram" := macd_diff ta close]> inds in
  let inds := <["BB_upper" := bollinger_hband ta close]> inds in
  let inds := <["BB_middle" := bollinger_mavg ta close]> inds in
  let inds := <["BB_lower" := bollinger_lband ta close]> inds in
  let inds := <["BB_percent" := bollinger_pband ta close]> inds in
  let inds := <["BB_width" := bollinger_wband ta close]> inds in
  let inds := <["PSAR" := psar_up ta high low close]> inds in
  let inds := <["Ichimoku_a" := ichimoku_a ta high low]> inds in
  let inds := <["Ichimoku_b" := ichimoku_b ta high low]> inds in
  (inds, update_indicators inds a).

Definition calculate_momentum_indicators (a : analyzer)
  : gmap string Series * analyzer :=
  let close := column Close (data a) in
  let high := column High (data a) in
  let low := column Low (data a) in
  let inds : gmap string Series := ∅ in
  let inds :=
    foldl (λ m period, <["RSI_" +:+ pretty period := rsi ta close period]> m)
          inds [14; 21] in
  let inds := <["Stoch_K" := stoch ta high low close]> inds in
  let inds := <["Stoch_D" := stoch_signal ta high low close]> inds in
  let inds := <["Williams_R" := williams_r ta high low close]> inds in
  let inds := <["CCI" := cci ta high low close]> inds in
  let inds := <["Momentum" := roc ta close 10]> inds in
  let inds := <["Ultimate_Oscillator" := ultimate_oscillator ta high low close]> inds in
  (inds, update_indicators inds a).

Definition calculate_volatility_indicators (a : analyzer)
  : gmap string Series * analyzer :=
  let close := column Close (data a) in
  let high := column High (data a) in
  let low := column Low (data a) in
  let inds : gmap string Series := ∅ in
  let inds := <["ATR" := average_true_range ta high low close]> inds in
  let inds := <["Donchian_high" := donchian_channel_hband ta high low close]> inds in
  let inds := <["Donchian_low" := donchian_channel_lband ta high low close]> inds in
  let inds := <["Donchian_middle" := donchian_channel_mband ta high low close]> inds in
  let inds := <["Keltner_high" := keltner_channel_hband ta high low close]> inds in
  let inds := <["Keltner_low" := keltner_channel_lband ta high low close]> inds in
  let inds := <["Keltner_middle" := keltner_channel_mband ta high low close]> inds in
  (inds, update_indicators inds a).

Definition calculate_volume_indicators (a : analyzer)
  : gmap string Series * analyzer :=
  let close := column Close (data a) in
  let high := column High (data a) in
  let low := column Low (data a) in
  let volume := column Volume (data a) in
  let inds : gmap string Series := ∅ in
  let inds := <["OBV" := on_balance_volume ta close volume]> inds in
  let inds := <["AD" := acc_dist_index ta high low close volume]> inds in
  let inds := <["MFI" := money_flow_index ta high low close volume]> inds in
  let inds := <["VWAP" := volume_weighted_average_price ta high low close volume]> inds in
  let inds := <["EMV" := ease_of_movement ta high low volume]> inds in
  let inds := <["Volume_SMA" := sma_indicator ta volume 20]> inds in
  (inds, update_indicators inds a).

(** The four families in the order of the source; the value returned is
    [self.indicators] itself. *)
Definition calculate_all_indicators (a : analyzer)
  : gmap string Series * analyzer :=
  let a := snd (calculate_trend_indicators a) in
  let a := snd (calculate_momentum_indicators a) in
  let a := snd (calculate_volatility_indicators a) in
  let a := snd (calculate_volume_indicators a) in
  (indicators a, a).

End Indicators.

(** *** Signal scoring

    [signals] is the dictionary [{'buy': [], 'sell': [], 'neutral': [],
    'score': 0}] that [generate_trading_signals] builds and mutates in
    place.  A statement of the [try] block is a [Scorer]: it reads and
    updates that dictionary and either completes or raises; what it wrote
    before raising stays written. *)

Record signals := Signals {
  buy : list string;
  sell : list string;
  neutral : list string;
  score : Z
}.

Definition Scorer (A : Type) : Type := signals → outcome A * signals.

#[global] Instance Scorer_ret : MRet Scorer := λ A x s, (Ok x, s).
#[global] Instance Scorer_bind : MBind Scorer := λ A B f m s,
  match m s with
  | (Ok x, s') => f x s'
  | (Raise e, s') => (Raise e, s')
  end.

(** An expression that reads no signal. *)
Definition eval {A} (o : outcome A) : Scorer A := λ s, (o, s).

(** [signals['buy'].append(l)] and its two siblings. *)
Definition append_buy (l : string) : Scorer unit :=
  λ s, (Ok tt, Signals (buy s ++ [l]) (sell s) (neutral s) (score s)).
Definition append_sell (l : string) : Scorer unit :=
  λ s, (Ok tt, Signals (buy s) (sell s ++ [l]) (neutral s) (score s)).
Definition append_neutral (l : string) : Scorer unit :=
  λ s, (Ok tt, Signals (buy s) (sell s) (neutral s ++ [l]) (score s)).

(** [signals['score'] += w]. *)
Definition add_score (w : Z) : Scorer unit :=
  λ s, (Ok tt, Signals (buy s) (sell s) (neutral s) (score s + w)).

(** [d[key]] on the indicator dictionary. *)
Definition getitem (d : gmap string Series) (key : string) : outcome Series :=
  match d !! key with
  | Some s => Ok s
  | None => Raise (Exn KeyError ("'" +:+ key +:+ "'"))
  end.

(** [self.indicators[key].iloc[i]]. *)
Definition indicator_at (a : analyzer) (key : string) (i : Z) : outcome float :=
  match getitem (indicators a) key with
  | Ok s => iloc s i
  | Raise e => Raise e
  end.

Definition fmt1 : float → string := PyFormat.format_fixed 1.
Definition fmt2 : float → string := PyFormat.format_fixed 2.

(** [any(pd.isna([...]))]. *)
Definition any_isna (l : list float) : bool := existsb is_nan l.

Section Rules.
Variable a : analyzer.
Variables latest_idx prev_idx : Z.

Definition rsi_rule : Scorer unit :=
  rsi ← eval (indicator_at a "RSI_14" latest_idx);
  if negb (is_nan rsi) then
    if (rsi <? 30)%float then
      append_buy ("RSI超卖 (" +:+ fmt1 rsi +:+ ")");; add_score 20
    else if (70 <? rsi)%float then
      append_sell ("RSI超买 (" +:+ fmt1 rsi +:+ ")");; add_score (-20)
    else append_neutral ("RSI正常 (" +:+ fmt1 rsi +:+ ")")
  else mret tt.

Definition macd_rule : Scorer unit :=
  macd_current ← eval (indicator_at a "MACD" latest_idx);
  macd_signal_current ← eval (indicator_at a "MACD_signal" latest_idx);
  macd_prev ← eval (indicator_at a "MACD" prev_idx);
  macd_signal_prev ← eval (indicator_at a "MACD_signal" prev_idx);
  if negb (any_isna [macd_current; macd_signal_current; macd_prev; macd_signal_prev]) then
    if (macd_signal_current <? macd_current)%float
       && (macd_prev <=? macd_signal_prev)%float then
      append_buy "MACD金叉";; add_score 25
    else if (macd_current <? macd_signal_current)%float
            && (macd_signal_prev <=? macd_prev)%float then
      append_sell "MACD死叉";; add_score (-25)
    else mret tt
  else mret tt.

Definition bollinger_rule : Scorer unit :=
  bb_percent ← eval (indicator_at a "BB_percent" latest_idx);
  if negb (is_nan bb_percent) then
    if (0.8 <? bb_percent)%float then
      append_sell ("布林带高位 (" +:+ fmt2 bb_percent +:+ ")");; add_score (-15)
    else if (bb_percent <? 0.2)%float then
      append_buy ("布林带低位 (" +:+ fmt2 bb_percent +:+ ")");; add_score 15
    else mret tt
  else mret tt.

Definition moving_average_rule : Scorer unit :=
  close_price ← eval (iloc (column Close (data a)) latest_idx);
  sma_20 ← eval (indicator_at a "SMA_20" latest_idx);
  sma_50 ← eval (indicator_at a "SMA_50" latest_idx);
  if negb (any_isna [close_price; sma_20; sma_50]) then
    let above_sma20 := (sma_20 <? close_price)%float in
    let above_sma50 := (sma_50 <? close_price)%float in
    if above_sma20 && above_sma50 then
      append_buy "价格高于主要均线";; add_score 15
    else if negb above_sma20 && negb above_sma50 then
      append_sell "价格低于主要均线";; add_score (-15)
    else mret tt
  else mret tt.

Definition williams_rule : Scorer unit :=
  wr ← eval (indicator_at a "Williams_R" latest_idx);
  if negb (is_nan wr) then
    if (-20 <? wr)%float then
      append_sell ("Williams %R超买 (" +:+ fmt1 wr +:+ ")");; add_score (-10)
    else if (wr <? -80)%float then
      append_buy ("Williams %R超卖 (" +:+ fmt1 wr +:+ ")");; add_score 10
    else mret tt
  else mret tt.

Definition mfi_rule : Scorer unit :=
  mfi ← eval (indicator_at a "MFI" latest_idx);
  if negb (is_nan mfi) then
    if (80 <? mfi)%float then
      append_sell ("MFI超买 (" +:+ fmt1 mfi +:+ ")");; add_score (-10)
    else if (mfi <? 20)%float then
      append_buy ("MFI超卖 (" +:+ fmt1 mfi +:+ ")");; add_score 10
    else mret tt
  else mret tt.

(** The six blocks of the [try] body, in source order. *)
Definition rules : list (Scorer unit) :=
  [rsi_rule; macd_rule; bollinger_rule; moving_average_rule;
   williams_rule; mfi_rule].

End Rules.

(** Statements in sequence: the first one that raises ends the run. *)
Definition run_rules (rs : list (Scorer unit)) : Scorer unit :=
  foldr (λ r k, r;; k) (mret tt) rs.

Definition empty_signals : signals := Signals [] [] [] 0.

Section Generate.
Variable ta : TaLib.

(** [if not self.indicators: self.calculate_all_indicators()]. *)
Definition ensure_indicators (a : analyzer) : analyzer :=
  if bool_decide (indicators a = ∅) then snd (calculate_all_indicators ta a)
  else a.

Definition latest_idx : Z := -1.
Definition prev_idx (a : analyzer) : Z :=
  if (1 <? length (data a))%nat then -2 else -1.

(** [try: ... except Exception as e: print(...)] followed by
    [return signals]: whatever the outcome of the body, the dictionary
    as it stands is returned. *)
Definition generate_trading_signals (a : analyzer) : signals * analyzer :=
  let a := ensure_indicators a in
  let '(_, sg) := run_rules (rules a latest_idx (prev_idx a)) empty_signals in
  (sg, a).

End Generate.

End Analyzer.

(** ** [CryptoDataFetcher] *)

Module Fetcher.

(** *** JSON documents, as [response.json()] returns them

    An object is the list of its members in document order, with distinct
    keys. *)
Inductive json :=
  | JNull
  | JBool (b : bool)
  | JInt (n : Z)
  | JFloat (f : float)
  | JStr (s : string)
  | JArr (items : list json)
  | JObj (members : list (string * json)).

(** The Python and pandas built-ins the converters call on a JSON value.
    [datetime_in_bounds n] tells whether [n] milliseconds since the epoch
    is a representable pandas timestamp. *)
Record PyBuiltins := {
  py_int : json → outcome Z;
  py_float : json → outcome float;
  datetime_in_bounds : Z → bool
}.

#[global] Instance outcome_ret : MRet outcome := λ A x, Ok x.
#[global] Instance outcome_bind : MBind outcome := λ A B f m,
  match m with
  | Ok x => f x
  | Raise e => Raise e
  end.

(** [bool(x)]. *)
Definition truthy (x : json) : bool :=
  match x with
  | JNull => false
  | JBool b => b
  | JInt n => negb (n =? 0)
  | JFloat f => negb (f =? 0)%float
  | JStr s => negb (String.eqb s "")
  | JArr items => match items with [] => false | _ => true end
  | JObj members => match members with [] => false | _ => true end
  end.

(** [len(x)]. *)
Definition py_len (x : json) : outcome nat :=
  match x with
  | JStr s => Ok (String.length s)
  | JArr items => Ok (length items)
  | JObj members => Ok (length members)
  | _ => Raise (Exn TypeError "object has no len()")
  end.

Fixpoint chars (s : string) : list json :=
  match s with
  | EmptyString => []
  | String c rest => JStr (String c EmptyString) :: chars rest
  end.

(** [for kline in x]: the items of a list, the keys of an object, the
    characters of a string. *)
Definition py_iter (x : json) : outcome (list json) :=
  match x with
  | JArr items => Ok items
  | JObj members => Ok (map (λ kv, JStr (fst kv)) members)
  | JStr s => Ok (chars s)
  | _ => Raise (Exn TypeError "object is not iterable")
  end.

(** [x[i]] for a literal position [i]. *)
Definition getitem (x : json) (i : nat) : outcome json :=
  match x with
  | JArr items =>
      match items !! i with
      | Some v => Ok v
      | None => Raise (Exn IndexError "list index out of range")
      end
  | JStr s =>
      match String.get i s with
      | Some c => Ok (JStr (String c EmptyString))
      | None => Raise (Exn IndexError "string index out of range")
      end
  | JObj _ => Raise (Exn KeyError (pretty i))
  | _ => Raise (Exn TypeError "object is not subscriptable")
  end.

Fixpoint assoc (key : string) (members : list (string * json)) : option json :=
  match members with
  | [] => None
  | (k, v) :: rest => if String.eqb k key then Some v else assoc key rest
  end.

(** [x.get(key)]: only a dictionary has the method. *)
Definition dict_get (x : json) (key : string) : outcome json :=
  match x with
  | JObj members => Ok (default JNull (assoc key members))
  | _ => Raise (Exn AttributeError "object has no attribute 'get'")
  end.

(** [x == '00000']. *)
Definition eq_str (x : json) (s : string) : bool :=
  match x with
  | JStr t => String.eqb t s
  | _ => false
  end.

(** *** Conversion of a candle payload *)

Section Convert.
Variable B : PyBuiltins.

(** [pd.to_datetime(n, unit='ms')]. *)
Definition to_datetime_ms (n : Z) : outcome Z :=
  if datetime_in_bounds B n then Ok n
  else Raise (Exn OutOfBoundsDatetime "cannot convert input with unit 'ms'").

(** The dictionary built for one [kline], fields in source order. *)
Definition convert_kline (kline : json) : outcome bar :=
  k0 ← getitem kline 0; n ← py_int B k0; ts ← to_datetime_ms n;
  k1 ← getitem kline 1; o ← py_float B k1;
  k2 ← getitem kline 2; h ← py_float B k2;
  k3 ← getitem kline 3; l ← py_float B k3;
  k4 ← getitem kline 4; c ← py_float B k4;
  k5 ← getitem kline 5; v ← py_float B k5;
  mret (Bar ts o h l c v).

(** The [for] loop filling [df_data]. *)
Fixpoint convert_klines (klines : list json) : outcome (list bar) :=
  match klines with
  | [] => mret []
  | kline :: rest =>
      row ← convert_kline kline;
      rows ← convert_klines rest;
      mret (row :: rows)
  end.

(** [df = pd.DataFrame(df_data); df.set_index('timestamp', inplace=True)]:
    a frame built from no row has no column to index by. *)
Definition set_index (df_data : list bar) : outcome DataFrame :=
  match df_data with
  | [] => Raise (Exn KeyError "None of ['timestamp'] are in the columns")
  | _ => Ok df_data
  end.

Definition earlier_or_same (x y : bar) : Prop := timestamp x ≤ timestamp y.

#[global] Instance earlier_or_same_dec x y : Decision (earlier_or_same x y) :=
  Z.le_dec (timestamp x) (timestamp y).

(** [df.sort_index()].  The relative order of rows with equal
    timestamps is left to the sorting algorithm; nothing below depends
    on it. *)
Definition sort_index (df : DataFrame) : DataFrame :=
  merge_sort earlier_or_same df.

Definition _convert_bitget_to_ohlcv (data : json) : outcome DataFrame :=
  klines ← py_iter data;
  df_data ← convert_klines klines;
  df ← set_index df_data;
  mret (sort_index df).

Definition _convert_binance_to_ohlcv (data : json) : outcome DataFrame :=
  klines ← py_iter data;
  df_data ← convert_klines klines;
  set_index df_data.

End Convert.

(** *** Strings of error messages *)

Definition lower_char (c : ascii) : ascii :=
  let n := nat_of_ascii c in
  if (65 <=? n)%nat && (n <=? 90)%nat then ascii_of_nat (n + 32) else c.

Definition upper_char (c : ascii) : ascii :=
  let n := nat_of_ascii c in
  if (97 <=? n)%nat && (n <=? 122)%nat then ascii_of_nat (n - 32) else c.

Fixpoint map_chars (f : ascii → ascii) (s : string) : string :=
  match s with
  | EmptyString => EmptyString
  | String c rest => String (f c) (map_chars f rest)
  end.

(** [s.lower()] and [s.upper()], on the ASCII letters. *)
Definition lower : string → string := map_chars lower_char.
Definition upper : string → string := map_chars upper_char.

(** [needle in hay]. *)
Fixpoint contains (needle hay : string) : bool :=
  String.prefix needle hay
  || match hay with
     | EmptyString => false
     | String _ rest => contains needle rest
     end.

(** *** The outside world and the effects of a fetch *)

Inductive provider := Bitget | Binance.

(** The query of one [requests.get]. *)
Record request := Request {
  req_provider : provider;
  req_symbol : string;
  req_interval : string;
  req_limit : Z
}.

(** What [requests.get], [raise_for_status] and [response.json] yield
    together: an exception of one of them, or the decoded body. *)
Inductive http_result :=
  | HttpRaise (e : exn)
  | HttpJson (body : json).

(** [http n r] answers the [n]-th request sent when it is [r];
    [random n] is the [n]-th value drawn from [random.random()]. *)
Record world := {
  http : nat → request → http_result;
  random : nat → Q
}.

Inductive event :=
  | Requested (r : request)
  | Slept (seconds : Q).

Record io := Io {
  sent : nat;
  drawn : nat;
  trace : list event
}.

Definition io0 : io := Io 0 0 [].

Definition IO (A : Type) : Type := io → outcome A * io.

#[global] Instance IO_ret : MRet IO := λ A x st, (Ok x, st).
#[global] Instance IO_bind : MBind IO := λ A B f m st,
  match m st with
  | (Ok x, st') => f x st'
  | (Raise e, st') => (Raise e, st')
  end.

Definition lift {A} (o : outcome A) : IO A := λ st, (o, st).

(** [try: body except Exception as e: handler]. *)
Definition try_except {A} (body : IO A) (handler : exn → IO A) : IO A :=
  λ st, match body st with
        | (Ok x, st') => (Ok x, st')
        | (Raise e, st') => handler e st'
        end.

(** The configuration [__init__] stores. *)
Record fetcher := Fetcher_ {
  retry_count : Z;
  retry_delay : Q
}.

(** [CryptoDataFetcher()] and [create_fetcher()] with their defaults. *)
Definition default_fetcher : fetcher := Fetcher_ 5 2.
Definition create_fetcher : fetcher := Fetcher_ 3 2.

(** What one pass of an attempt loop does: [return df], or fall through
    to the next iteration. *)
Inductive attempt_result :=
  | Returned (df : DataFrame)
  | Continue.

(** [range(n)]. *)
Definition range (n : Z) : list Z := map Z.of_nat (seq 0 (Z.to_nat n)).

Section Fetch.
Variable B : PyBuiltins.
Variable w : world.
Variable self : fetcher.

(** [random.uniform(a, b)]. *)
Definition uniform (a b : Q) : IO Q :=
  λ st, (Ok (a + (b - a) * random w (drawn st))%Q,
         Io (sent st) (S (drawn st)) (trace st)).

(** [time.sleep(d)].  The interpreter turns the length into a signed
    64-bit count of nanoseconds before it looks at the sign: a length
    outside that range raises OverflowError, a negative length inside it
    ValueError. *)
Definition sleep_max : Q := 9223372036854775807 # 1000000000.
Definition sleep_min : Q := -9223372036854775808 # 1000000000.

Definition sleep (d : Q) : IO unit :=
  λ st, if Qle_bool sleep_min d && Qle_bool d sleep_max then
          if Qle_bool 0 d
          then (Ok tt, Io (sent st) (drawn st) (trace st ++ [Slept d]))
          else (Raise (Exn ValueError "sleep length must be non-negative"), st)
        else (Raise (Exn OverflowError
                       "timestamp too large to convert to C _PyTime_t"), st).

(** [requests.get(url, params, timeout=30)], [raise_for_status()] and
    [response.json()]. *)
Definition requests_get (r : request) : IO json :=
  λ st, let st' := Io (S (sent st)) (drawn st) (trace st ++ [Requested r]) in
        match http w (sent st) r with
        | HttpJson body => (Ok body, st')
        | HttpRaise e => (Raise e, st')
        end.

(** The exponential term of the backoff, as a number. *)
Definition exponential_term (attempt : Z) : Q :=
  retry_delay self * inject_Z (2 ^ attempt).

(** [self.retry_delay * (2 ** attempt)] as Python evaluates it: the
    product converts the integer power to a float, which raises
    OverflowError from [2 ** 1024] on. *)
Definition exponential_product (attempt : Z) : outcome Q :=
  if attempt <? 1024 then Ok (exponential_term attempt)
  else Raise (Exn OverflowError "int too large to convert to float").

Definition is_rate_limit (error_msg : string) : bool :=
  contains "429" error_msg || contains "rate limit" error_msg.

(** The [except] block shared by both loops, up to its constants: the
    jitter bounds [lo], [hi] and the rate-limit floor
    [floor + uniform(flo, fhi)]. *)
Definition backoff (lo hi floor flo fhi : Q) (attempt : Z) (e : exn)
  : IO attempt_result :=
  let error_msg := lower (exn_msg e) in
  (if attempt <? retry_count self - 1 then
     term ← lift (exponential_product attempt);
     jitter ← uniform lo hi;
     let delay := (term + jitter)%Q in
     delay ← (if is_rate_limit error_msg then
                extra ← uniform flo fhi;
                mret (Qmax delay (floor + extra))
              else mret delay);
     sleep delay
   else mret tt);;
  mret Continue.

(** The loop [for attempt in range(self.retry_count)] with its final
    [return None]. *)
Fixpoint attempts_loop (body : Z → IO attempt_result) (attempts : list Z)
  : IO (option DataFrame) :=
  match attempts with
  | [] => mret None
  | attempt :: rest =>
      r ← body attempt;
      match r with
      | Returned df => mret (Some df)
      | Continue => attempts_loop body rest
      end
  end.

(** What the [try] body of the Bitget loop does with the decoded body. *)
Definition bitget_result (result : json) : outcome attempt_result :=
  code ← dict_get result "code";
  if eq_str code "00000" then
    data ← dict_get result "data";
    if truthy data then
      n ← py_len data;
      if (0 <? n)%nat then
        df ← _convert_bitget_to_ohlcv B data;
        mret (Returned df)
      else mret Continue
    else mret Continue
  else mret Continue.

Definition bitget_request (symbol granularity : string) (limit : Z) : request :=
  Request Bitget (upper symbol) granularity (Z.min limit 200).

Definition bitget_attempt (symbol granularity : string) (limit : Z)
    (attempt : Z) : IO attempt_result :=
  try_except
    ((if 0 <? attempt then
        random_delay ← uniform 1 3; sleep random_delay
      else mret tt);;
     result ← requests_get (bitget_request symbol granularity limit);
     lift (bitget_result result))
    (backoff 1 3 10 5 15 attempt).

Definition get_crypto_data_bitget (symbol granularity : string) (limit : Z)
  : IO (option DataFrame) :=
  attempts_loop (bitget_attempt symbol granularity limit)
                (range (retry_count self)).

(** The same for the Binance loop. *)
Definition binance_result (data : json) : outcome attempt_result :=
  if truthy data then
    n ← py_len data;
    if (0 <? n)%nat then
      df ← _convert_binance_to_ohlcv B data;
      mret (Returned df)
    else mret Continue
  else mret Continue.

Definition binance_request (symbol interval : string) (limit : Z) : request :=
  Request Binance (upper symbol) interval (Z.min limit 1000).

Definition binance_attempt (symbol interval : string) (limit : Z)
    (attempt : Z) : IO attempt_result :=
  try_except
    ((if 0 <? attempt then
        random_delay ← uniform 0.5 2; sleep random_delay
      else mret tt);;
     data ← requests_get (binance_request symbol interval limit);
     lift (binance_result data))
    (backoff 1 2 5 2 8 attempt).

Definition get_crypto_data_binance (symbol interval : string) (limit : Z)
  : IO (option DataFrame) :=
  attempts_loop (binance_attempt symbol interval limit)
                (range (retry_count self)).

Definition granularity_map : gmap string string :=
  list_to_map
    [("1min", "1m"); ("5min", "5m"); ("15min", "15m"); ("30min", "30m");
     ("1h", "1h"); ("4h", "4h"); ("6h", "6h"); ("12h", "12h");
     ("1day", "1d"); ("1week", "1w")].

(** [granularity_map.get(granularity, '1d')]. *)
Definition binance_interval (granularity : string) : string :=
  default "1d" (granularity_map !! granularity).

Definition get_crypto_data (symbol granularity : string) (limit : Z)
  : IO (option DataFrame) :=
  data ← get_crypto_data_bitget symbol granularity limit;
  match data with
  | Some df => mret (Some df)
  | None =>
      data ← get_crypto_data_binance symbol (binance_interval granularity) limit;
      match data with
      | Some df => mret (Some df)
      | None => mret None
      end
  end.

End Fetch.

End Fetcher.

(** ** More of [crypto_data_fetcher.py]: batches, the convenience fetch,
    the ticker snapshot *)

Module FetcherMore.
Import Fetcher.

(** *** Batch and convenience entry points *)

Section Batch.
Variable B : PyBuiltins.
Variable w : world.
Variable self : fetcher.

(** The loop of [get_multiple_cryptos] over [enumerate(symbols, 1)]:
    [results[symbol] = data] on success, then a pause unless the symbol is
    the last one. *)
Fixpoint batch_loop (granularity : string) (limit : Z) (total_symbols : nat)
    (items : list (nat * string)) (results : gmap string DataFrame)
  : IO (gmap string DataFrame) :=
  match items with
  | [] => mret results
  | (i, symbol) :: rest =>
      data ← get_crypto_data B w self symbol granularity limit;
      let results :=
        match data with
        | Some df => <[symbol := df]> results
        | None => results
        end in
      (if (i <? total_symbols)%nat then
         delay ← uniform w 3 6; sleep delay
       else mret tt);;
      batch_loop granularity limit total_symbols rest results
  end.

Definition get_multiple_cryptos (symbols : list string) (granularity : string)
    (limit : Z) : IO (gmap string DataFrame) :=
  let total_symbols := length symbols in
  batch_loop granularity limit total_symbols
             (zip (seq 1 total_symbols) symbols) ∅.

End Batch.

(** [quick_get_crypto_data(symbol, days)]: a fetcher from [create_fetcher()],
    daily candles, [limit=days]. *)
Definition quick_get_crypto_data (B : PyBuiltins) (w : world)
    (symbol : string) (days : Z) : IO (option DataFrame) :=
  get_crypto_data B w create_fetcher symbol "1day" days.

(** *** Ticker snapshot *)

(** The dictionary [get_crypto_info] returns: the eleven fields of
    [key_info] with the symbol, or the symbol with an ['error'] entry. *)
Record key_info := KeyInfo {
  info_symbol : string;
  current_price : float;
  price_change_24h : float;
  price_change_percentage_24h : float;
  high_24h : float;
  low_24h : float;
  volume_24h : float;
  quote_volume_24h : float;
  bid_price : float;
  ask_price : float;
  open_price : float;
  info_timestamp : json
}.

Inductive crypto_info :=
  | Info (k : key_info)
  | InfoError (symbol : string) (error : json).

(** [x.get(key, fallback)]. *)
Definition dict_get_default (x : json) (key : string) (fallback : json)
  : outcome json :=
  match x with
  | JObj members => Ok (default fallback (assoc key members))
  | _ => Raise (Exn AttributeError "object has no attribute 'get'")
  end.

(** The search [for item in data_list: if item.get('symbol') ==
    symbol.upper(): data = item; break]. *)
Fixpoint find_ticker (symbol_upper : string) (data_list : list json)
  : outcome (option json) :=
  match data_list with
  | [] => Ok None
  | item :: rest =>
      s ← dict_get item "symbol";
      if eq_str s symbol_upper then Ok (Some item)
      else find_ticker symbol_upper rest
  end.

Section Info.
Variable B : PyBuiltins.
(** [tickers s] is what the ticker endpoint answers to the query
    [{'symbol': s}]. *)
Variable tickers : string → http_result.

(** [float(data.get(key, 0))]. *)
Definition ticker_field (data : json) (key : string) : outcome float :=
  v ← dict_get_default data key (JInt 0);
  py_float B v.

Definition extract_key_info (symbol : string) (data : json) : outcome key_info :=
  lastPr ← ticker_field data "lastPr";
  change24h ← ticker_field data "change24h";
  changeUtc24h ← ticker_field data "changeUtc24h";
  high24h ← ticker_field data "high24h";
  low24h ← ticker_field data "low24h";
  baseVolume ← ticker_field data "baseVolume";
  quoteVolume ← ticker_field data "quoteVolume";
  bidPr ← ticker_field data "bidPr";
  askPr ← ticker_field data "askPr";
  openUtc0 ← ticker_field data "openUtc0";
  ts ← dict_get_default data "ts" (JInt 0);
  mret (KeyInfo (upper symbol) lastPr change24h changeUtc24h high24h low24h
                baseVolume quoteVolume bidPr askPr openUtc0 ts).

(** The [try] body of [get_crypto_info]. *)
Definition crypto_info_body (symbol : string) : outcome crypto_info :=
  result ← match tickers (upper symbol) with
           | HttpJson body => Ok body
           | HttpRaise e => Raise e
           end;
  code ← dict_get result "code";
  data_list ← (if eq_str code "00000" then dict_get result "data" else Ok JNull);
  if eq_str code "00000" && truthy data_list then
    match data_list with
    | JArr items =>
        found ← find_ticker (upper symbol) items;
        match found with
        | Some data => k ← extract_key_info symbol data; mret (Info k)
        | None => Ok (InfoError symbol (JStr ("未找到交易对 " +:+ symbol)))
        end
    | data => k ← extract_key_info symbol data; mret (Info k)
    end
  else
    msg ← dict_get_default result "msg" (JStr "未知错误");
    Ok (InfoError symbol msg).

Definition get_crypto_info (symbol : string) : crypto_info :=
  match crypto_info_body symbol with
  | Ok info => info
  | Raise e => InfoError symbol (JStr (exn_msg e))
  end.

End Info.

End FetcherMore.

(** ** More of [TechnicalAnalyzer]: the indicator summary *)

Module AnalyzerMore.
Import Analyzer.
Import Fetcher.

(** *** Indicator summary *)

(** The two roundings [get_indicator_summary] applies: Python's [round] on
    a [float] and numpy's on a [float64], each to a number of decimals. *)
Record Rounding := {
  py_round : float → Z → float;
  np_round : float → Z → float
}.

Definition key_indicators : list string :=
  ["RSI_14"; "MACD"; "MACD_signal"; "BB_percent"; "ATR"; "MFI"; "Williams_R"; "CCI"].

Section Summary.
Variable R : Rounding.
Variable ta : TaLib.

(** The loop [for indicator in key_indicators]. *)
Fixpoint summarize_indicators (a : analyzer) (keys : list string)
    (summary : gmap string float) : outcome (gmap string float) :=
  match keys with
  | [] => Ok summary
  | indicator :: rest =>
      match indicators a !! indicator with
      | Some series =>
          value ← iloc series (-1);
          summarize_indicators a rest
            (if negb (is_nan value)
             then <[indicator := py_round R value 3]> summary
             else summary)
      | None => summarize_indicators a rest summary
      end
  end.

(** The loop [for period in [5, 20, 50]]. *)
Fixpoint summarize_prices (a : analyzer) (close_price : float) (periods : list Z)
    (summary : gmap string float) : outcome (gmap string float) :=
  match periods with
  | [] => Ok summary
  | period :: rest =>
      let sma_key := "SMA_" +:+ pretty period in
      match indicators a !! sma_key with
      | Some series =>
          sma_value ← iloc series (-1);
          summarize_prices a close_price rest
            (if negb (is_nan sma_value)
             then <["Price_vs_" +:+ sma_key
                    := np_round R ((close_price / sma_value - 1) * 100)%float 2]> summary
             else summary)
      | None => summarize_prices a close_price rest summary
      end
  end.

Definition get_indicator_summary (a : analyzer)
  : outcome (gmap string float) * analyzer :=
  let a := ensure_indicators ta a in
  (summary ← summarize_indicators a key_indicators ∅;
   close_price ← iloc (column Close (data a)) (-1);
   summarize_prices a close_price [5; 20; 50] summary,
   a).

End Summary.

End AnalyzerMore.

(** ** [StockDataFetcher] *)

Module StockFetcher.
Import Fetcher.

(** [CryptoDataFetcher] and [StockDataFetcher] store the same two fields;
    the defaults of the latter are five attempts and three seconds. *)
Definition default_stock_fetcher : fetcher := Fetcher_ 5 3.

Section Stock.
(** [history n symbol period interval] is what the [n]-th call of
    [yf.Ticker(symbol).history(period, interval, ...)] yields; the random
    draws come from [w]. *)
Variable history : nat → string → string → string → outcome DataFrame.
Variable w : world.
Variable self : fetcher.

(** The call itself; [sent] counts the calls, the trace keeps the sleeps. *)
Definition ticker_history (symbol period interval : string) : IO DataFrame :=
  λ st, (history (sent st) symbol period interval,
         Io (S (sent st)) (drawn st) (trace st)).

Definition is_too_many_requests (error_msg : string) : bool :=
  contains "too many requests" error_msg || contains "429" error_msg.

(** The [except] block of [get_stock_data]. *)
Definition stock_backoff (attempt : Z) (e : exn) : IO attempt_result :=
  let error_msg := lower (exn_msg e) in
  (if attempt <? retry_count self - 1 then
     term ← lift (exponential_product self attempt);
     jitter ← uniform w 1 3;
     let delay := (term + jitter)%Q in
     delay ← (if is_too_many_requests error_msg then
                extra ← uniform w 5 15;
                mret (Qmax delay (10 + extra))
              else mret delay);
     sleep delay
   else mret tt);;
  mret Continue.

Definition stock_attempt (symbol period interval : string) (attempt : Z)
  : IO attempt_result :=
  try_except
    ((if 0 <? attempt then
        random_delay ← uniform w 0.5 2; sleep random_delay
      else mret tt);;
     data ← ticker_history symbol period interval;
     match data with
     | [] => mret Continue
     | _ => mret (Returned data)
     end)
    (stock_backoff attempt).

Definition get_stock_data (symbol period interval : string)
  : IO (option DataFrame) :=
  attempts_loop (stock_attempt symbol period interval)
                (range (retry_count self)).

(** The loop of [get_multiple_stocks]; the interval is the default of
    [get_stock_data]. *)
Fixpoint stock_batch_loop (period : string) (total_symbols : nat)
    (items : list (nat * string)) (results : gmap string DataFrame)
  : IO (gmap string DataFrame) :=
  match items with
  | [] => mret results
  | (i, symbol) :: rest =>
      data ← get_stock_data symbol period "1d";
      let results :=
        match data with
        | Some df => <[symbol := df]> results
        | None => results
        end in
      (if (i <? total_symbols)%nat then
         delay ← uniform w 2 5; sleep delay
       else mret tt);;
      stock_batch_loop period total_symbols rest results
  end.

Definition get_multiple_stocks (symbols : list string) (period : string)
  : IO (gmap string DataFrame) :=
  let total_symbols := length symbols in
  stock_batch_loop period total_symbols
                   (zip (seq 1 total_symbols) symbols) ∅.

End Stock.

End StockFetcher.

(** ** Menus and displays of [crypto_analyzer.py] and [Stock_analyzer.py] *)

Module Presentation.
Import Analyzer.

(** The advice [analyze_crypto] prints for a score. *)
Definition crypto_recommendation (score : Z) : string :=
  if 60 <=? score then "强烈买入 🟢"
  else if 30 <=? score then "买入 🟡"
  else if -30 <=? score then "持有 ⚪"
  else if -60 <=? score then "卖出 🟠"
  else "强烈卖出 🔴".

(** Option 1 of the menu of [crypto_analyzer.main]: the granularity for
    the text typed (already stripped), and the limit for the integer it
    denotes, if any. *)
Definition menu_granularity_map : gmap string string :=
  list_to_map [("1", "1day"); ("2", "1hour"); ("3", "15min")].

Definition menu_granularity (typed : string) : string :=
  let granularity_choice := if String.eqb typed "" then "1" else typed in
  default "1day" (menu_granularity_map !! granularity_choice).

Definition menu_limit (typed : option Z) : Z :=
  match typed with
  | Some limit => Z.min (Z.max limit 10) 1000
  | None => 100
  end.

(** The period [analyze_single_stock] derives from the choice typed. *)
Definition period_map : gmap string string :=
  list_to_map [("1", "1mo"); ("2", "3mo"); ("3", "6mo"); ("4", "1y"); ("5", "2y")].

Definition stock_period (period_choice : string) : string :=
  default "3mo" (period_map !! period_choice).

(** The advice [display_analysis_result] prints. *)
Definition stock_recommendation (score : Z) : string :=
  if 30 <? score then "🚀 强烈买入"
  else if 10 <? score then "📈 买入"
  else if -10 <? score then "⚖️ 持有/观望"
  else if -30 <? score then "📉 卖出"
  else "🔻 强烈卖出".

(** [display_batch_results]: the label of a row, and the three totals
    printed under the table. *)
Definition row_recommendation (score : Z) : string :=
  if 10 <? score then "买入"
  else if -10 <? score then "持有"
  else "卖出".

Definition buy_count (results : list signals) : nat :=
  length (List.filter (λ r, 10 <? score r) results).

Definition hold_count (results : list signals) : nat :=
  length (List.filter (λ r, (-10 <=? score r) && (score r <=? 10)) results).

Definition sell_count (results : list signals) : nat :=
  length (List.filter (λ r, score r <? -10) results).

End Presentation.

(** ** Facts about [TechnicalAnalyzer] *)

Module AnalyzerFacts.
Import Analyzer.

(** *** Floats: a comparison that holds has no NaN operand *)

Lemma SFeqb_refl_not_nan x : x ≠ S754_nan → SFeqb x x = true.
Proof.
  destruct x as [s|s| |s m e]; intros H; try congruence; destruct s; try reflexivity;
    unfold SFeqb, SFcompare; rewrite ?Z.compare_refl, ?Pos.compare_refl; reflexivity.
Qed.

Lemma is_nan_Prim2SF x : is_nan x = false → Prim2SF x ≠ S754_nan.
Proof.
  unfold is_nan. rewrite FloatAxioms.eqb_spec. intros H E. rewrite E in H. discriminate.
Qed.

Lemma not_nan_is_nan x : Prim2SF x ≠ S754_nan → is_nan x = false.
Proof.
  intros H. unfold is_nan. rewrite FloatAxioms.eqb_spec, SFeqb_refl_not_nan; auto.
Qed.

Lemma ltb_true_not_nan x y :
  (x <? y)%float = true → is_nan x = false ∧ is_nan y = false.
Proof.
  rewrite ltb_spec. intros H.
  split; apply not_nan_is_nan; intros E; rewrite E in H;
    destruct (Prim2SF x), (Prim2SF y); discriminate.
Qed.


Ltac step_scorer := cbv [mbind Scorer_bind eval mret Scorer_ret append_buy append_sell append_neutral add_score].

(** C5.  In a state whose latest readings are RSI14 = 25, MACD and its
    signal line both 1.0 at the current and at the previous index (no
    cross), percent-b = 0.5, a close above both SMA20 and SMA50,
    Williams %R = -50 and MFI = 50, the report is
    buy = ["RSI超卖 (25.0)"; "价格高于主要均线"], sell = [], neutral = [] (no
    RSI entry there), score = 35. *)
Theorem C5_scenario_report (ta : TaLib) (a : analyzer) (close sma20 sma50 : float) :
  let a' := ensure_indicators ta a in
  indicator_at a' "RSI_14" latest_idx = Ok 25%float →
  indicator_at a' "MACD" latest_idx = Ok 1%float →
  indicator_at a' "MACD_signal" latest_idx = Ok 1%float →
  indicator_at a' "MACD" (prev_idx a') = Ok 1%float →
  indicator_at a' "MACD_signal" (prev_idx a') = Ok 1%float →
  indicator_at a' "BB_percent" latest_idx = Ok 0.5%float →
  iloc (column Close (data a')) latest_idx = Ok close →
  indicator_at a' "SMA_20" latest_idx = Ok sma20 →
  indicator_at a' "SMA_50" latest_idx = Ok sma50 →
  (sma20 <? close)%float = true →
  (sma50 <? close)%float = true →
  indicator_at a' "Williams_R" latest_idx = Ok (-50)%float →
  indicator_at a' "MFI" latest_idx = Ok 50%float →
  fst (generate_trading_signals ta a)
  = Signals ["RSI超卖 (25.0)"; "价格高于主要均线"] [] [] 35.
Proof.
  intros a' Hrsi Hm Hms Hmp Hmsp Hbb Hc H20 H50 Hlt20 Hlt50 Hwr Hmfi.
  destruct (ltb_true_not_nan _ _ Hlt20) as [N20 Nc].
  destruct (ltb_true_not_nan _ _ Hlt50) as [N50 _].
  unfold generate_trading_signals. fold a'.
  cbn [run_rules rules foldr].
  unfold rsi_rule, macd_rule, bollinger_rule, moving_average_rule, williams_rule, mfi_rule.
  step_scorer.
  rewrite Hrsi, Hm, Hms, Hmp, Hmsp, Hbb, Hc, H20, H50, Hwr, Hmfi.
  unfold any_isna; cbn [existsb].
  rewrite Nc, N20, N50, Hlt20, Hlt50.
  reflexivity.
Qed.

Definition scenario_analyzer : analyzer :=
  Analyzer [Bar 0 1 1 1 10 1]
    (<["RSI_14" := [25%float]]> (<["MACD" := [1%float]]> (<["MACD_signal" := [1%float]]>
     (<["BB_percent" := [0.5%float]]> (<["SMA_20" := [9%float]]> (<["SMA_50" := [8%float]]>
     (<["Williams_R" := [(-50)%float]]> (<["MFI" := [50%float]]> ∅)))))))).

Definition constant_ta : TaLib.
Proof. constructor; intros; exact []. Defined.

Lemma C5_scenario_report_witness :
  fst (generate_trading_signals constant_ta scenario_analyzer)
  = Signals ["RSI超卖 (25.0)"; "价格高于主要均线"] [] [] 35.
Proof.
  apply (C5_scenario_report constant_ta scenario_analyzer 10%float 9%float 8%float);
    vm_compute; reflexivity.
Defined.


Definition rule_table : list (string * Z) :=
  [("RSI超卖", 20); ("RSI超买", -20);
   ("MACD金叉", 25); ("MACD死叉", -25);
   ("布林带高位", -15); ("布林带低位", 15);
   ("价格高于主要均线", 15); ("价格低于主要均线", -15);
   ("Williams %R超买", -10); ("Williams %R超卖", 10);
   ("MFI超买", -10); ("MFI超卖", 10)].

Definition weight_of_label (l : string) : Z :=
  match find (λ '(p, _), String.prefix p l) rule_table with
  | Some (_, w) => w
  | None => 0
  end.

Definition sum_weights (ls : list string) : Z :=
  foldr (λ l acc, weight_of_label l + acc) 0 ls.

Definition triggered_weight (s : signals) : Z :=
  sum_weights (buy s) + sum_weights (sell s).

Definition undefined (o : outcome float) : bool :=
  match o with
  | Ok v => is_nan v
  | Raise _ => true
  end.

Definition required_values (a : analyzer) (latest prev : Z) : list (list (outcome float)) :=
  [ [indicator_at a "RSI_14" latest];
    [indicator_at a "MACD" latest; indicator_at a "MACD_signal" latest;
     indicator_at a "MACD" prev; indicator_at a "MACD_signal" prev];
    [indicator_at a "BB_percent" latest];
    [iloc (column Close (data a)) latest; indicator_at a "SMA_20" latest;
     indicator_at a "SMA_50" latest];
    [indicator_at a "Williams_R" latest];
    [indicator_at a "MFI" latest] ].

Lemma sum_weights_app l1 l2 : sum_weights (l1 ++ l2) = sum_weights l1 + sum_weights l2.
Proof.
  unfold sum_weights.
  induction l1 as [|x l1 IH]; cbn [foldr app]; [reflexivity | rewrite IH; lia].
Qed.

(** What one block of the [try] body may do to the dictionary: move the
    score and the weight of the listed entries by the same amount, at most
    [w] in absolute value, and nothing at all when it raises. *)
Record rule_ok (w : Z) (r : Scorer unit) : Prop := {
  rule_delta : ∀ s, ∃ δ, score (snd (r s)) = score s + δ
                        ∧ triggered_weight (snd (r s)) = triggered_weight s + δ
                        ∧ - w ≤ δ ≤ w;
  rule_atomic : ∀ s e s', r s = (Raise e, s') → s' = s
}.

Ltac case_read :=
  match goal with
  | |- context [match indicator_at ?a ?k ?i with _ => _ end] =>
      destruct (indicator_at a k i) as [?v|?e]
  | |- context [match iloc ?s ?i with _ => _ end] =>
      destruct (iloc s i) as [?v|?e]
  end.

Ltac case_if :=
  match goal with
  | |- context [if ?b then _ else _] => destruct b eqn:?
  end.

Ltac delta_tac :=
  cbn [snd buy sell neutral score]; unfold triggered_weight;
  cbn [snd buy sell neutral score]; rewrite ?sum_weights_app;
  first [ exists 0; split; [lia | split; [lia | lia]]
        | eexists; split; [reflexivity | split; [vm_compute sum_weights; lia | lia]] ].

Ltac rule_tac :=
  split;
  [ intros s; step_scorer; repeat case_read; repeat case_if; delta_tac
  | intros s e s'; step_scorer; repeat case_read; repeat case_if;
    intros [= <- <-]; reflexivity ].

Lemma rsi_rule_ok a l : rule_ok 20 (rsi_rule a l).
Proof. unfold rsi_rule. rule_tac. Qed.

Lemma macd_rule_ok a l p : rule_ok 25 (macd_rule a l p).
Proof. unfold macd_rule. rule_tac. Qed.

Lemma bollinger_rule_ok a l : rule_ok 15 (bollinger_rule a l).
Proof. unfold bollinger_rule. rule_tac. Qed.

Lemma moving_average_rule_ok a l : rule_ok 15 (moving_average_rule a l).
Proof. unfold moving_average_rule. rule_tac. Qed.

Lemma williams_rule_ok a l : rule_ok 10 (williams_rule a l).
Proof. unfold williams_rule. rule_tac. Qed.

Lemma mfi_rule_ok a l : rule_ok 10 (mfi_rule a l).
Proof. unfold mfi_rule. rule_tac. Qed.


Lemma run_rules_cons r rs s :
  run_rules (r :: rs) s
  = match r s with
    | (Ok _, s') => run_rules rs s'
    | (Raise e, s') => (Raise e, s')
    end.
Proof. reflexivity. Qed.

Lemma run_rules_app pre suf s :
  run_rules (pre ++ suf) s
  = match run_rules pre s with
    | (Ok _, s') => run_rules suf s'
    | (Raise e, s') => (Raise e, s')
    end.
Proof.
  revert s. induction pre as [|r pre IH]; intros s; [reflexivity|].
  cbn [app]. rewrite !run_rules_cons.
  destruct (r s) as [[[]|e] s1]; [apply IH | reflexivity].
Qed.

Definition total_weight (ws : list Z) : Z := foldr Z.add 0 ws.

Lemma run_rules_delta ws rs :
  Forall2 rule_ok ws rs →
  ∀ s, ∃ δ, score (snd (run_rules rs s)) = score s + δ
            ∧ triggered_weight (snd (run_rules rs s)) = triggered_weight s + δ
            ∧ - total_weight ws ≤ δ ≤ total_weight ws.
Proof.
  induction 1 as [|w r ws rs Hr _ IH]; intros s.
  - exists 0. cbn. lia.
  - rewrite run_rules_cons.
    destruct (rule_delta _ _ Hr s) as (d1 & Hs1 & Ht1 & Hb1).
    assert (0 ≤ total_weight ws) as Hpos.
    { destruct (IH s) as (d & _ & _ & Hd). lia. }
    destruct (r s) as [[[]|e] s1]; cbn [snd] in *.
    + destruct (IH s1) as (d2 & Hs2 & Ht2 & Hb2).
      exists (d1 + d2). cbn [total_weight foldr]. fold (total_weight ws). lia.
    + exists d1. cbn [total_weight foldr]. fold (total_weight ws). lia.
Qed.

Lemma rules_ok a l p : Forall2 rule_ok [20; 25; 15; 15; 10; 10] (rules a l p).
Proof.
  unfold rules.
  apply List.Forall2_cons; [apply rsi_rule_ok|].
  apply List.Forall2_cons; [apply macd_rule_ok|].
  apply List.Forall2_cons; [apply bollinger_rule_ok|].
  apply List.Forall2_cons; [apply moving_average_rule_ok|].
  apply List.Forall2_cons; [apply williams_rule_ok|].
  apply List.Forall2_cons; [apply mfi_rule_ok|].
  apply List.Forall2_nil.
Qed.

Lemma generate_fst ta a :
  fst (generate_trading_signals ta a)
  = snd (run_rules (rules (ensure_indicators ta a) latest_idx
                      (prev_idx (ensure_indicators ta a))) empty_signals).
Proof.
  unfold generate_trading_signals.
  destruct (run_rules _ _) as [o sg]. reflexivity.
Qed.

Definition aligned_buy_analyzer : analyzer :=
  Analyzer [Bar 0 1 1 1 9 1; Bar 1 1 1 1 10 1]
    (<["RSI_14" := [25; 25]%float]> (<["MACD" := [1; 3]%float]>
     (<["MACD_signal" := [2; 2]%float]> (<["BB_percent" := [0.5; 0.1]%float]>
     (<["SMA_20" := [9; 9]%float]> (<["SMA_50" := [8; 8]%float]>
     (<["Williams_R" := [-50; -90]%float]> (<["MFI" := [50; 10]%float]> ∅)))))))).

Definition aligned_sell_analyzer : analyzer :=
  Analyzer [Bar 0 1 1 1 9 1; Bar 1 1 1 1 7 1]
    (<["RSI_14" := [25; 75]%float]> (<["MACD" := [3; 1]%float]>
     (<["MACD_signal" := [2; 2]%float]> (<["BB_percent" := [0.5; 0.9]%float]>
     (<["SMA_20" := [9; 9]%float]> (<["SMA_50" := [8; 8]%float]>
     (<["Williams_R" := [-50; -10]%float]> (<["MFI" := [50; 90]%float]> ∅)))))))).

Lemma generate_score_sum ta a :
  let r := fst (generate_trading_signals ta a) in
  score r = triggered_weight r ∧ -95 ≤ score r ≤ 95.
Proof.
  cbn zeta. rewrite generate_fst.
  destruct (run_rules_delta _ _ (rules_ok (ensure_indicators ta a) latest_idx
              (prev_idx (ensure_indicators ta a))) empty_signals)
    as (d & Hs & Ht & Hb).
  cbn in Hb. change (score empty_signals) with 0 in Hs.
  change (triggered_weight empty_signals) with 0 in Ht.
  lia.
Qed.

(** C8, as amended.  The score of every report is the plain sum of the
    weights of the entries of its buy and sell lists, with no clamping;
    because at most one rule of each of the six blocks fires, it always
    lies between -95 and 95, and both ends are reached. *)
Theorem C8_score_is_unclamped_sum_within_95 (ta : TaLib) (a : analyzer) :
  let r := fst (generate_trading_signals ta a) in
  score r = triggered_weight r
  ∧ -95 ≤ score r ≤ 95
  ∧ score (fst (generate_trading_signals ta aligned_buy_analyzer)) = 95
  ∧ score (fst (generate_trading_signals ta aligned_sell_analyzer)) = -95.
Proof.
  cbn zeta. destruct (generate_score_sum ta a) as [Hsum Hb].
  repeat split; try lia; vm_compute; reflexivity.
Qed.

(** C8 as stated fails: no evaluation gives a score above 100 or below
    -100. *)
Lemma C8_score_never_exceeds_100 :
  ¬ ∃ (ta : TaLib) (a : analyzer),
      100 < score (fst (generate_trading_signals ta a))
      ∨ score (fst (generate_trading_signals ta a)) < -100.
Proof.
  intros (ta & a & H).
  destruct (generate_score_sum ta a) as [_ ?]. lia.
Qed.


Lemma rule_ok_in a l p r :
  In r (rules a l p) → ∃ w, rule_ok w r.
Proof.
  unfold rules. cbn [In].
  intros [<-|[<-|[<-|[<-|[<-|[<-|[]]]]]]];
    eauto using rsi_rule_ok, macd_rule_ok, bollinger_rule_ok,
      moving_average_rule_ok, williams_rule_ok, mfi_rule_ok.
Qed.

(** C10.  When a block of the rule sequence raises (a missing indicator
    key, a position out of bounds), [generate_trading_signals] still
    returns, and the report is exactly the dictionary as the blocks before
    the failing one left it: their entries and score are kept, the failing
    block and all later ones add nothing. *)
Theorem C10_partial_report_on_exception
    (ta : TaLib) (a : analyzer)
    (pre suf : list (Scorer unit)) (r : Scorer unit) (s1 : signals) (e : exn) :
  let a' := ensure_indicators ta a in
  rules a' latest_idx (prev_idx a') = (pre ++ r :: suf)%list →
  run_rules pre empty_signals = (Ok tt, s1) →
  fst (r s1) = Raise e →
  generate_trading_signals ta a = (s1, a').
Proof.
  intros a' Hsplit Hpre Hr.
  unfold generate_trading_signals. fold a'.
  rewrite Hsplit, run_rules_app, Hpre, run_rules_cons.
  destruct (r s1) as [o s2] eqn:Ers. cbn [fst] in Hr. subst o.
  destruct (rule_ok_in a' latest_idx (prev_idx a') r) as [w Hw].
  { rewrite Hsplit. apply in_or_app. right. left. reflexivity. }
  rewrite (rule_atomic _ _ Hw _ _ _ Ers). reflexivity.
Qed.

Definition momentum_only_analyzer : analyzer :=
  Analyzer [Bar 0 1 1 1 9 1; Bar 1 1 1 1 10 1]
    (<["RSI_14" := [50; 25]%float]> (<["Williams_R" := [-50; -90]%float]> ∅)).

Lemma ensure_momentum_only ta :
  ensure_indicators ta momentum_only_analyzer = momentum_only_analyzer.
Proof. reflexivity. Qed.

Lemma C10_partial_report_on_exception_witness :
  generate_trading_signals constant_ta momentum_only_analyzer
  = (Signals ["RSI超卖 (25.0)"] [] [] 20, momentum_only_analyzer).
Proof.
  pose proof (C10_partial_report_on_exception constant_ta momentum_only_analyzer
           [rsi_rule momentum_only_analyzer (-1)]
           [bollinger_rule momentum_only_analyzer (-1);
            moving_average_rule momentum_only_analyzer (-1);
            williams_rule momentum_only_analyzer (-1);
            mfi_rule momentum_only_analyzer (-1)]
           (macd_rule momentum_only_analyzer (-1) (-2))
           (Signals ["RSI超卖 (25.0)"] [] [] 20)
           (Exn KeyError "'MACD'")) as H.
  cbv zeta in H. rewrite ensure_momentum_only in H.
  apply H.
  - reflexivity.
  - vm_compute. reflexivity.
  - vm_compute. reflexivity.
Defined.


Ltac skip_tac :=
  intros H s; revert H; step_scorer; repeat case_read;
  unfold any_isna; cbn [existsb undefined orb];
  repeat (match goal with |- context [is_nan ?v] => destruct (is_nan v) end);
  cbn [negb orb andb]; intros H; try discriminate H; reflexivity.

Definition skipped_when_undefined (reqs : list (outcome float)) (r : Scorer unit) : Prop :=
  existsb undefined reqs = true → ∀ s, snd (r s) = s.

Lemma rules_skipped a l p :
  Forall2 skipped_when_undefined (required_values a l p) (rules a l p).
Proof.
  unfold rules, required_values, skipped_when_undefined.
  apply List.Forall2_cons; [unfold rsi_rule; skip_tac|].
  apply List.Forall2_cons; [unfold macd_rule; skip_tac|].
  apply List.Forall2_cons; [unfold bollinger_rule; skip_tac|].
  apply List.Forall2_cons; [unfold moving_average_rule; skip_tac|].
  apply List.Forall2_cons; [unfold williams_rule; skip_tac|].
  apply List.Forall2_cons; [unfold mfi_rule; skip_tac|].
  apply List.Forall2_nil.
Qed.

Lemma run_rules_all_skipped (reqs : list (list (outcome float))) rs :
  Forall2 skipped_when_undefined reqs rs →
  Forall (λ q, existsb undefined q = true) reqs →
  ∀ s, snd (run_rules rs s) = s.
Proof.
  induction 1 as [|q r reqs rs Hr _ IH]; intros Hall s; [reflexivity|].
  apply Forall_cons in Hall as [Hq Hall].
  rewrite run_rules_cons. specialize (Hr Hq s).
  destruct (r s) as [[[]|e] s1]; cbn [snd] in *; subst s1; auto.
Qed.

(** C6.  A block one of whose required values is undefined (NaN, or not
    readable at all) leaves the report untouched: no entry in any list, no
    weight.  When that is so for every block -- in particular when every
    required indicator is NaN -- the report is buy = [], sell = [],
    neutral = [], score = 0; the function returns a report in every
    case. *)
Theorem C6_undefined_rules_are_skipped (ta : TaLib) (a : analyzer) :
  let a' := ensure_indicators ta a in
  Forall2 skipped_when_undefined
    (required_values a' latest_idx (prev_idx a'))
    (rules a' latest_idx (prev_idx a'))
  ∧ (Forall (λ q, existsb undefined q = true)
       (required_values a' latest_idx (prev_idx a')) →
     generate_trading_signals ta a = (empty_signals, a')).
Proof.
  intros a'. split; [apply rules_skipped|].
  intros Hall. unfold generate_trading_signals. fold a'.
  pose proof (run_rules_all_skipped _ _ (rules_skipped a' latest_idx (prev_idx a'))
                Hall empty_signals) as Hrun.
  destruct (run_rules _ _) as [o sg]. cbn [snd] in Hrun. subst sg. reflexivity.
Qed.

Definition nan_series (s : Series) : Series := map (λ _, nan) s.

Definition warmup_ta : TaLib :=
  {| sma_indicator := λ s _, nan_series s;
     ema_indicator := λ s _, nan_series s;
     macd := nan_series; macd_signal := nan_series; macd_diff := nan_series;
     bollinger_hband := nan_series; bollinger_mavg := nan_series;
     bollinger_lband := nan_series; bollinger_pband := nan_series;
     bollinger_wband := nan_series;
     psar_up := λ _ _ s, nan_series s;
     ichimoku_a := λ _ s, nan_series s;
     ichimoku_b := λ _ s, nan_series s;
     rsi := λ s _, nan_series s;
     stoch := λ _ _ s, nan_series s;
     stoch_signal := λ _ _ s, nan_series s;
     williams_r := λ _ _ s, nan_series s;
     cci := λ _ _ s, nan_series s;
     roc := λ s _, nan_series s;
     ultimate_oscillator := λ _ _ s, nan_series s;
     average_true_range := λ _ _ s, nan_series s;
     donchian_channel_hband := λ _ _ s, nan_series s;
     donchian_channel_lband := λ _ _ s, nan_series s;
     donchian_channel_mband := λ _ _ s, nan_series s;
     keltner_channel_hband := λ _ _ s, nan_series s;
     keltner_channel_lband := λ _ _ s, nan_series s;
     keltner_channel_mband := λ _ _ s, nan_series s;
     on_balance_volume := λ _ s, nan_series s;
     acc_dist_index := λ _ _ _ s, nan_series s;
     money_flow_index := λ _ _ _ s, nan_series s;
     volume_weighted_average_price := λ _ _ _ s, nan_series s;
     ease_of_movement := λ _ _ s, nan_series s |}.

Definition three_bars : DataFrame :=
  [Bar 1000 1 2 0.5 1.5 10; Bar 2000 1.5 3 1 2 20; Bar 3000 2 2.5 1 1 5]%float.

Lemma C6_undefined_rules_are_skipped_witness :
  fst (generate_trading_signals warmup_ta (init three_bars)) = empty_signals.
Proof.
  destruct (C6_undefined_rules_are_skipped warmup_ta (init three_bars)) as [_ H].
  rewrite H; [reflexivity|].
  vm_compute. repeat constructor.
Defined.


Section Families.
Variable ta : TaLib.

Definition trend_family (d : DataFrame) := fst (calculate_trend_indicators ta (init d)).
Definition momentum_family (d : DataFrame) := fst (calculate_momentum_indicators ta (init d)).
Definition volatility_family (d : DataFrame) := fst (calculate_volatility_indicators ta (init d)).
Definition volume_family (d : DataFrame) := fst (calculate_volume_indicators ta (init d)).

Definition all_indicators (d : DataFrame) : gmap string Series :=
  fst (calculate_all_indicators ta (init d)).

Inductive reachable (d : DataFrame) : analyzer → Prop :=
  | reach_init : reachable d (init d)
  | reach_trend a :
      reachable d a → reachable d (snd (calculate_trend_indicators ta a))
  | reach_momentum a :
      reachable d a → reachable d (snd (calculate_momentum_indicators ta a))
  | reach_volatility a :
      reachable d a → reachable d (snd (calculate_volatility_indicators ta a))
  | reach_volume a :
      reachable d a → reachable d (snd (calculate_volume_indicators ta a))
  | reach_all a :
      reachable d a → reachable d (snd (calculate_all_indicators ta a))
  | reach_signals a :
      reachable d a → reachable d (snd (generate_trading_signals ta a)).
End Families.

Ltac disjoint_by_keys :=
  apply (map_disjoint_dom_2 (D := gset string));
  apply (bool_decide_unpack _); vm_compute; exact I.

Section FamilyFacts.
Variable ta : TaLib.
Variable d : DataFrame.

Abbreviation T := (trend_family ta d).
Abbreviation M := (momentum_family ta d).
Abbreviation L := (volatility_family ta d).
Abbreviation V := (volume_family ta d).

Lemma trend_momentum_disjoint : T ##ₘ M.
Proof. disjoint_by_keys. Qed.
Lemma trend_volatility_disjoint : T ##ₘ L.
Proof. disjoint_by_keys. Qed.
Lemma trend_volume_disjoint : T ##ₘ V.
Proof. disjoint_by_keys. Qed.
Lemma momentum_volatility_disjoint : M ##ₘ L.
Proof. disjoint_by_keys. Qed.
Lemma momentum_volume_disjoint : M ##ₘ V.
Proof. disjoint_by_keys. Qed.
Lemma volatility_volume_disjoint : L ##ₘ V.
Proof. disjoint_by_keys. Qed.

Lemma all_indicators_unions :
  all_indicators ta d = V ∪ (L ∪ (M ∪ (T ∪ ∅))).
Proof. reflexivity. Qed.

Lemma calculate_all_unions a :
  data a = d →
  calculate_all_indicators ta a
  = (V ∪ (L ∪ (M ∪ (T ∪ indicators a))),
     Analyzer d (V ∪ (L ∪ (M ∪ (T ∪ indicators a))))).
Proof. intros <-. reflexivity. Qed.

Lemma lookup_all k :
  all_indicators ta d !! k
  = match V !! k, L !! k, M !! k with
    | Some v, _, _ => Some v
    | None, Some v, _ => Some v
    | None, None, Some v => Some v
    | None, None, None => T !! k
    end.
Proof.
  rewrite all_indicators_unions, !lookup_union, lookup_empty.
  destruct (V !! k), (L !! k), (M !! k), (T !! k); reflexivity.
Qed.

Lemma trend_subseteq : T ⊆ all_indicators ta d.
Proof.
  apply map_subseteq_spec. intros k v Hk. rewrite lookup_all.
  rewrite (map_disjoint_Some_l _ _ _ _ trend_volume_disjoint Hk).
  rewrite (map_disjoint_Some_l _ _ _ _ trend_volatility_disjoint Hk).
  rewrite (map_disjoint_Some_l _ _ _ _ trend_momentum_disjoint Hk).
  exact Hk.
Qed.

Lemma momentum_subseteq : M ⊆ all_indicators ta d.
Proof.
  apply map_subseteq_spec. intros k v Hk. rewrite lookup_all.
  rewrite (map_disjoint_Some_l _ _ _ _ momentum_volume_disjoint Hk).
  rewrite (map_disjoint_Some_l _ _ _ _ momentum_volatility_disjoint Hk).
  rewrite Hk. reflexivity.
Qed.

Lemma volatility_subseteq : L ⊆ all_indicators ta d.
Proof.
  apply map_subseteq_spec. intros k v Hk. rewrite lookup_all.
  rewrite (map_disjoint_Some_l _ _ _ _ volatility_volume_disjoint Hk).
  rewrite Hk. reflexivity.
Qed.

Lemma volume_subseteq : V ⊆ all_indicators ta d.
Proof.
  apply map_subseteq_spec. intros k v Hk. rewrite lookup_all, Hk. reflexivity.
Qed.

(** Entries that are already entries of the full set change nothing. *)
Lemma full_set_absorbs (old : gmap string Series) :
  old ⊆ all_indicators ta d →
  V ∪ (L ∪ (M ∪ (T ∪ old))) = all_indicators ta d.
Proof.
  intros Hold. apply map_eq. intros k.
  rewrite lookup_all, !lookup_union.
  destruct (V !! k) as [v|] eqn:EV, (L !! k) as [l|] eqn:EL,
           (M !! k) as [m|] eqn:EM, (T !! k) as [t|] eqn:ET;
    cbn; try (destruct (old !! k); reflexivity).
  destruct (old !! k) as [o|] eqn:EO; [|reflexivity].
  rewrite map_subseteq_spec in Hold. specialize (Hold k o EO).
  rewrite lookup_all, EV, EL, EM, ET in Hold. discriminate.
Qed.

Lemma reachable_invariant a :
  reachable ta d a → data a = d ∧ indicators a ⊆ all_indicators ta d.
Proof.
  induction 1 as [|a _ [Hd Hi]|a _ [Hd Hi]|a _ [Hd Hi]|a _ [Hd Hi]
                  |a _ [Hd Hi]|a _ [Hd Hi]].
  - split; [reflexivity | apply map_empty_subseteq].
  - split; [exact Hd|]. cbn. rewrite Hd.
    apply map_union_least; [apply trend_subseteq | exact Hi].
  - split; [exact Hd|]. cbn. rewrite Hd.
    apply map_union_least; [apply momentum_subseteq | exact Hi].
  - split; [exact Hd|]. cbn. rewrite Hd.
    apply map_union_least; [apply volatility_subseteq | exact Hi].
  - split; [exact Hd|]. cbn. rewrite Hd.
    apply map_union_least; [apply volume_subseteq | exact Hi].
  - rewrite (calculate_all_unions a Hd). cbn [snd data indicators].
    rewrite (full_set_absorbs _ Hi). split; reflexivity.
  - assert (snd (generate_trading_signals ta a) = ensure_indicators ta a) as ->.
    { unfold generate_trading_signals. destruct (run_rules _ _). reflexivity. }
    unfold ensure_indicators. case_bool_decide; [|split; assumption].
    rewrite (calculate_all_unions a Hd). cbn [snd data indicators].
    rewrite (full_set_absorbs _ Hi). split; reflexivity.
Qed.
End FamilyFacts.

(** C9.  Whatever methods were called on an analyzer of the series [d]
    before, [calculate_all_indicators] returns the same indicator set, the
    one a fresh analyzer of [d] computes, and leaves the object in the same
    state: the indicators kept between calls do not affect the result. *)
Theorem C9_full_indicator_set_depends_on_data_only
    (ta : TaLib) (d : DataFrame) (a : analyzer) :
  reachable ta d a →
  calculate_all_indicators ta a
  = (all_indicators ta d, Analyzer d (all_indicators ta d)).
Proof.
  intros Hr. destruct (reachable_invariant ta d a Hr) as [Hd Hi].
  rewrite (calculate_all_unions ta d a Hd), (full_set_absorbs ta d _ Hi).
  reflexivity.
Qed.

Lemma C9_full_indicator_set_depends_on_data_only_witness :
  let a := snd (calculate_momentum_indicators warmup_ta (init three_bars)) in
  calculate_all_indicators warmup_ta (snd (calculate_all_indicators warmup_ta a))
  = calculate_all_indicators warmup_ta (init three_bars).
Proof.
  intros a.
  rewrite (C9_full_indicator_set_depends_on_data_only warmup_ta three_bars
             (snd (calculate_all_indicators warmup_ta a))).
  - rewrite (C9_full_indicator_set_depends_on_data_only warmup_ta three_bars
               (init three_bars)); [reflexivity | apply reach_init].
  - apply reach_all, reach_momentum, reach_init.
Defined.

End AnalyzerFacts.

(** ** Facts about [CryptoDataFetcher] *)

Module FetcherFacts.
Import Fetcher.

Definition number_builtins : PyBuiltins :=
  {| py_int := λ x, match x with
                    | JInt n => Ok n
                    | _ => Raise (Exn TypeError "int() argument is not a JSON integer")
                    end;
     py_float := λ x, match x with
                      | JFloat f => Ok f
                      | _ => Raise (Exn TypeError "float() argument is not a JSON float")
                      end;
     datetime_in_bounds := λ n, (-9223372036854 <=? n) && (n <=? 9223372036854) |}.

Definition candle (ts : Z) (close : float) : json :=
  JArr [JInt ts; JFloat 1; JFloat 2; JFloat 0.5; JFloat close; JFloat 10].

Definition convert (B : PyBuiltins) (p : provider) (data : json) : outcome DataFrame :=
  match p with
  | Bitget => _convert_bitget_to_ohlcv B data
  | Binance => _convert_binance_to_ohlcv B data
  end.

Definition strictly_increasing (df : DataFrame) : Prop :=
  StronglySorted (λ x y, timestamp x < timestamp y) df.

(** *** Conversion *)

Lemma bind_Ok {A C} (m : outcome A) (f : A → outcome C) (c : C) :
  m ≫= f = Ok c → ∃ a, m = Ok a ∧ f a = Ok c.
Proof. destruct m as [a|e]; cbn; [eauto | discriminate]. Qed.

Lemma convert_klines_length B klines rows :
  convert_klines B klines = Ok rows → length rows = length klines.
Proof.
  revert rows. induction klines as [|k ks IH]; intros rows H; cbn in H.
  - injection H as <-. reflexivity.
  - apply bind_Ok in H as (row & _ & H). apply bind_Ok in H as (rest & Hrest & H).
    injection H as <-. cbn. f_equal. apply IH, Hrest.
Qed.

Lemma py_iter_len data klines :
  py_iter data = Ok klines → py_len data = Ok (length klines).
Proof.
  destruct data; cbn; intros [= <-]; try reflexivity.
  - f_equal. induction s as [|c s IH]; cbn; [reflexivity | f_equal; exact IH].
  - rewrite length_map. reflexivity.
Qed.

Lemma set_index_Ok rows df : set_index rows = Ok df → df = rows ∧ (1 ≤ length rows)%nat.
Proof. destruct rows; cbn; [discriminate|]. intros [= <-]. split; [reflexivity | cbn; lia]. Qed.

#[local] Instance earlier_or_same_total : Total earlier_or_same.
Proof. intros x y. unfold earlier_or_same. lia. Qed.

#[local] Instance earlier_or_same_trans : Transitive earlier_or_same.
Proof. intros x y z. unfold earlier_or_same. lia. Qed.

Lemma sorted_distinct_strict (l : DataFrame) :
  StronglySorted earlier_or_same l → NoDup (timestamp <$> l) → strictly_increasing l.
Proof.
  induction 1 as [|x l Hl IH Hx]; intros Hnd; [constructor|].
  cbn in Hnd. apply NoDup_cons in Hnd as [Hnotin Hnd].
  constructor; [apply IH, Hnd|].
  rewrite Forall_forall in Hx |- *. intros y Hy.
  specialize (Hx y Hy). unfold earlier_or_same in Hx.
  assert (timestamp x ≠ timestamp y).
  { intros E. apply Hnotin. rewrite E. apply list_elem_of_fmap_2. exact Hy. }
  lia.
Qed.

(** C1, as amended.  A successful conversion of a payload of N >= 1
    candle records, on either path, yields a frame of N rows which are the
    converted records up to order, so its timestamps are duplicate-free
    exactly when those of the payload are.  On the Bitget path the rows are
    sorted ascending by timestamp, hence strictly increasing when the
    payload has no duplicate timestamp. *)
Theorem C1_conversion_keeps_every_record (B : PyBuiltins) (p : provider)
    (data : json) (df : DataFrame) :
  convert B p data = Ok df →
  ∃ klines df_data,
    py_iter data = Ok klines
    ∧ py_len data = Ok (length klines)
    ∧ convert_klines B klines = Ok df_data
    ∧ (1 ≤ length klines)%nat
    ∧ length df = length klines
    ∧ df ≡ₚ df_data
    ∧ (NoDup (timestamp <$> df) ↔ NoDup (timestamp <$> df_data))
    ∧ (p = Bitget →
       Sorted earlier_or_same df
       ∧ (NoDup (timestamp <$> df_data) → strictly_increasing df)).
Proof.
  intros H.
  assert (∃ klines df_data, py_iter data = Ok klines
            ∧ convert_klines B klines = Ok df_data
            ∧ (1 ≤ length df_data)%nat
            ∧ df = match p with Bitget => sort_index df_data | Binance => df_data end)
    as (klines & df_data & Hiter & Hconv & Hlen & Hdf).
  { destruct p; cbn in H; unfold _convert_bitget_to_ohlcv, _convert_binance_to_ohlcv in H;
      apply bind_Ok in H as (klines & Hiter & H);
      apply bind_Ok in H as (df_data & Hconv & H).
    - apply bind_Ok in H as (df0 & Hset & H). injection H as <-.
      apply set_index_Ok in Hset as [-> Hlen]. eauto 10.
    - apply set_index_Ok in H as [-> Hlen]. eauto 10. }
  pose proof (convert_klines_length _ _ _ Hconv) as Hrows.
  assert (df ≡ₚ df_data) as Hperm.
  { subst df. destruct p; [apply merge_sort_Permutation | reflexivity]. }
  exists klines, df_data. repeat split; auto using py_iter_len.
  - lia.
  - rewrite Hperm. exact Hrows.
  - intros Hnd. rewrite <- Hperm. exact Hnd.
  - intros Hnd. rewrite Hperm. exact Hnd.
  - subst p df. apply Sorted_merge_sort; apply _.
  - intros Hnd. subst p df. apply sorted_distinct_strict.
    + apply StronglySorted_merge_sort; apply _.
    + unfold sort_index. rewrite merge_sort_Permutation. exact Hnd.
Qed.

Lemma C1_conversion_keeps_every_record_witness :
  ∃ df, convert number_builtins Bitget
          (JArr [candle 3000 1.5; candle 1000 1.2; candle 2000 1.1]) = Ok df
        ∧ length df = 3%nat ∧ strictly_increasing df.
Proof.
  eexists. split; [vm_compute; reflexivity|].
  destruct (C1_conversion_keeps_every_record number_builtins Bitget
              (JArr [candle 3000 1.5; candle 1000 1.2; candle 2000 1.1]) _ eq_refl)
    as (klines & df_data & Hiter & _ & Hconv & _ & Hlen & _ & _ & Hsorted).
  injection Hiter as <-. split; [exact Hlen|].
  apply Hsorted; [reflexivity|].
  vm_compute in Hconv. injection Hconv as <-.
  apply (bool_decide_unpack _). vm_compute. exact I.
Defined.

Definition duplicate_payload : json := JArr [candle 1000 1.5; candle 1000 1.6].
Definition descending_payload : json := JArr [candle 2000 1.5; candle 1000 1.6].

Lemma strictly_increasing_inv x y l :
  strictly_increasing (x :: y :: l) → timestamp x < timestamp y.
Proof.
  intros H. apply StronglySorted_inv in H as [_ H].
  apply Forall_inv in H. exact H.
Qed.

(** C1 as stated fails: a Bitget payload with a repeated timestamp
    converts to a frame that keeps both rows, and a Binance payload in
    descending order converts to a frame in that order. *)
Lemma C1_duplicates_survive_and_binance_keeps_payload_order :
  (∃ df, convert number_builtins Bitget duplicate_payload = Ok df
         ∧ length df = 2%nat
         ∧ ¬ strictly_increasing df ∧ ¬ NoDup (timestamp <$> df))
  ∧ (∃ df, convert number_builtins Binance descending_payload = Ok df
           ∧ length df = 2%nat
           ∧ ¬ strictly_increasing df ∧ ¬ Sorted earlier_or_same df).
Proof.
  split; eexists; (split; [vm_compute; reflexivity|]); (split; [reflexivity|]); split.
  - intros H. apply strictly_increasing_inv in H. cbn in H. lia.
  - cbn. intros H. apply NoDup_cons in H as [H _]. apply H. left.
  - intros H. apply strictly_increasing_inv in H. cbn in H. lia.
  - intros H. apply Sorted_inv in H as [_ H]. apply HdRel_inv in H.
    unfold earlier_or_same in H. cbn in H. lia.
Qed.


(** *** One attempt and the attempt loops *)

(** The constants by which the two loops differ: bounds of the delay
    before a repeated attempt, bounds of the backoff jitter, and the base
    and jitter bounds of the rate-limit floor. *)
Record policy := Policy {
  pre_lo : Q; pre_hi : Q;
  jit_lo : Q; jit_hi : Q;
  floor_base : Q; floor_lo : Q; floor_hi : Q
}.

Definition bitget_policy : policy := Policy 1 3 1 3 10 5 15.
Definition binance_policy : policy := Policy 0.5 2 1 2 5 2 8.

Definition policy_of (p : provider) : policy :=
  match p with Bitget => bitget_policy | Binance => binance_policy end.

(** A configuration all of whose backoffs can be computed and slept: the
    power [2 ** attempt] converts to a float for every attempt that backs
    off (the last one is attempt [retry_count - 2]), and the longest
    delay, the one of that attempt with the highest jitter, is a length
    [time.sleep] accepts. *)
Definition backoff_sleepable (self : fetcher) : Prop :=
  retry_count self ≤ 1025
  ∧ (exponential_term self (retry_count self - 2) + 3 <= sleep_max)%Q.

Section Attempts.
Variable B : PyBuiltins.
Variable w : world.
Variable self : fetcher.

(** What the [try] body makes of the answer to its request. *)
Definition classify (p : provider) (h : http_result) : outcome attempt_result :=
  match h with
  | HttpRaise e => Raise e
  | HttpJson body =>
      match p with
      | Bitget => bitget_result B body
      | Binance => binance_result B body
      end
  end.

Definition draw (lo hi : Q) (n : nat) : Q := (lo + (hi - lo) * random w n)%Q.

(** The state after the delay that precedes a repeated attempt. *)
Definition pre_state (pol : policy) (attempt : Z) (st : io) : io :=
  if 0 <? attempt
  then Io (sent st) (S (drawn st))
          (trace st ++ [Slept (draw (pre_lo pol) (pre_hi pol) (drawn st))])
  else st.

Definition request_state (r : request) (st : io) : io :=
  Io (S (sent st)) (drawn st) (trace st ++ [Requested r]).

(** The delay the [except] block computes when its first draw is the
    [n]-th. *)
Definition backoff_delay (pol : policy) (attempt : Z) (e : exn) (n : nat) : Q :=
  let delay := (exponential_term self attempt + draw (jit_lo pol) (jit_hi pol) n)%Q in
  if is_rate_limit (lower (exn_msg e))
  then Qmax delay (floor_base pol + draw (floor_lo pol) (floor_hi pol) (S n))
  else delay.

Definition backoff_state (pol : policy) (attempt : Z) (e : exn) (st : io) : io :=
  if attempt <? retry_count self - 1
  then Io (sent st)
          (if is_rate_limit (lower (exn_msg e)) then S (S (drawn st)) else S (drawn st))
          (trace st ++ [Slept (backoff_delay pol attempt e (drawn st))])
  else st.

Definition attempt_of (p : provider) (symbol interval : string) (limit : Z)
  : Z → IO attempt_result :=
  match p with
  | Bitget => bitget_attempt B w self symbol interval limit
  | Binance => binance_attempt B w self symbol interval limit
  end.

Definition request_of (p : provider) (symbol interval : string) (limit : Z)
  : request :=
  match p with
  | Bitget => bitget_request symbol interval limit
  | Binance => binance_request symbol interval limit
  end.

Hypothesis delay_nonneg : (0 <= retry_delay self)%Q.
Hypothesis random_unit : ∀ n, (0 <= random w n)%Q.

Lemma exponential_term_nonneg attempt : (0 <= exponential_term self attempt)%Q.
Proof.
  unfold exponential_term. apply Qmult_le_0_compat; [exact delay_nonneg|].
  change 0%Q with (inject_Z 0). rewrite <- Zle_Qle.
  destruct (Z.le_gt_cases 0 attempt).
  - apply Z.pow_nonneg. lia.
  - rewrite Z.pow_neg_r; lia.
Qed.

Lemma draw_ge lo hi n : (lo <= hi)%Q → (lo <= draw lo hi n)%Q.
Proof.
  intros Hle. unfold draw. pose proof (random_unit n) as Hr.
  assert (0 <= (hi - lo) * random w n)%Q.
  { apply Qmult_le_0_compat; [lra | exact Hr]. }
  lra.
Qed.

Lemma policy_bounds p :
  let pol := policy_of p in
  (0 <= pre_lo pol)%Q ∧ (pre_lo pol <= pre_hi pol)%Q
  ∧ (0 <= jit_lo pol)%Q ∧ (jit_lo pol <= jit_hi pol)%Q
  ∧ (floor_lo pol <= floor_hi pol)%Q.
Proof. destruct p; cbn; repeat split; lra. Qed.

Lemma backoff_delay_nonneg p attempt e n :
  (0 <= backoff_delay (policy_of p) attempt e n)%Q.
Proof.
  destruct (policy_bounds p) as (_ & _ & Hj0 & Hj & _).
  pose proof (exponential_term_nonneg attempt) as He.
  pose proof (draw_ge _ _ n Hj) as Hd.
  unfold backoff_delay. destruct (is_rate_limit _).
  - eapply Qle_trans; [|apply Q.le_max_l]. lra.
  - lra.
Qed.

Lemma sleep_in_range d st :
  (0 <= d)%Q → (d <= sleep_max)%Q →
  sleep d st = (Ok tt, Io (sent st) (drawn st) (trace st ++ [Slept d])).
Proof.
  intros Hd Hmax. unfold sleep.
  assert (sleep_min <= d)%Q as Hmin.
  { eapply Qle_trans; [|exact Hd]. unfold sleep_min. vm_compute. discriminate. }
  apply Qle_bool_iff in Hd, Hmax, Hmin. rewrite Hd, Hmax, Hmin. reflexivity.
Qed.

Hypothesis random_le : ∀ n, (random w n <= 1)%Q.

Lemma draw_le lo hi n : (lo <= hi)%Q → (draw lo hi n <= hi)%Q.
Proof.
  intros Hle. unfold draw. pose proof (random_le n) as Hr.
  assert (0 <= (hi - lo) * (1 - random w n))%Q.
  { apply Qmult_le_0_compat; lra. }
  lra.
Qed.

Hypothesis sleepable : backoff_sleepable self.

Lemma exponential_product_Ok attempt :
  attempt < retry_count self - 1 →
  exponential_product self attempt = Ok (exponential_term self attempt)
  ∧ (exponential_term self attempt + 3 <= sleep_max)%Q.
Proof.
  intros Hlt. destruct sleepable as [Hrc Hmax]. split.
  - unfold exponential_product.
    destruct (Z.ltb_spec attempt 1024); [reflexivity | lia].
  - unfold exponential_term in *.
    assert (inject_Z (2 ^ attempt) <= inject_Z (2 ^ (retry_count self - 2)))%Q as Hpow.
    { rewrite <- Zle_Qle. destruct (Z.le_gt_cases 0 attempt).
      - apply Z.pow_le_mono_r; lia.
      - rewrite (Z.pow_neg_r 2 attempt) by lia. apply Z.pow_nonneg. lia. }
    assert (0 <= retry_delay self
                 * (inject_Z (2 ^ (retry_count self - 2)) - inject_Z (2 ^ attempt)))%Q
      by (apply Qmult_le_0_compat; [exact delay_nonneg | lra]).
    lra.
Qed.

Lemma policy_upper p :
  let pol := policy_of p in
  (jit_hi pol <= 3)%Q ∧ (floor_base pol + floor_hi pol <= 25)%Q ∧ (pre_hi pol <= 25)%Q.
Proof. destruct p; cbn; repeat split; lra. Qed.

Lemma backoff_delay_le p attempt e n :
  attempt < retry_count self - 1 →
  (backoff_delay (policy_of p) attempt e n <= sleep_max)%Q.
Proof.
  intros Hlt.
  destruct (policy_bounds p) as (_ & _ & _ & Hj & Hf).
  destruct (policy_upper p) as (Hj3 & Hf25 & _).
  destruct (exponential_product_Ok attempt Hlt) as [_ He].
  pose proof (draw_le _ _ n Hj) as Hd.
  pose proof (draw_le _ _ (S n) Hf) as Hd'.
  assert (25 <= sleep_max)%Q as H25 by (unfold sleep_max; vm_compute; discriminate).
  unfold backoff_delay. destruct (is_rate_limit _); [apply Q.max_lub|]; lra.
Qed.

Lemma backoff_run p attempt e st :
  let pol := policy_of p in
  backoff w self (jit_lo pol) (jit_hi pol) (floor_base pol) (floor_lo pol)
          (floor_hi pol) attempt e st
  = (Ok Continue, backoff_state pol attempt e st).
Proof.
  intros pol. pose proof (backoff_delay_nonneg p attempt e (drawn st)) as Hd.
  unfold backoff, backoff_state.
  destruct (Z.ltb_spec attempt (retry_count self - 1)) as [Hlt|]; [|reflexivity].
  pose proof (backoff_delay_le p attempt e (drawn st) Hlt) as Hmax.
  destruct (exponential_product_Ok attempt Hlt) as [Hprod _].
  unfold backoff_delay in *. fold pol in Hd, Hmax.
  cbv [mbind IO_bind mret IO_ret uniform lift]. rewrite Hprod.
  destruct (is_rate_limit _); cbn [drawn sent trace];
    rewrite sleep_in_range by assumption; reflexivity.
Qed.

(** One pass of either loop, from any state. *)
Lemma attempt_run p symbol interval limit attempt st :
  let pol := policy_of p in
  let r := request_of p symbol interval limit in
  let st2 := request_state r (pre_state pol attempt st) in
  attempt_of p symbol interval limit attempt st
  = match classify p (http w (sent st) r) with
    | Ok res => (Ok res, st2)
    | Raise e => (Ok Continue, backoff_state pol attempt e st2)
    end.
Proof.
  intros pol r st2.
  destruct (policy_bounds p) as (Hp0 & Hp & _).
  destruct (policy_upper p) as (_ & _ & Hp25).
  pose proof (draw_ge _ _ (drawn st) Hp) as Hd.
  pose proof (draw_le _ _ (drawn st) Hp) as Hd'.
  assert (25 <= sleep_max)%Q as H25 by (unfold sleep_max; vm_compute; discriminate).
  assert (sent (pre_state pol attempt st) = sent st) as Hsent.
  { unfold pre_state. destruct (0 <? attempt); reflexivity. }
  pose proof (backoff_run p attempt) as Hb. fold pol in Hb, Hp0, Hd, Hd', Hp25.
  subst st2 r pol.
  destruct p; cbn [attempt_of request_of policy_of] in *;
    unfold bitget_attempt, binance_attempt, try_except;
    cbv [mbind IO_bind mret IO_ret lift];
    unfold pre_state in *; cbn [pre_lo pre_hi bitget_policy binance_policy] in *;
    destruct (0 <? attempt);
    cbv [uniform];
    rewrite ?sleep_in_range by (cbn [drawn]; unfold draw in Hd, Hd'; lra);
    unfold requests_get, request_state; cbn [sent drawn trace classify] in *;
    destruct (http w (sent st) _) as [e|body]; cbn [classify];
    try apply Hb;
    match goal with |- context [match ?o with Ok _ => _ | Raise _ => _ end] =>
      destruct o as [res|e] end; try reflexivity; apply Hb.
Qed.

End Attempts.


(** The requests of a trace, in the order sent. *)
Fixpoint requests (tr : list event) : list request :=
  match tr with
  | [] => []
  | Requested r :: rest => r :: requests rest
  | Slept _ :: rest => requests rest
  end.

Lemma requests_app tr1 tr2 : requests (tr1 ++ tr2) = (requests tr1 ++ requests tr2)%list.
Proof.
  induction tr1 as [|[r|d] tr1 IH]; cbn; [reflexivity | f_equal; exact IH | exact IH].
Qed.

(** *** What a call can send *)

(** Every request [m] adds to the trace satisfies [P], however [m] ends. *)
Definition sends_only {A} (P : request → Prop) (m : IO A) : Prop :=
  ∀ st rq, rq ∈ requests (trace (snd (m st))) → rq ∈ requests (trace st) ∨ P rq.

Lemma sends_only_keep {A} P (m : IO A) :
  (∀ st, requests (trace (snd (m st))) = requests (trace st)) → sends_only P m.
Proof. intros H st rq Hin. rewrite H in Hin. auto. Qed.

Lemma sends_only_bind {A A'} P (m : IO A) (f : A → IO A') :
  sends_only P m → (∀ x, sends_only P (f x)) → sends_only P (m ≫= f).
Proof.
  intros Hm Hf st rq. unfold mbind, IO_bind. specialize (Hm st rq).
  destruct (m st) as [[x|e] st1]; cbn [snd] in *.
  - intros Hin. destruct (Hf x st1 rq Hin) as [H|H]; auto.
  - exact Hm.
Qed.

Lemma sends_only_try {A} P (body : IO A) (handler : exn → IO A) :
  sends_only P body → (∀ e, sends_only P (handler e)) →
  sends_only P (try_except body handler).
Proof.
  intros Hm Hh st rq. unfold try_except. specialize (Hm st rq).
  destruct (body st) as [[x|e] st1]; cbn [snd] in *.
  - exact Hm.
  - intros Hin. destruct (Hh e st1 rq Hin) as [H|H]; auto.
Qed.

Lemma sends_only_ret {A} P (x : A) : sends_only P (mret x).
Proof. apply sends_only_keep. reflexivity. Qed.

Lemma sends_only_lift {A} P (o : outcome A) : sends_only P (lift o).
Proof. apply sends_only_keep. reflexivity. Qed.

Lemma sends_only_uniform P w a b : sends_only P (uniform w a b).
Proof. apply sends_only_keep. reflexivity. Qed.

Lemma sends_only_sleep P d : sends_only P (sleep d).
Proof.
  apply sends_only_keep. intros st. unfold sleep.
  destruct (_ && _); [destruct (Qle_bool 0 d)|]; cbn [snd trace]; try reflexivity.
  rewrite requests_app. cbn. apply app_nil_r.
Qed.

Lemma sends_only_get (P : request → Prop) w r : P r → sends_only P (requests_get w r).
Proof.
  intros HP st rq. unfold requests_get.
  destruct (http w (sent st) r); cbn [snd trace]; rewrite requests_app; cbn;
    rewrite elem_of_app, list_elem_of_singleton; intros [H| ->]; auto.
Qed.

Lemma sends_only_pause P w (c : bool) lo hi :
  sends_only P ((if c then d ← uniform w lo hi; sleep d else mret tt) : IO unit).
Proof.
  destruct c; [|apply sends_only_ret].
  apply sends_only_bind; [apply sends_only_uniform | intros; apply sends_only_sleep].
Qed.

Lemma sends_only_backoff P w self lo hi floor flo fhi attempt e :
  sends_only P (backoff w self lo hi floor flo fhi attempt e).
Proof.
  unfold backoff. apply sends_only_bind; [|intros; apply sends_only_ret].
  destruct (attempt <? _); [|apply sends_only_ret].
  apply sends_only_bind; [apply sends_only_lift | intros term].
  apply sends_only_bind; [apply sends_only_uniform | intros jitter].
  apply sends_only_bind; [|intros; apply sends_only_sleep].
  destruct (is_rate_limit _); [|apply sends_only_ret].
  apply sends_only_bind; [apply sends_only_uniform | intros; apply sends_only_ret].
Qed.

Lemma sends_only_loop P (body : Z → IO attempt_result) attempts :
  (∀ attempt, sends_only P (body attempt)) →
  sends_only P (attempts_loop body attempts).
Proof.
  intros Hbody. induction attempts as [|attempt rest IH]; cbn [attempts_loop].
  - apply sends_only_ret.
  - apply sends_only_bind; [apply Hbody|]. intros [df|]; [apply sends_only_ret | exact IH].
Qed.

Lemma sends_only_attempt (P : request → Prop) B w self p symbol interval limit attempt :
  P (match p with
     | Bitget => bitget_request symbol interval limit
     | Binance => binance_request symbol interval limit
     end) →
  sends_only P (match p with
                | Bitget => bitget_attempt B w self symbol interval limit attempt
                | Binance => binance_attempt B w self symbol interval limit attempt
                end).
Proof.
  intros HP. destruct p; unfold bitget_attempt, binance_attempt;
    (apply sends_only_try; [|intros; apply sends_only_backoff]);
    (apply sends_only_bind; [apply sends_only_pause | intros _]);
    (apply sends_only_bind; [apply sends_only_get; exact HP | intros; apply sends_only_lift]).
Qed.

(** Whatever the configuration and however the call ends, a fetch sends
    nothing but its Bitget request and its Binance request. *)
Lemma sends_only_fetch B w self symbol granularity limit :
  sends_only (λ rq, rq = bitget_request symbol granularity limit
                    ∨ rq = binance_request symbol (binance_interval granularity) limit)
             (get_crypto_data B w self symbol granularity limit).
Proof.
  unfold get_crypto_data, get_crypto_data_bitget, get_crypto_data_binance.
  apply sends_only_bind.
  - apply sends_only_loop. intros attempt.
    apply (sends_only_attempt _ B w self Bitget). left. reflexivity.
  - intros [df|]; [apply sends_only_ret|].
    apply sends_only_bind.
    + apply sends_only_loop. intros attempt.
      apply (sends_only_attempt _ B w self Binance). right. reflexivity.
    + intros [df|]; apply sends_only_ret.
Qed.

Section Loops.
Variable B : PyBuiltins.
Variable w : world.
Variable self : fetcher.
Variable p : provider.
Variables symbol interval : string.
Variable limit : Z.

Abbreviation r := (request_of p symbol interval limit).

(** The answer to the [n]-th request makes the attempt return [df]. *)
Definition succeeds (n : nat) (df : DataFrame) : Prop :=
  classify B p (http w n r) = Ok (Returned df).

Definition fails (n : nat) : Prop :=
  ∀ df, classify B p (http w n r) ≠ Ok (Returned df).

Hypothesis delay_nonneg : (0 <= retry_delay self)%Q.
Hypothesis random_unit : ∀ n, (0 <= random w n)%Q.
Hypothesis random_le : ∀ n, (random w n <= 1)%Q.
Hypothesis sleepable : backoff_sleepable self.

Lemma pre_state_sent pol attempt st :
  sent (pre_state w pol attempt st) = sent st
  ∧ requests (trace (pre_state w pol attempt st)) = requests (trace st).
Proof.
  unfold pre_state. destruct (0 <? attempt); cbn; [|auto].
  rewrite requests_app. cbn. rewrite app_nil_r. auto.
Qed.

Lemma backoff_state_sent pol attempt e st :
  sent (backoff_state w self pol attempt e st) = sent st
  ∧ requests (trace (backoff_state w self pol attempt e st)) = requests (trace st).
Proof.
  unfold backoff_state. destruct (attempt <? _); cbn; [|auto].
  rewrite requests_app. cbn. rewrite app_nil_r. auto.
Qed.

(** A loop over [c] consecutive attempts whose delays can all be slept:
    it does not raise, sends the same request until an attempt returns,
    and returns what that attempt returned. *)
Lemma loop_run c : ∀ (k : nat) (st : io),
  ∃ res st',
    attempts_loop (attempt_of B w self p symbol interval limit)
                  (map Z.of_nat (seq k c)) st = (Ok res, st')
    ∧ requests (trace st')
      = (requests (trace st) ++ replicate (sent st' - sent st) r)%list
    ∧ ((∃ i df, (i < c)%nat
                ∧ (∀ j, (j < i)%nat → fails (sent st + j))
                ∧ succeeds (sent st + i) df
                ∧ res = Some df ∧ sent st' = (sent st + S i)%nat)
       ∨ ((∀ j, (j < c)%nat → fails (sent st + j))
          ∧ res = None ∧ sent st' = (sent st + c)%nat)).
Proof.
  induction c as [|c IH]; intros k st.
  - exists None, st. cbn. split; [reflexivity|]. split.
    + rewrite Nat.sub_diag. cbn. rewrite app_nil_r. reflexivity.
    + right. split; [lia|]. split; [reflexivity | lia].
  - cbn [seq map attempts_loop]. cbv [mbind IO_bind].
    rewrite (attempt_run B w self delay_nonneg random_unit random_le sleepable p).
    set (st1 := pre_state w (policy_of p) (Z.of_nat k) st).
    set (st2 := request_state r st1).
    destruct (pre_state_sent (policy_of p) (Z.of_nat k) st) as [Hs1 Hr1].
    fold st1 in Hs1, Hr1.
    assert (sent st2 = S (sent st)) as Hs2 by (cbn; lia).
    assert (requests (trace st2) = (requests (trace st) ++ [r])%list) as Hr2.
    { cbn. rewrite requests_app, Hr1. reflexivity. }
    assert (∀ st3, sent st3 = S (sent st) →
              requests (trace st3) = (requests (trace st) ++ [r])%list →
              fails (sent st) →
              ∃ res st',
                attempts_loop (attempt_of B w self p symbol interval limit)
                  (map Z.of_nat (seq (S k) c)) st3 = (Ok res, st')
                ∧ requests (trace st')
                  = (requests (trace st) ++ replicate (sent st' - sent st) r)%list
                ∧ ((∃ i df, (i < S c)%nat
                      ∧ (∀ j, (j < i)%nat → fails (sent st + j))
                      ∧ succeeds (sent st + i) df
                      ∧ res = Some df ∧ sent st' = (sent st + S i)%nat)
                   ∨ ((∀ j, (j < S c)%nat → fails (sent st + j))
                      ∧ res = None ∧ sent st' = (sent st + S c)%nat))) as Hnext.
    { intros st3 Hs3 Hr3 Hfail.
      destruct (IH (S k) st3) as (res & st' & Hrun & Hreq & Hcase).
      exists res, st'. split; [exact Hrun|].
      assert (sent st' - sent st = S (sent st' - sent st3))%nat as Hsub.
      { destruct Hcase as [(i & df & _ & _ & _ & _ & E)|(_ & _ & E)]; lia. }
      split.
      - rewrite Hreq, Hr3, Hsub. cbn [replicate]. rewrite <- app_assoc. reflexivity.
      - destruct Hcase as [(i & df & Hi & Hbefore & Hsucc & -> & E)|(Hall & -> & E)].
        + left. exists (S i), df. rewrite Hs3 in *.
          replace (sent st + S i)%nat with (S (sent st) + i)%nat by lia.
          repeat split; try lia; auto.
          intros [|j] Hj; [rewrite Nat.add_0_r; exact Hfail|].
          replace (sent st + S j)%nat with (S (sent st) + j)%nat by lia.
          apply Hbefore. lia.
        + right. rewrite Hs3 in *. repeat split; try lia.
          intros [|j] Hj; [rewrite Nat.add_0_r; exact Hfail|].
          replace (sent st + S j)%nat with (S (sent st) + j)%nat by lia.
          apply Hall. lia. }
    destruct (classify B p (http w (sent st) r)) as [[df|]|e] eqn:Hc.
    + exists (Some df), st2. split; [reflexivity|]. split.
      * rewrite Hr2, Hs2. replace (S (sent st) - sent st)%nat with 1%nat by lia.
        reflexivity.
      * left. exists 0%nat, df. rewrite Nat.add_0_r.
        repeat split; try lia; auto.
    + apply Hnext; [exact Hs2 | exact Hr2 | intros df; rewrite Hc; discriminate].
    + destruct (backoff_state_sent (policy_of p) (Z.of_nat k) e st2) as [Hs3 Hr3].
      apply Hnext; [congruence | congruence | intros df; rewrite Hc; discriminate].
Qed.

End Loops.


(** *** The failover of [get_crypto_data] *)

Section Failover.
Variable B : PyBuiltins.
Variable w : world.
Variable self : fetcher.
Variables symbol granularity : string.
Variable limit : Z.

Abbreviation rc := (Z.to_nat (retry_count self)).
Abbreviation breq := (bitget_request symbol granularity limit).
Abbreviation nreq := (binance_request symbol (binance_interval granularity) limit).
Abbreviation bitget_fails := (fails B w Bitget symbol granularity limit).
Abbreviation bitget_succeeds := (succeeds B w Bitget symbol granularity limit).
Abbreviation binance_fails :=
  (fails B w Binance symbol (binance_interval granularity) limit).
Abbreviation binance_succeeds :=
  (succeeds B w Binance symbol (binance_interval granularity) limit).

(** The three ways a fetch started in state [st] can end. *)
Definition fetch_outcome (st : io) (res : option DataFrame) (st' : io) : Prop :=
  (∃ i df, (i < rc)%nat
     ∧ (∀ j, (j < i)%nat → bitget_fails (sent st + j))
     ∧ bitget_succeeds (sent st + i) df
     ∧ res = Some df
     ∧ requests (trace st') = (requests (trace st) ++ replicate (S i) breq)%list)
  ∨ ((∀ j, (j < rc)%nat → bitget_fails (sent st + j))
     ∧ ((∃ i df, (i < rc)%nat
           ∧ (∀ j, (j < i)%nat → binance_fails (sent st + rc + j))
           ∧ binance_succeeds (sent st + rc + i) df
           ∧ res = Some df
           ∧ requests (trace st')
             = (requests (trace st) ++ replicate rc breq ++ replicate (S i) nreq)%list)
        ∨ ((∀ j, (j < rc)%nat → binance_fails (sent st + rc + j))
           ∧ res = None
           ∧ requests (trace st')
             = (requests (trace st) ++ replicate rc breq ++ replicate rc nreq)%list))).

Hypothesis delay_nonneg : (0 <= retry_delay self)%Q.
Hypothesis random_unit : ∀ n, (0 <= random w n)%Q.
Hypothesis random_le : ∀ n, (random w n <= 1)%Q.
Hypothesis sleepable : backoff_sleepable self.

Lemma get_crypto_data_run (st : io) :
  ∃ res st',
    get_crypto_data B w self symbol granularity limit st = (Ok res, st')
    ∧ fetch_outcome st res st'.
Proof.
  unfold get_crypto_data, get_crypto_data_bitget, get_crypto_data_binance, range.
  cbv [mbind IO_bind mret IO_ret].
  destruct (loop_run B w self Bitget symbol granularity limit
              delay_nonneg random_unit random_le sleepable rc 0%nat st)
    as (res1 & st1 & Hrun1 & Hreq1 & Hcase1).
  cbn [attempt_of] in Hrun1. rewrite Hrun1.
  destruct Hcase1 as [(i & df & Hi & Hbefore & Hsucc & -> & Hs1)|(Hall & -> & Hs1)].
  - exists (Some df), st1. split; [reflexivity|]. left. exists i, df.
    repeat split; auto. rewrite Hreq1. do 2 f_equal. lia.
  - destruct (loop_run B w self Binance symbol (binance_interval granularity) limit
                delay_nonneg random_unit random_le sleepable rc 0%nat st1)
      as (res2 & st2 & Hrun2 & Hreq2 & Hcase2).
    cbn [attempt_of] in Hrun2. rewrite Hrun2.
    assert (requests (trace st1) = (requests (trace st) ++ replicate rc breq)%list)
      as Hreq1'.
    { rewrite Hreq1. do 2 f_equal. lia. }
    rewrite Hs1 in Hcase2.
    destruct Hcase2 as [(i & df & Hi & Hbefore & Hsucc & -> & Hs2)|(Hall2 & -> & Hs2)].
    + exists (Some df), st2. split; [reflexivity|]. right. split; [exact Hall|].
      left. exists i, df. repeat split; auto.
      rewrite Hreq2, Hreq1', <- app_assoc. do 3 f_equal. lia.
    + exists None, st2. split; [reflexivity|]. right. split; [exact Hall|].
      right. repeat split; auto.
      rewrite Hreq2, Hreq1', <- app_assoc. do 3 f_equal. lia.
Qed.

End Failover.

(** X27. The failover order.  On a configuration whose backoffs can be slept
    (non-negative base delay, [backoff_sleepable]) and for draws of
    [random.random()] in the unit interval, [get_crypto_data] returns, in
    one of three ways: some Bitget attempt among the first [retry_count]
    returns a frame, which is returned with no further request; or all
    [retry_count] Bitget attempts fail and some Binance attempt among
    [retry_count] fresh ones returns a frame, which is returned at once;
    or all attempts of both fail and the result is [None]. *)
Theorem failover_order_when_backoffs_can_be_slept
    (B : PyBuiltins) (w : world) (self : fetcher)
    (symbol granularity : string) (limit : Z) (st : io) :
  (0 <= retry_delay self)%Q →
  backoff_sleepable self →
  (∀ n, 0 <= random w n <= 1)%Q →
  ∃ res st',
    get_crypto_data B w self symbol granularity limit st = (Ok res, st')
    ∧ fetch_outcome B w self symbol granularity limit st res st'.
Proof.
  intros Hd Hs Hr.
  apply get_crypto_data_run;
    [exact Hd | intros n; apply Hr | intros n; apply Hr | exact Hs].
Qed.

Definition timeout_exn : exn := Exn RequestException "HTTPSConnectionPool: Read timed out.".
Definition rate_limit_exn : exn :=
  Exn RequestException "429 Client Error: Too Many Requests for url".

(** Bitget is unreachable, then throttles, then answers with an error
    code; Binance answers at once. *)
Definition failover_world : world :=
  {| http := λ n r,
       match req_provider r, n with
       | Bitget, O => HttpRaise timeout_exn
       | Bitget, 1%nat => HttpRaise rate_limit_exn
       | Bitget, _ => HttpJson (JObj [("code", JStr "40034"); ("msg", JStr "Parameter does not exist")])
       | Binance, _ => HttpJson (JArr [candle 1000 1.5; candle 2000 1.6])
       end;
     random := λ n, (1 # 2)%Q |}.

Lemma create_fetcher_sleepable : backoff_sleepable create_fetcher.
Proof. split; vm_compute; discriminate. Qed.

Lemma failover_order_when_backoffs_can_be_slept_witness :
  ∃ res st',
    get_crypto_data number_builtins failover_world create_fetcher
      "btcusdt" "1day" 200 io0 = (Ok res, st')
    ∧ fetch_outcome number_builtins failover_world create_fetcher
        "btcusdt" "1day" 200 io0 res st'.
Proof.
  apply (failover_order_when_backoffs_can_be_slept number_builtins
           failover_world create_fetcher "btcusdt" "1day" 200 io0).
  - vm_compute. discriminate.
  - split; vm_compute; discriminate.
  - intros n. split; vm_compute; discriminate.
Defined.

Definition unreachable_world : world :=
  {| http := λ _ _, HttpRaise timeout_exn; random := λ _, (1 # 2)%Q |}.

(** C2.  The claim is what the docstring of [get_crypto_data] promises
    (a failure returns [None]), and the code breaks it: the backoff is
    slept inside the [except] block, where nothing catches what
    [time.sleep] raises.  With every request timing out, a base delay of
    -10 seconds makes the first backoff negative and ValueError leaves
    [get_crypto_data]; a base delay of 10^10 seconds makes it too long
    and OverflowError leaves it. *)
Theorem C2_backoff_sleep_error_escapes :
  fst (get_crypto_data number_builtins unreachable_world (Fetcher_ 2 (-10))
         "BTCUSDT" "1day" 200 io0)
  = Raise (Exn ValueError "sleep length must be non-negative")
  ∧ fst (get_crypto_data number_builtins unreachable_world (Fetcher_ 2 10000000000)
           "BTCUSDT" "1day" 200 io0)
    = Raise (Exn OverflowError "timestamp too large to convert to C _PyTime_t").
Proof. split; vm_compute; reflexivity. Qed.


(** C3, as amended.  On a configuration whose backoffs can be slept
    (non-negative base delay, [backoff_sleepable]) and for draws in the
    unit interval: an attempt whose request or conversion raises (network
    error, rate limit, malformed body) ends in the backoff sleep when
    another attempt remains, and continues the loop; an attempt whose
    answer is empty continues the loop with no backoff sleep; and no
    failure leaves [get_crypto_data] as an exception. *)
Theorem C3_exceptions_back_off_empty_answers_do_not
    (B : PyBuiltins) (w : world) (self : fetcher) (p : provider)
    (symbol interval : string) (limit : Z) (k : nat) (st : io) :
  (0 <= retry_delay self)%Q →
  backoff_sleepable self →
  (∀ n, 0 <= random w n <= 1)%Q →
  let r := request_of p symbol interval limit in
  let pol := policy_of p in
  let st2 := request_state r (pre_state w pol (Z.of_nat k) st) in
  let run := attempt_of B w self p symbol interval limit (Z.of_nat k) st in
  (∀ e, classify B p (http w (sent st) r) = Raise e →
     fst run = Ok Continue
     ∧ trace (snd run)
       = (trace st2 ++ (if Z.of_nat k <? retry_count self - 1
                        then [Slept (backoff_delay w self pol (Z.of_nat k) e (drawn st2))]
                        else []))%list)
  ∧ (classify B p (http w (sent st) r) = Ok Continue → run = (Ok Continue, st2))
  ∧ (∀ df, classify B p (http w (sent st) r) = Ok (Returned df) →
       run = (Ok (Returned df), st2))
  ∧ ∃ res st', get_crypto_data B w self symbol interval limit st = (Ok res, st').
Proof.
  intros Hd Hs Hr r pol st2 run.
  assert (∀ n, 0 <= random w n)%Q as Hr0 by (intros n; apply Hr).
  assert (∀ n, random w n <= 1)%Q as Hr1 by (intros n; apply Hr).
  pose proof (attempt_run B w self Hd Hr0 Hr1 Hs p symbol interval limit (Z.of_nat k) st)
    as Hrun.
  cbv zeta in Hrun. fold r pol st2 run in Hrun.
  repeat split.
  - rewrite Hrun, H. reflexivity.
  - rewrite Hrun, H. cbn [snd]. unfold backoff_state.
    destruct (Z.of_nat k <? retry_count self - 1); cbn [trace];
      [reflexivity | rewrite app_nil_r; reflexivity].
  - intros Hc. rewrite Hrun, Hc. reflexivity.
  - intros df Hc. rewrite Hrun, Hc. reflexivity.
  - destruct (get_crypto_data_run B w self symbol interval limit Hd Hr0 Hr1 Hs st)
      as (res & st' & Hget & _).
    eauto.
Qed.

Lemma C3_exceptions_back_off_empty_answers_do_not_witness :
  fst (attempt_of number_builtins failover_world create_fetcher Bitget
         "btcusdt" "1day" 200 0 io0) = Ok Continue
  ∧ trace (snd (attempt_of number_builtins failover_world create_fetcher Bitget
                  "btcusdt" "1day" 200 0 io0))
    = [Requested (bitget_request "btcusdt" "1day" 200); Slept (2 * 1 + (1 + (3 - 1) * (1 # 2)))].
Proof.
  destruct (C3_exceptions_back_off_empty_answers_do_not number_builtins
              failover_world create_fetcher Bitget "btcusdt" "1day" 200 0 io0)
    as (Hexn & _).
  - vm_compute. discriminate.
  - split; vm_compute; discriminate.
  - intros n. split; vm_compute; discriminate.
  - apply (Hexn timeout_exn). reflexivity.
Defined.

(** The first answer of Bitget is a well-formed document without candles. *)
Definition empty_then_ok_world : world :=
  {| http := λ n r,
       match n with
       | O => HttpJson (JObj [("code", JStr "00000"); ("data", JArr [])])
       | _ => HttpJson (JObj [("code", JStr "00000");
                              ("data", JArr [candle 1000 1.5])])
       end;
     random := λ _, 0%Q |}.

(** C3 as stated fails: after an empty answer the next Bitget request is
    preceded only by the one-to-three-second delay of a repeated attempt,
    here shorter than the exponential term of the backoff policy. *)
Lemma C3_empty_answer_is_retried_without_backoff :
  let run := get_crypto_data_bitget number_builtins empty_then_ok_world
               default_fetcher "BTCUSDT" "1day" 200 io0 in
  trace (snd run)
  = [Requested (bitget_request "BTCUSDT" "1day" 200);
     Slept (1 + (3 - 1) * 0);
     Requested (bitget_request "BTCUSDT" "1day" 200)]
  ∧ (1 + (3 - 1) * 0 < exponential_term default_fetcher 0)%Q.
Proof. split; [vm_compute; reflexivity | vm_compute; reflexivity]. Qed.

(** *** Backoff delays *)

(** C7, as amended.  For a non-negative base delay the exponential term
    doubles with each attempt, the delay after attempt k+1 is at least the
    exponential term of attempt k whatever the jitter, and after a
    rate-limited failure the delay is at least the provider's floor (15 s
    for Bitget, 7 s for Binance); this is the delay the [except] block
    sleeps, whenever the configuration's backoffs can be slept. *)
Theorem C7_backoff_grows_and_respects_rate_limit_floor
    (w : world) (self : fetcher) (p : provider) (e : exn) (k : Z) (n : nat) :
  (0 <= retry_delay self)%Q →
  (∀ n, 0 <= random w n)%Q →
  0 ≤ k →
  let pol := policy_of p in
  (exponential_term self (k + 1) == 2 * exponential_term self k)%Q
  ∧ (exponential_term self k <= exponential_term self (k + 1) + jit_lo pol)%Q
  ∧ (exponential_term self (k + 1) + jit_lo pol
     <= backoff_delay w self pol (k + 1) e n)%Q
  ∧ (exponential_term self k <= backoff_delay w self pol (k + 1) e n)%Q
  ∧ (is_rate_limit (lower (exn_msg e)) = true →
     (floor_base pol + floor_lo pol <= backoff_delay w self pol k e n)%Q)
  ∧ ((∀ n, random w n <= 1)%Q → backoff_sleepable self →
     ∀ st, backoff w self (jit_lo pol) (jit_hi pol) (floor_base pol)
             (floor_lo pol) (floor_hi pol) k e st
           = (Ok Continue, backoff_state w self pol k e st)).
Proof.
  intros Hd Hr Hk pol.
  destruct (policy_bounds p) as (_ & _ & Hj0 & Hj & Hf). fold pol in Hj0, Hj, Hf.
  pose proof (exponential_term_nonneg self Hd k) as Hek.
  assert (exponential_term self (k + 1) == 2 * exponential_term self k)%Q as Hdouble.
  { unfold exponential_term. rewrite Z.pow_add_r by lia.
    rewrite inject_Z_mult. change (inject_Z (2 ^ 1)) with 2%Q. ring. }
  assert (exponential_term self (k + 1) + jit_lo pol
          <= backoff_delay w self pol (k + 1) e n)%Q as Hlow.
  { pose proof (draw_ge w Hr _ _ n Hj) as Hdraw.
    unfold backoff_delay. destruct (is_rate_limit _).
    - eapply Qle_trans; [|apply Q.le_max_l]. lra.
    - lra. }
  repeat split.
  - exact Hdouble.
  - lra.
  - exact Hlow.
  - lra.
  - intros Hrl. pose proof (draw_ge w Hr _ _ (S n) Hf) as Hdraw.
    unfold backoff_delay. rewrite Hrl.
    eapply Qle_trans; [|apply Q.le_max_r]. fold pol. lra.
  - intros Hr1 Hs st. apply (backoff_run w self Hd Hr Hr1 Hs p).
Qed.

Lemma C7_backoff_grows_and_respects_rate_limit_floor_witness :
  (15 <= backoff_delay failover_world default_fetcher bitget_policy 0 rate_limit_exn 0)%Q
  ∧ fst (backoff failover_world default_fetcher 1 3 10 5 15 0 rate_limit_exn io0)
    = Ok Continue.
Proof.
  destruct (C7_backoff_grows_and_respects_rate_limit_floor failover_world
              default_fetcher Bitget rate_limit_exn 0 0)
    as (_ & _ & _ & _ & Hfloor & Hslept).
  - vm_compute. discriminate.
  - intros n. vm_compute. discriminate.
  - lia.
  - split; [apply Hfloor; vm_compute; reflexivity|].
    cbn [policy_of jit_lo jit_hi floor_base floor_lo floor_hi bitget_policy] in Hslept.
    rewrite Hslept; [reflexivity | intros n; vm_compute; discriminate |].
    split; vm_compute; discriminate.
Defined.

Definition zero_world : world :=
  {| http := λ _ _, HttpRaise rate_limit_exn; random := λ _, 0%Q |}.

(** C7 as stated fails: with the default base delay the rate-limit floor
    of Bitget can be below the exponential term of attempt 3, and the delay
    is then the exponential one. *)
Lemma C7_floor_can_lie_below_exponential_term :
  let pol := bitget_policy in
  is_rate_limit (lower (exn_msg rate_limit_exn)) = true
  ∧ (floor_base pol + draw zero_world (floor_lo pol) (floor_hi pol) 1
     < exponential_term default_fetcher 3)%Q
  ∧ (backoff_delay zero_world default_fetcher pol 3 rate_limit_exn 0
     == exponential_term default_fetcher 3 + draw zero_world (jit_lo pol) (jit_hi pol) 0)%Q.
Proof. repeat split. Qed.


(** *** Granularity *)

(** The intervals Binance accepts, as the docstring of
    [get_crypto_data_binance] lists them, with their length in minutes. *)
Definition binance_vocabulary : list (string * Z) :=
  [("1m", 1); ("3m", 3); ("5m", 5); ("15m", 15); ("30m", 30);
   ("1h", 60); ("2h", 120); ("4h", 240); ("6h", 360); ("8h", 480);
   ("12h", 720); ("1d", 1440); ("3d", 4320); ("1w", 10080); ("1M", 43200)].

(** The rule of the specification: the shortest supported interval that
    is at least [minutes] long. *)
Definition nearest_coarser (minutes : Z) : option string :=
  fst <$> find (λ iv, minutes <=? snd iv) binance_vocabulary.

(** C4, as amended.  A granularity the table does not map is replaced by
    the fixed interval "1d" in every Binance request, while every Bitget
    request carries the caller's token unchanged; nothing else is sent,
    whatever the configuration and however the call ends; and the call
    returns when the configuration's backoffs can be slept. *)
Theorem C4_unmapped_granularity_becomes_1d
    (B : PyBuiltins) (w : world) (self : fetcher)
    (symbol granularity : string) (limit : Z) (st : io) :
  granularity_map !! granularity = None →
  binance_interval granularity = "1d"
  ∧ (∀ rq,
       rq ∈ requests (trace (snd (get_crypto_data B w self symbol granularity limit st))) →
       rq ∈ requests (trace st)
       ∨ rq = Request Bitget (upper symbol) granularity (Z.min limit 200)
       ∨ rq = Request Binance (upper symbol) "1d" (Z.min limit 1000))
  ∧ ((0 <= retry_delay self)%Q →
     backoff_sleepable self →
     (∀ n, 0 <= random w n <= 1)%Q →
     ∃ res st',
       get_crypto_data B w self symbol granularity limit st = (Ok res, st')).
Proof.
  intros Hmap.
  assert (binance_interval granularity = "1d") as Hint.
  { unfold binance_interval. rewrite Hmap. reflexivity. }
  split; [exact Hint|]. split.
  - intros rq Hin.
    destruct (sends_only_fetch B w self symbol granularity limit st rq Hin)
      as [H|[H|H]]; auto.
    right. right. rewrite H. unfold binance_request. rewrite Hint. reflexivity.
  - intros Hd Hs Hr.
    destruct (get_crypto_data_run B w self symbol granularity limit Hd
                (λ n, proj1 (Hr n)) (λ n, proj2 (Hr n)) Hs st)
      as (res & st' & Hrun & _).
    eauto.
Qed.

Lemma C4_unmapped_granularity_becomes_1d_witness :
  binance_interval "1hour" = "1d"
  ∧ (∀ rq,
       rq ∈ requests (trace (snd (get_crypto_data number_builtins failover_world
                                    create_fetcher "btcusdt" "1hour" 200 io0))) →
       rq ∈ requests (trace io0)
       ∨ rq = Request Bitget (upper "btcusdt") "1hour" (Z.min 200 200)
       ∨ rq = Request Binance (upper "btcusdt") "1d" (Z.min 200 1000))
  ∧ ∃ res st',
      get_crypto_data number_builtins failover_world create_fetcher
        "btcusdt" "1hour" 200 io0 = (Ok res, st').
Proof.
  destruct (C4_unmapped_granularity_becomes_1d number_builtins failover_world
              create_fetcher "btcusdt" "1hour" 200 io0) as (Hint & Hsent & Hreturns).
  - vm_compute. reflexivity.
  - split; [exact Hint|]. split; [exact Hsent|].
    apply Hreturns.
    + vm_compute. discriminate.
    + split; vm_compute; discriminate.
    + intros n. split; vm_compute; discriminate.
Defined.

(** C4 as stated fails: "1hour" and "1month" are not in the table and
    both become "1d", although Binance supports "1h" and "1M". *)
Lemma C4_fallback_is_not_the_nearest_coarser_interval :
  granularity_map !! "1hour" = None
  ∧ binance_interval "1hour" = "1d"
  ∧ nearest_coarser 60 = Some "1h"
  ∧ granularity_map !! "1month" = None
  ∧ binance_interval "1month" = "1d"
  ∧ nearest_coarser 43200 = Some "1M".
Proof. vm_compute. repeat split. Qed.

End FetcherFacts.

(** ** Further facts about [CryptoDataFetcher] *)

Module FetcherExtras.
Import Fetcher FetcherFacts FetcherMore.

(** *** Conversion, record by record *)

Lemma convert_klines_app_raise B pre bad suf rows e :
  convert_klines B pre = Ok rows →
  convert_kline B bad = Raise e →
  convert_klines B (pre ++ bad :: suf) = Raise e.
Proof.
  revert rows. induction pre as [|k pre IH]; intros rows Hpre Hbad; cbn.
  - rewrite Hbad. reflexivity.
  - cbn in Hpre. destruct (convert_kline B k) as [row|e']; [|discriminate]. cbn in *.
    destruct (convert_klines B pre) as [rows'|e']; [|discriminate].
    rewrite (IH rows' eq_refl Hbad). reflexivity.
Qed.

(** X1. Both converters fail as a whole on one bad record: if the records
    before it convert and the record itself raises (too short, a field
    that [int] or [float] rejects, a timestamp out of range), the
    conversion of the payload raises that exception, whatever follows the
    record; no frame of the good records is produced. *)
Theorem bad_record_fails_the_whole_payload (B : PyBuiltins) (p : provider)
    (pre suf : list json) (bad : json) (rows : list bar) (e : exn) :
  convert_klines B pre = Ok rows →
  convert_kline B bad = Raise e →
  convert B p (JArr (pre ++ bad :: suf)) = Raise e.
Proof.
  intros Hpre Hbad.
  destruct p; cbn; unfold _convert_bitget_to_ohlcv, _convert_binance_to_ohlcv; cbn;
    rewrite (convert_klines_app_raise B pre bad suf rows e Hpre Hbad); reflexivity.
Qed.

Lemma bad_record_fails_the_whole_payload_witness :
  convert number_builtins Bitget
    (JArr [candle 1000 1.5; JArr [JInt 2000; JFloat 1; JFloat 2]; candle 3000 1.5])
  = Raise (Exn IndexError "list index out of range").
Proof.
  apply (bad_record_fails_the_whole_payload number_builtins Bitget
           [candle 1000 1.5] [candle 3000 1.5]
           (JArr [JInt 2000; JFloat 1; JFloat 2])
           [Bar 1000 1 2 0.5 1.5 10]);
    reflexivity.
Defined.

(** *** What an attempt accepts *)

Lemma convert_bitget_nonempty B data df :
  _convert_bitget_to_ohlcv B data = Ok df →
  df ≠ [] ∧ Sorted earlier_or_same df
  ∧ ∃ n, py_len data = Ok n ∧ (0 < n)%nat.
Proof.
  unfold _convert_bitget_to_ohlcv. intros H.
  apply bind_Ok in H as (klines & Hiter & H).
  apply bind_Ok in H as (df_data & Hconv & H).
  apply bind_Ok in H as (df0 & Hset & H). injection H as <-.
  apply set_index_Ok in Hset as [-> Hlen].
  pose proof (convert_klines_length _ _ _ Hconv) as Hrows.
  repeat split.
  - intros E. pose proof (merge_sort_Permutation earlier_or_same df_data) as Hp.
    unfold sort_index in E. rewrite E in Hp. apply Permutation_nil_l in Hp.
    subst df_data. cbn in Hlen. lia.
  - apply Sorted_merge_sort.
    intros x y. unfold earlier_or_same. lia.
  - exists (length klines). split; [apply py_iter_len, Hiter | lia].
Qed.

Lemma convert_binance_nonempty B data df :
  _convert_binance_to_ohlcv B data = Ok df →
  df ≠ [] ∧ ∃ n, py_len data = Ok n ∧ (0 < n)%nat.
Proof.
  unfold _convert_binance_to_ohlcv. intros H.
  apply bind_Ok in H as (klines & Hiter & H).
  apply bind_Ok in H as (df_data & Hconv & H).
  apply set_index_Ok in H as [-> Hlen].
  pose proof (convert_klines_length _ _ _ Hconv) as Hrows.
  split.
  - intros ->. cbn in Hlen. lia.
  - exists (length klines). split; [apply py_iter_len, Hiter | lia].
Qed.

Lemma eq_str_true x s : eq_str x s = true → x = JStr s.
Proof.
  destruct x; cbn; try discriminate. intros H. apply String.eqb_eq in H. congruence.
Qed.

Lemma bitget_accepted_inv (B : PyBuiltins) (result : json) (df : DataFrame) :
  bitget_result B result = Ok (Returned df) →
  ∃ members data,
    result = JObj members
    ∧ assoc "code" members = Some (JStr "00000")
    ∧ assoc "data" members = Some data
    ∧ truthy data = true
    ∧ _convert_bitget_to_ohlcv B data = Ok df.
Proof.
  unfold bitget_result. intros H.
  apply bind_Ok in H as (code & Hc & H).
  destruct (eq_str code "00000") eqn:Hcode; [|discriminate].
  apply bind_Ok in H as (data & Hd & H).
  destruct (truthy data) eqn:Htruthy; [|discriminate].
  apply bind_Ok in H as (n & Hlen & H).
  destruct (0 <? n)%nat; [|discriminate].
  apply bind_Ok in H as (df' & Hconv & H). injection H as <-.
  apply eq_str_true in Hcode. subst code.
  destruct result as [| | | | | |members]; try discriminate Hc.
  cbn in Hc, Hd. exists members, data.
  destruct (assoc "code" members) as [code|]; [|discriminate].
  destruct (assoc "data" members) as [data'|];
    [|cbn in Hd; injection Hd as <-; discriminate].
  cbn in Hc, Hd. injection Hc as ->. injection Hd as ->. auto.
Qed.

(** X2. An attempt on Bitget returns a frame exactly when the answer is a
    JSON object whose ['code'] is the string ['00000'], whose ['data'] is
    truthy, and whose ['data'] converts; the frame returned is that
    conversion. *)
Theorem bitget_answer_accepted_iff (B : PyBuiltins) (result : json) (df : DataFrame) :
  bitget_result B result = Ok (Returned df)
  ↔ ∃ members data,
      result = JObj members
      ∧ assoc "code" members = Some (JStr "00000")
      ∧ assoc "data" members = Some data
      ∧ truthy data = true
      ∧ _convert_bitget_to_ohlcv B data = Ok df.
Proof.
  split; [apply bitget_accepted_inv|].
  intros (members & data & -> & Hcode & Hdata & Htruthy & Hconv).
  destruct (convert_bitget_nonempty _ _ _ Hconv) as (_ & _ & n & Hlen & Hn).
  apply Nat.ltb_lt in Hn.
  unfold bitget_result, dict_get. rewrite Hcode, Hdata.
  cbv [mbind outcome_bind mret outcome_ret default from_option id eq_str].
  rewrite String.eqb_refl, Htruthy, Hlen, Hn, Hconv. reflexivity.
Qed.

Lemma binance_answer_accepted_iff (B : PyBuiltins) (data : json) (df : DataFrame) :
  binance_result B data = Ok (Returned df)
  ↔ truthy data = true ∧ _convert_binance_to_ohlcv B data = Ok df.
Proof.
  unfold binance_result. split.
  - intros H. destruct (truthy data); [|discriminate]. split; [reflexivity|].
    apply bind_Ok in H as (n & Hlen & H).
    destruct (0 <? n)%nat; [|discriminate].
    apply bind_Ok in H as (df' & Hconv & H). injection H as <-. exact Hconv.
  - intros [Htruthy Hconv]. rewrite Htruthy.
    destruct (convert_binance_nonempty _ _ _ Hconv) as (_ & n & Hlen & Hn).
    apply Nat.ltb_lt in Hn.
    cbv [mbind outcome_bind mret outcome_ret].
    rewrite Hlen, Hn, Hconv. reflexivity.
Qed.


(** *** The whole fetch *)

(** X3. With [retry_count <= 0] both [for attempt in range(retry_count)]
    loops are empty: [get_crypto_data] returns [None] at once, sends no
    request, draws no random number and does not sleep. *)
Theorem no_retry_budget_no_request (B : PyBuiltins) (w : world) (self : fetcher)
    (symbol granularity : string) (limit : Z) (st : io) :
  retry_count self ≤ 0 →
  get_crypto_data B w self symbol granularity limit st = (Ok None, st).
Proof.
  intros Hrc.
  unfold get_crypto_data, get_crypto_data_bitget, get_crypto_data_binance, range.
  rewrite Z2Nat.nonpos by exact Hrc. reflexivity.
Qed.

Lemma no_retry_budget_no_request_witness :
  get_crypto_data number_builtins failover_world (Fetcher_ 0 2)
    "BTCUSDT" "1day" 200 io0 = (Ok None, io0).
Proof.
  apply (no_retry_budget_no_request number_builtins failover_world (Fetcher_ 0 2)).
  cbn. lia.
Defined.

Lemma succeeds_frame B w p symbol interval limit n df :
  succeeds B w p symbol interval limit n df →
  df ≠ [] ∧ (p = Bitget → Sorted earlier_or_same df).
Proof.
  unfold succeeds, classify. intros H.
  destruct (http w n _) as [e|body]; [discriminate|].
  destruct p.
  - apply bitget_accepted_inv in H as (members & data & _ & _ & _ & _ & Hconv).
    destruct (convert_bitget_nonempty _ _ _ Hconv) as (Hne & Hs & _). auto.
  - apply binance_answer_accepted_iff in H as [_ Hconv].
    destruct (convert_binance_nonempty _ _ _ Hconv) as (Hne & _).
    split; [exact Hne | discriminate].
Qed.

Lemma get_crypto_data_budget (B : PyBuiltins) (w : world)
    (self : fetcher) (symbol granularity : string) (limit : Z) (st : io) :
  (0 <= retry_delay self)%Q →
  (∀ n, 0 <= random w n)%Q →
  (∀ n, random w n <= 1)%Q →
  backoff_sleepable self →
  ∃ res st',
    get_crypto_data B w self symbol granularity limit st = (Ok res, st')
    ∧ (length (requests (trace st'))
       ≤ length (requests (trace st)) + 2 * Z.to_nat (retry_count self))%nat
    ∧ (res = None →
       length (requests (trace st'))
       = (length (requests (trace st)) + 2 * Z.to_nat (retry_count self))%nat)
    ∧ (∀ df, res = Some df → df ≠ [])
    ∧ sent st' = (sent st + (length (requests (trace st'))
                            - length (requests (trace st))))%nat.
Proof.
  intros Hd Hr Hr1 Hs.
  unfold get_crypto_data, get_crypto_data_bitget, get_crypto_data_binance, range.
  cbv [mbind IO_bind mret IO_ret].
  destruct (loop_run B w self Bitget symbol granularity limit Hd Hr Hr1 Hs
              (Z.to_nat (retry_count self)) 0%nat st)
    as (res1 & st1 & Hrun1 & Hreq1 & Hcase1).
  cbn [attempt_of] in Hrun1. rewrite Hrun1.
  assert (length (requests (trace st1))
          = (length (requests (trace st)) + (sent st1 - sent st))%nat) as Hlen1.
  { rewrite Hreq1, length_app, length_replicate. reflexivity. }
  destruct Hcase1 as [(i & df & Hi & _ & Hsucc & -> & Hs1)|(_ & -> & Hs1)].
  - exists (Some df), st1. split; [reflexivity|].
    apply succeeds_frame in Hsucc as [Hne _].
    repeat split; try lia; try discriminate.
    intros df' [= <-]. exact Hne.
  - destruct (loop_run B w self Binance symbol (binance_interval granularity) limit
                Hd Hr Hr1 Hs (Z.to_nat (retry_count self)) 0%nat st1)
      as (res2 & st2 & Hrun2 & Hreq2 & Hcase2).
    cbn [attempt_of] in Hrun2. rewrite Hrun2.
    assert (length (requests (trace st2))
            = (length (requests (trace st1)) + (sent st2 - sent st1))%nat) as Hlen2.
    { rewrite Hreq2, length_app, length_replicate. reflexivity. }
    destruct Hcase2 as [(i & df & Hi & _ & Hsucc & -> & Hs2)|(_ & -> & Hs2)].
    + exists (Some df), st2. split; [reflexivity|].
      apply succeeds_frame in Hsucc as [Hne _].
      repeat split; try lia; try discriminate.
      intros df' [= <-]. exact Hne.
    + exists None, st2. split; [reflexivity|].
      repeat split; try lia; discriminate.
Qed.

(** X4. On a fetcher whose backoffs can be slept (non-negative
    [retry_delay], [backoff_sleepable]) and for draws in the unit
    interval, one call of [get_crypto_data] returns without raising after
    at most [2 * retry_count] requests; it answers [None] only after
    exactly that many; and a frame it returns is never empty. *)
Theorem fetch_sends_at_most_twice_the_budget (B : PyBuiltins) (w : world)
    (self : fetcher) (symbol granularity : string) (limit : Z) (st : io) :
  (0 <= retry_delay self)%Q →
  backoff_sleepable self →
  (∀ n, 0 <= random w n <= 1)%Q →
  ∃ res st',
    get_crypto_data B w self symbol granularity limit st = (Ok res, st')
    ∧ (length (requests (trace st'))
       ≤ length (requests (trace st)) + 2 * Z.to_nat (retry_count self))%nat
    ∧ (res = None →
       length (requests (trace st'))
       = (length (requests (trace st)) + 2 * Z.to_nat (retry_count self))%nat)
    ∧ (∀ df, res = Some df → df ≠ []).
Proof.
  intros Hd Hs Hr.
  destruct (get_crypto_data_budget B w self symbol granularity limit st Hd
              (λ n, proj1 (Hr n)) (λ n, proj2 (Hr n)) Hs)
    as (res & st' & Hrun & Hle & Hnone & Hsome & _).
  eauto 10.
Qed.

Lemma fetch_sends_at_most_twice_the_budget_witness :
  ∃ res st',
    get_crypto_data number_builtins failover_world create_fetcher
      "btcusdt" "1day" 200 io0 = (Ok res, st')
    ∧ (length (requests (trace st')) ≤ 0 + 2 * 3)%nat.
Proof.
  destruct (fetch_sends_at_most_twice_the_budget number_builtins failover_world
              create_fetcher "btcusdt" "1day" 200 io0)
    as (res & st' & Hrun & Hle & _).
  - vm_compute. discriminate.
  - split; vm_compute; discriminate.
  - intros n. split; vm_compute; discriminate.
  - exists res, st'. split; [exact Hrun | exact Hle].
Defined.


(** *** Batches *)

Section BatchFacts.
Variable B : PyBuiltins.
Variable w : world.
Variable self : fetcher.
Variable granularity : string.
Variable limit : Z.
Hypothesis delay_nonneg : (0 <= retry_delay self)%Q.
Hypothesis random_unit : ∀ n, (0 <= random w n)%Q.
Hypothesis random_le : ∀ n, (random w n <= 1)%Q.
Hypothesis sleepable : backoff_sleepable self.

Abbreviation budget := (2 * Z.to_nat (retry_count self))%nat.

Lemma pause_run lo hi st :
  (0 <= lo)%Q → (lo <= hi)%Q → (hi <= 25)%Q →
  (delay ← uniform w lo hi; sleep delay) st
  = (Ok tt, Io (sent st) (S (drawn st)) (trace st ++ [Slept (draw w lo hi (drawn st))])).
Proof.
  intros Hlo Hhi Hmax. cbv [mbind IO_bind uniform]. cbn [drawn sent trace].
  pose proof (draw_ge w random_unit lo hi (drawn st) Hhi) as Hd.
  pose proof (draw_le w random_le lo hi (drawn st) Hhi) as Hd'.
  unfold draw in Hd, Hd'.
  rewrite sleep_in_range; [reflexivity | lra |].
  apply Qle_trans with 25%Q; [lra|]. unfold sleep_max. vm_compute. discriminate.
Qed.

Lemma batch_loop_run total items : ∀ (acc : gmap string DataFrame) (st : io),
  ∃ res st',
    batch_loop B w self granularity limit total items acc st = (Ok res, st')
    ∧ (∀ s df, res !! s = Some df →
         acc !! s = Some df ∨ (s ∈ items.*2 ∧ df ≠ []))
    ∧ (∀ s, is_Some (acc !! s) → is_Some (res !! s))
    ∧ (length (requests (trace st'))
       ≤ length (requests (trace st)) + budget * length items)%nat.
Proof.
  induction items as [|[i symbol] items IH]; intros acc st.
  - exists acc, st. cbn. repeat split; auto. lia.
  - cbn [batch_loop]. cbv [mbind IO_bind].
    destruct (get_crypto_data_budget B w self symbol granularity limit st
                delay_nonneg random_unit random_le sleepable)
      as (data & st1 & Hrun & Hle & _ & Hsome & _).
    rewrite Hrun.
    set (acc1 := match data with Some df => <[symbol:=df]> acc | None => acc end).
    assert (∃ st2, (if (i <? total)%nat
                    then delay ← uniform w 3 6; sleep delay else mret tt) st1
                   = (Ok tt, st2)
                   ∧ requests (trace st2) = requests (trace st1))
      as (st2 & Hpause & Hreq2).
    { destruct (i <? total)%nat.
      - eexists. split; [fold (@mbind IO _); apply pause_run; lra|].
        cbn. rewrite requests_app. cbn. apply app_nil_r.
      - exists st1. split; reflexivity. }
    cbv [mbind IO_bind] in Hpause. rewrite Hpause.
    destruct (IH acc1 st2) as (res & st' & Hloop & Hfrom & Hkeep & Hlen).
    exists res, st'. split; [exact Hloop|]. repeat split.
    + intros s df Hs. destruct (Hfrom s df Hs) as [Hacc1|[Hin Hne]].
      * subst acc1. destruct data as [df1|]; [|auto].
        destruct (decide (symbol = s)) as [->|Hne].
        -- rewrite lookup_insert_eq in Hacc1. injection Hacc1 as <-.
           right. split; [cbn; left | apply Hsome; reflexivity].
        -- rewrite lookup_insert_ne in Hacc1 by exact Hne. auto.
      * right. split; [cbn; right; exact Hin | exact Hne].
    + intros s Hs. apply Hkeep. subst acc1. destruct data as [df1|]; [|exact Hs].
      destruct (decide (symbol = s)) as [->|Hne];
        [rewrite lookup_insert_eq; eauto | rewrite lookup_insert_ne by exact Hne; exact Hs].
    + rewrite Hreq2 in Hlen. cbn [length]. lia.
Qed.

End BatchFacts.

(** X5. On a fetcher whose backoffs can be slept (non-negative
    [retry_delay], [backoff_sleepable]) and for draws in the unit
    interval, [get_multiple_cryptos] returns without raising; every key of
    the dictionary it returns is one of the requested symbols and its
    frame has rows; the whole batch sends at most [2 * retry_count]
    requests for each symbol. *)
Theorem batch_reports_only_fetched_symbols (B : PyBuiltins) (w : world)
    (self : fetcher) (symbols : list string) (granularity : string) (limit : Z)
    (st : io) :
  (0 <= retry_delay self)%Q →
  backoff_sleepable self →
  (∀ n, 0 <= random w n <= 1)%Q →
  ∃ results st',
    get_multiple_cryptos B w self symbols granularity limit st = (Ok results, st')
    ∧ (∀ s df, results !! s = Some df → s ∈ symbols ∧ df ≠ [])
    ∧ (length (requests (trace st'))
       ≤ length (requests (trace st))
         + 2 * Z.to_nat (retry_count self) * length symbols)%nat.
Proof.
  intros Hd Hfit Hr. unfold get_multiple_cryptos.
  destruct (batch_loop_run B w self granularity limit Hd
              (λ n, proj1 (Hr n)) (λ n, proj2 (Hr n)) Hfit (length symbols)
              (zip (seq 1 (length symbols)) symbols) ∅ st)
    as (res & st' & Hrun & Hfrom & _ & Hlen).
  exists res, st'. split; [exact Hrun|].
  assert ((zip (seq 1 (length symbols)) symbols).*2 = symbols) as Hsnd.
  { apply snd_zip. rewrite length_seq. lia. }
  rewrite Hsnd in Hfrom. split.
  - intros s df Hs. destruct (Hfrom s df Hs) as [Hempty|H]; [|exact H].
    rewrite lookup_empty in Hempty. discriminate.
  - rewrite length_zip_with, length_seq, Nat.min_id in Hlen. exact Hlen.
Qed.

Lemma batch_reports_only_fetched_symbols_witness :
  ∃ results st',
    get_multiple_cryptos number_builtins failover_world create_fetcher
      ["BTCUSDT"; "ETHUSDT"] "1day" 200 io0 = (Ok results, st')
    ∧ (∀ s df, results !! s = Some df → s ∈ ["BTCUSDT"; "ETHUSDT"] ∧ df ≠ [])
    ∧ (length (requests (trace st')) ≤ 0 + 2 * 3 * 2)%nat.
Proof.
  apply (batch_reports_only_fetched_symbols number_builtins failover_world
           create_fetcher ["BTCUSDT"; "ETHUSDT"] "1day" 200 io0).
  - vm_compute. discriminate.
  - split; vm_compute; discriminate.
  - intros n. split; vm_compute; discriminate.
Defined.


Section Outage.
Variable B : PyBuiltins.
Variable w : world.
Variable self : fetcher.
Variable granularity : string.
Variable limit : Z.
Hypothesis delay_nonneg : (0 <= retry_delay self)%Q.
Hypothesis random_unit : ∀ n, (0 <= random w n)%Q.
Hypothesis random_le : ∀ n, (random w n <= 1)%Q.
Hypothesis sleepable : backoff_sleepable self.
Hypothesis outage : ∀ n r, ∃ e, http w n r = HttpRaise e.

Lemma outage_fetch symbol st :
  ∃ st', get_crypto_data B w self symbol granularity limit st = (Ok None, st')
         ∧ length (requests (trace st'))
           = (length (requests (trace st)) + 2 * Z.to_nat (retry_count self))%nat.
Proof.
  destruct (get_crypto_data_budget B w self symbol granularity limit st
              delay_nonneg random_unit random_le sleepable)
    as (res & st' & Hrun & _ & Hnone & _).
  destruct (get_crypto_data_run B w self symbol granularity limit
              delay_nonneg random_unit random_le sleepable st)
    as (res' & st'' & Hrun' & Hout).
  rewrite Hrun in Hrun'. injection Hrun' as <- <-.
  assert (∀ p interval n df, ¬ succeeds B w p symbol interval limit n df) as Hno.
  { intros p interval n df. unfold succeeds.
    destruct (outage n (request_of p symbol interval limit)) as [e ->]. discriminate. }
  destruct Hout as [(i & df & _ & _ & Hs & _)|(_ & [(i & df & _ & _ & Hs & _)|(_ & -> & _)])];
    try (exfalso; eapply Hno; exact Hs).
  exists st'. split; [exact Hrun | apply Hnone; reflexivity].
Qed.

Lemma outage_batch total items : ∀ (acc : gmap string DataFrame) (st : io),
  ∃ st',
    batch_loop B w self granularity limit total items acc st = (Ok acc, st')
    ∧ length (requests (trace st'))
      = (length (requests (trace st))
         + 2 * Z.to_nat (retry_count self) * length items)%nat.
Proof.
  induction items as [|[i symbol] items IH]; intros acc st.
  - exists st. cbn. split; [reflexivity | lia].
  - cbn [batch_loop]. cbv [mbind IO_bind].
    destruct (outage_fetch symbol st) as (st1 & Hrun & Hlen1). rewrite Hrun.
    assert (∃ st2, (if (i <? total)%nat
                    then delay ← uniform w 3 6; sleep delay else mret tt) st1
                   = (Ok tt, st2)
                   ∧ requests (trace st2) = requests (trace st1))
      as (st2 & Hpause & Hreq2).
    { destruct (i <? total)%nat.
      - eexists. split; [fold (@mbind IO _);
                         apply (pause_run w random_unit random_le); lra|].
        cbn. rewrite requests_app. cbn. apply app_nil_r.
      - exists st1. split; reflexivity. }
    cbv [mbind IO_bind] in Hpause. rewrite Hpause.
    destruct (IH acc st2) as (st' & Hloop & Hlen).
    exists st'. split; [exact Hloop|]. rewrite Hlen, Hreq2, Hlen1. cbn [length]. lia.
Qed.

End Outage.

(** X6. When every request raises, [get_multiple_cryptos] on a fetcher
    whose backoffs can be slept (non-negative [retry_delay],
    [backoff_sleepable], draws in the unit interval) still goes through
    the whole list: it returns the empty dictionary, without an exception,
    after exactly [2 * retry_count] requests for each symbol. *)
Theorem batch_survives_an_outage (B : PyBuiltins) (w : world) (self : fetcher)
    (symbols : list string) (granularity : string) (limit : Z) (st : io) :
  (0 <= retry_delay self)%Q →
  backoff_sleepable self →
  (∀ n, 0 <= random w n <= 1)%Q →
  (∀ n r, ∃ e, http w n r = HttpRaise e) →
  ∃ st',
    get_multiple_cryptos B w self symbols granularity limit st = (Ok ∅, st')
    ∧ length (requests (trace st'))
      = (length (requests (trace st))
         + 2 * Z.to_nat (retry_count self) * length symbols)%nat.
Proof.
  intros Hd Hs Hr Hout. unfold get_multiple_cryptos.
  destruct (outage_batch B w self granularity limit Hd
              (λ n, proj1 (Hr n)) (λ n, proj2 (Hr n)) Hs Hout (length symbols)
              (zip (seq 1 (length symbols)) symbols) ∅ st) as (st' & Hrun & Hlen).
  exists st'. split; [exact Hrun|].
  rewrite length_zip_with, length_seq, Nat.min_id in Hlen. exact Hlen.
Qed.

Lemma batch_survives_an_outage_witness :
  ∃ st',
    get_multiple_cryptos number_builtins unreachable_world create_fetcher
      ["BTCUSDT"; "ETHUSDT"; "SOLUSDT"] "1day" 200 io0 = (Ok ∅, st')
    ∧ length (requests (trace st')) = (0 + 2 * 3 * 3)%nat.
Proof.
  apply (batch_survives_an_outage number_builtins unreachable_world create_fetcher
           ["BTCUSDT"; "ETHUSDT"; "SOLUSDT"] "1day" 200 io0).
  - vm_compute. discriminate.
  - split; vm_compute; discriminate.
  - intros n. split; vm_compute; discriminate.
  - intros n r. exists timeout_exn. reflexivity.
Defined.

(** X7. [quick_get_crypto_data(symbol, days)] uses the three attempts of
    [create_fetcher()], not the five of the class.  Whatever the draws and
    however the call ends, each request it sends is either Bitget's
    ['1day'] candles with [limit = min(days, 200)] or Binance's ['1d']
    candles with [limit = min(days, 1000)], for the upper-cased symbol;
    and for draws in the unit interval it returns after at most six
    requests. *)
Theorem quick_fetch_asks_for_daily_candles (B : PyBuiltins) (w : world)
    (symbol : string) (days : Z) :
  (∀ rq, rq ∈ requests (trace (snd (quick_get_crypto_data B w symbol days io0))) →
     rq = Request Bitget (upper symbol) "1day" (Z.min days 200)
     ∨ rq = Request Binance (upper symbol) "1d" (Z.min days 1000))
  ∧ ((∀ n, 0 <= random w n <= 1)%Q →
     ∃ res st',
       quick_get_crypto_data B w symbol days io0 = (Ok res, st')
       ∧ (length (requests (trace st')) ≤ 6)%nat).
Proof.
  unfold quick_get_crypto_data. split.
  - intros rq Hin.
    destruct (sends_only_fetch B w create_fetcher symbol "1day" days io0 rq Hin)
      as [H|[H|H]].
    + cbn in H. apply elem_of_nil in H. destruct H.
    + left. exact H.
    + right. exact H.
  - intros Hr.
    assert (0 <= retry_delay create_fetcher)%Q as Hd by (cbn; lra).
    destruct (get_crypto_data_budget B w create_fetcher symbol "1day" days io0 Hd
                (λ n, proj1 (Hr n)) (λ n, proj2 (Hr n)) create_fetcher_sleepable)
      as (res & st' & Hrun & Hle & _).
    exists res, st'. split; [exact Hrun | exact Hle].
Qed.

Lemma quick_fetch_asks_for_daily_candles_witness :
  ∃ res st',
    quick_get_crypto_data number_builtins failover_world "ethusdt" 30 io0
    = (Ok res, st')
    ∧ (length (requests (trace st')) ≤ 6)%nat.
Proof.
  destruct (quick_fetch_asks_for_daily_candles number_builtins failover_world
              "ethusdt" 30) as [_ Hreturns].
  apply Hreturns. intros n. split; vm_compute; discriminate.
Defined.


(** *** Ticker snapshot *)

Definition other_symbol (symbol_upper : string) (item : json) : Prop :=
  ∃ s, dict_get item "symbol" = Ok s ∧ eq_str s symbol_upper = false.

Lemma find_ticker_Some u items data :
  find_ticker u items = Ok (Some data) →
  ∃ pre suf, items = (pre ++ data :: suf)%list
             ∧ Forall (other_symbol u) pre
             ∧ dict_get data "symbol" = Ok (JStr u).
Proof.
  induction items as [|item items IH]; cbn; [discriminate|]. intros H.
  apply bind_Ok in H as (s & Hs & H).
  destruct (eq_str s u) eqn:Heq.
  - injection H as <-. exists [], items. apply eq_str_true in Heq. subst s.
    repeat split; auto.
  - destruct (IH H) as (pre & suf & -> & Hpre & Hd).
    exists (item :: pre), suf. repeat split; auto.
    constructor; [exists s; auto | exact Hpre].
Qed.

Lemma find_ticker_None u items :
  Forall (other_symbol u) items → find_ticker u items = Ok None.
Proof.
  induction 1 as [|item items (s & Hs & Heq) _ IH]; cbn; [reflexivity|].
  rewrite Hs. cbn. rewrite Heq. exact IH.
Qed.

(** X8. What [get_crypto_info] can return. A ticker dictionary carries the
    upper-cased symbol and is built from an answer with code ['00000'] and
    truthy ['data']: from the first item of the list whose ['symbol'] is
    the upper-cased symbol, or from ['data'] itself when it is not a list.
    Anything else is the two-entry dictionary with the symbol as typed and
    an ['error']; no exception leaves the function. *)
Theorem ticker_is_first_match_or_error (B : PyBuiltins)
    (tickers : string → http_result) (symbol : string) :
  match get_crypto_info B tickers symbol with
  | Info k =>
      info_symbol k = upper symbol
      ∧ ∃ members data_list data,
          tickers (upper symbol) = HttpJson (JObj members)
          ∧ assoc "code" members = Some (JStr "00000")
          ∧ assoc "data" members = Some data_list
          ∧ truthy data_list = true
          ∧ match data_list with
            | JArr items =>
                ∃ pre suf, items = (pre ++ data :: suf)%list
                           ∧ Forall (other_symbol (upper symbol)) pre
                           ∧ dict_get data "symbol" = Ok (JStr (upper symbol))
            | _ => data = data_list
            end
          ∧ extract_key_info B symbol data = Ok k
  | InfoError s _ => s = symbol
  end.
Proof.
  unfold get_crypto_info.
  destruct (crypto_info_body B tickers symbol) as [[k|s err]|e] eqn:Hbody;
    [| |reflexivity]; unfold crypto_info_body in Hbody;
    apply bind_Ok in Hbody as (result & Hres & Hbody);
    apply bind_Ok in Hbody as (code & Hcode & Hbody);
    apply bind_Ok in Hbody as (data_list & Hdl & Hbody).
  - destruct (eq_str code "00000") eqn:Heq; cbn [andb] in Hbody;
      [|apply bind_Ok in Hbody as (msg & _ & Hbody); discriminate].
    destruct (truthy data_list) eqn:Htruthy;
      [|apply bind_Ok in Hbody as (msg & _ & Hbody); discriminate].
    apply eq_str_true in Heq. subst code.
    destruct (tickers (upper symbol)) as [e|body] eqn:Htick; [discriminate|].
    injection Hres as ->.
    destruct result as [| | | | | |members]; try discriminate Hcode.
    cbn in Hcode, Hdl.
    destruct (assoc "code" members) as [code|] eqn:Hac; [|discriminate].
    cbn in Hcode. injection Hcode as ->.
    destruct (assoc "data" members) as [dl|] eqn:Had;
      [|cbn in Hdl; injection Hdl as <-; discriminate].
    cbn in Hdl. injection Hdl as ->.
    assert (∀ data, (k' ← extract_key_info B symbol data; mret (Info k')) = Ok (Info k) →
                    info_symbol k = upper symbol ∧ extract_key_info B symbol data = Ok k)
      as Hext.
    { intros data H. apply bind_Ok in H as (k' & Hk & H). injection H as ->.
      split; [|exact Hk]. unfold extract_key_info in Hk.
      repeat (apply bind_Ok in Hk as (? & _ & Hk)). inversion Hk. reflexivity. }
    destruct data_list as [| | | | |items|];
      try (destruct (Hext _ Hbody) as [Hsym Hk]; split; [exact Hsym|];
           match goal with
           | Hd : assoc "data" members = Some ?dl |- _ => exists members, dl, dl
           end; repeat split; auto; fail).
    apply bind_Ok in Hbody as (found & Hfound & Hbody).
    destruct found as [data|]; [|discriminate].
    destruct (Hext _ Hbody) as [Hsym Hk]. split; [exact Hsym|].
    apply find_ticker_Some in Hfound as (pre & suf & -> & Hpre & Hd).
    exists members, (JArr (pre ++ data :: suf)), data. repeat split; eauto.
  - destruct (eq_str code "00000" && truthy data_list).
    + destruct data_list as [| | | | |items|];
        try (apply bind_Ok in Hbody as (k' & _ & Hbody); discriminate).
      apply bind_Ok in Hbody as (found & _ & Hbody).
      destruct found as [data|].
      * apply bind_Ok in Hbody as (k' & _ & Hbody). discriminate.
      * injection Hbody as <- _. reflexivity.
    + apply bind_Ok in Hbody as (msg & _ & Hbody). injection Hbody as <- _. reflexivity.
Qed.

(** X9. When the answer is accepted but no item of its list has the
    requested symbol, [get_crypto_info] returns the error dictionary with
    the message ['未找到交易对 <symbol>'], not a ticker of zeros. *)
Theorem ticker_not_listed_is_an_error (B : PyBuiltins)
    (tickers : string → http_result) (symbol : string)
    (members : list (string * json)) (item : json) (items : list json) :
  tickers (upper symbol) = HttpJson (JObj members) →
  assoc "code" members = Some (JStr "00000") →
  assoc "data" members = Some (JArr (item :: items)) →
  Forall (other_symbol (upper symbol)) (item :: items) →
  get_crypto_info B tickers symbol
  = InfoError symbol (JStr ("未找到交易对 " +:+ symbol)).
Proof.
  intros Htick Hcode Hdata Hall.
  unfold get_crypto_info, crypto_info_body. rewrite Htick.
  cbv [mbind outcome_bind dict_get]. rewrite Hcode, Hdata.
  cbv [default from_option id eq_str]. rewrite String.eqb_refl.
  cbn [truthy andb].
  rewrite (find_ticker_None _ _ Hall). reflexivity.
Qed.

Definition listing (symbols : list string) : http_result :=
  HttpJson (JObj [("code", JStr "00000");
                  ("data", JArr (map (λ s, JObj [("symbol", JStr s);
                                                   ("lastPr", JFloat 1.5)])
                                     symbols))]).

Lemma ticker_not_listed_is_an_error_witness :
  get_crypto_info number_builtins (λ _, listing ["BTCUSDT"; "ETHUSDT"]) "dogeusdt"
  = InfoError "dogeusdt" (JStr ("未找到交易对 " +:+ "dogeusdt")).
Proof.
  eapply (ticker_not_listed_is_an_error number_builtins
            (λ _, listing ["BTCUSDT"; "ETHUSDT"]) "dogeusdt").
  - reflexivity.
  - reflexivity.
  - reflexivity.
  - repeat constructor; eexists; (split; [reflexivity | reflexivity]).
Defined.

End FetcherExtras.

(** ** Further facts about the signal scorer *)

Module ScorerExtras.
Import Analyzer AnalyzerFacts.

(** *** Order of floats *)

Lemma SFcompare_antisym x y c :
  SFcompare x y = Some c → SFcompare y x = Some (CompOpp c).
Proof.
  destruct x as [sx|sx| |sx mx ex], y as [sy|sy| |sy my ey]; cbn;
    try discriminate; try (destruct sx); try (destruct sy);
    intros [= <-]; try reflexivity; f_equal;
    change (Pos.compare_cont Eq mx my) with (mx ?= my)%positive;
    change (Pos.compare_cont Eq my mx) with (my ?= mx)%positive;
    rewrite (Z.compare_antisym ex ey), (Pos.compare_antisym mx my);
    destruct (ex ?= ey); cbn; try reflexivity;
    destruct (mx ?= my)%positive; reflexivity.
Qed.

Lemma ltb_true_leb_false x y : (x <? y)%float = true → (y <=? x)%float = false.
Proof.
  rewrite ltb_spec, leb_spec. unfold SFltb, SFleb.
  destruct (SFcompare (Prim2SF x) (Prim2SF y)) as [[]|] eqn:E; try discriminate.
  intros _. rewrite (SFcompare_antisym _ _ _ E). reflexivity.
Qed.

Lemma leb_true_ltb_false x y : (x <=? y)%float = true → (y <? x)%float = false.
Proof.
  rewrite ltb_spec, leb_spec. unfold SFltb, SFleb.
  destruct (SFcompare (Prim2SF x) (Prim2SF y)) as [[]|] eqn:E; try discriminate;
    intros _; rewrite (SFcompare_antisym _ _ _ E); reflexivity.
Qed.

Lemma ltb_irrefl x : (x <? x)%float = false.
Proof.
  destruct (x <? x)%float eqn:E; [|reflexivity].
  pose proof (ltb_true_leb_false _ _ E) as H.
  rewrite ltb_spec in E. rewrite leb_spec in H. unfold SFltb, SFleb in *.
  destruct (SFcompare (Prim2SF x) (Prim2SF x)) as [[]|]; discriminate.
Qed.

Lemma leb_true_not_nan x y :
  (x <=? y)%float = true → is_nan x = false ∧ is_nan y = false.
Proof.
  rewrite leb_spec. intros H.
  split; apply not_nan_is_nan; intros E; rewrite E in H;
    destruct (Prim2SF x), (Prim2SF y); discriminate.
Qed.


(** *** Single rules *)

(** X10. On a frame of at most one bar [prev_idx] is [latest_idx], so the
    MACD block compares the latest values with themselves and can detect
    no cross: it leaves the signals unchanged, whatever the MACD values. *)
Theorem single_bar_has_no_macd_cross (a : analyzer) (s : signals) :
  (length (data a) ≤ 1)%nat →
  snd (macd_rule a latest_idx (prev_idx a) s) = s.
Proof.
  intros Hlen. unfold prev_idx.
  replace (1 <? length (data a))%nat with false
    by (symmetry; apply Nat.ltb_ge; exact Hlen).
  unfold macd_rule, latest_idx. step_scorer.
  destruct (indicator_at a "MACD" (-1)) as [m|e]; [|reflexivity].
  destruct (indicator_at a "MACD_signal" (-1)) as [g|e]; [|reflexivity].
  destruct (negb (any_isna [m; g; m; g])); [|reflexivity].
  destruct (g <? m)%float eqn:Hgm.
  - rewrite (ltb_true_leb_false _ _ Hgm). cbn [andb].
    destruct (m <? g)%float eqn:Hmg; cbn [andb]; [|reflexivity].
    rewrite (ltb_true_leb_false _ _ Hmg). reflexivity.
  - cbn [andb]. destruct (m <? g)%float eqn:Hmg; cbn [andb]; [|reflexivity].
    destruct (g <=? m)%float eqn:Hle; [|reflexivity].
    rewrite (leb_true_ltb_false _ _ Hle) in Hmg. discriminate.
Qed.

Definition one_bar_analyzer : analyzer :=
  Analyzer [Bar 0 1 1 1 10 1]
    (<["MACD" := [3%float]]> (<["MACD_signal" := [2%float]]> ∅)).

Lemma single_bar_has_no_macd_cross_witness :
  snd (macd_rule one_bar_analyzer latest_idx (prev_idx one_bar_analyzer) empty_signals)
  = empty_signals.
Proof. apply single_bar_has_no_macd_cross. cbn. lia. Defined.

(** X11. The sell branch of the moving-average block is
    [not above_sma20 and not above_sma50], where above means strictly
    greater: a close equal to both averages (all three defined) is
    reported as below the main averages, with weight -15. *)
Theorem close_on_both_averages_counts_as_below
    (a : analyzer) (l : Z) (c : float) (s : signals) :
  iloc (column Close (data a)) l = Ok c →
  indicator_at a "SMA_20" l = Ok c →
  indicator_at a "SMA_50" l = Ok c →
  is_nan c = false →
  moving_average_rule a l s
  = (Ok tt, Signals (buy s) (sell s ++ ["价格低于主要均线"]) (neutral s)
                    (score s + -15)).
Proof.
  intros Hc H20 H50 Hnan. unfold moving_average_rule. step_scorer.
  rewrite Hc, H20, H50. unfold any_isna. cbn [existsb]. rewrite Hnan.
  cbn [orb negb]. rewrite ltb_irrefl. reflexivity.
Qed.

Definition flat_analyzer : analyzer :=
  Analyzer [Bar 0 7 7 7 7 1]
    (<["SMA_20" := [7%float]]> (<["SMA_50" := [7%float]]> ∅)).

Lemma close_on_both_averages_counts_as_below_witness :
  moving_average_rule flat_analyzer (-1) empty_signals
  = (Ok tt, Signals [] ["价格低于主要均线"] [] (-15)).
Proof.
  apply (close_on_both_averages_counts_as_below flat_analyzer (-1) 7%float
           empty_signals); reflexivity.
Defined.

(** X12. The RSI block uses strict comparisons with 30 and 70: every
    reading in the closed band from 30 to 70, both ends included, adds the
    neutral entry with the reading to one decimal and leaves the score. *)
Theorem rsi_band_is_neutral_with_both_ends
    (a : analyzer) (l : Z) (v : float) (s : signals) :
  indicator_at a "RSI_14" l = Ok v →
  (30 <=? v)%float = true →
  (v <=? 70)%float = true →
  rsi_rule a l s
  = (Ok tt, Signals (buy s) (sell s)
                    (neutral s ++ ["RSI正常 (" +:+ fmt1 v +:+ ")"]) (score s)).
Proof.
  intros Hv Hlo Hhi. unfold rsi_rule. step_scorer. rewrite Hv.
  destruct (leb_true_not_nan _ _ Hlo) as [_ Hnan]. rewrite Hnan. cbn [negb].
  rewrite (leb_true_ltb_false _ _ Hlo), (leb_true_ltb_false _ _ Hhi). reflexivity.
Qed.

Definition rsi_at (v : float) : analyzer :=
  Analyzer [Bar 0 1 1 1 1 1] (<["RSI_14" := [v]]> ∅).

Lemma rsi_band_is_neutral_with_both_ends_witness :
  rsi_rule (rsi_at 30) (-1) empty_signals
  = (Ok tt, Signals [] [] ["RSI正常 (30.0)"] 0)
  ∧ rsi_rule (rsi_at 70) (-1) empty_signals
    = (Ok tt, Signals [] [] ["RSI正常 (70.0)"] 0).
Proof.
  split.
  - apply (rsi_band_is_neutral_with_both_ends (rsi_at 30) (-1) 30%float empty_signals);
      reflexivity.
  - apply (rsi_band_is_neutral_with_both_ends (rsi_at 70) (-1) 70%float empty_signals);
      reflexivity.
Defined.


(** *** The whole report *)

(** A block adds at most [nb] entries to buy and sell together and at most
    [nn] to neutral. *)
Definition rule_adds (nb nn : nat) (r : Scorer unit) : Prop :=
  ∀ s, (length (buy (snd (r s))) + length (sell (snd (r s)))
        ≤ length (buy s) + length (sell s) + nb)%nat
       ∧ (length (neutral (snd (r s))) ≤ length (neutral s) + nn)%nat.

Ltac adds_tac :=
  intros s; step_scorer; repeat case_read; repeat case_if;
  cbn [snd buy sell neutral]; rewrite ?length_app; cbn [length]; lia.

Lemma rsi_rule_adds a l : rule_adds 1 1 (rsi_rule a l).
Proof. unfold rsi_rule. adds_tac. Qed.
Lemma macd_rule_adds a l p : rule_adds 1 0 (macd_rule a l p).
Proof. unfold macd_rule. adds_tac. Qed.
Lemma bollinger_rule_adds a l : rule_adds 1 0 (bollinger_rule a l).
Proof. unfold bollinger_rule. adds_tac. Qed.
Lemma moving_average_rule_adds a l : rule_adds 1 0 (moving_average_rule a l).
Proof. unfold moving_average_rule. adds_tac. Qed.
Lemma williams_rule_adds a l : rule_adds 1 0 (williams_rule a l).
Proof. unfold williams_rule. adds_tac. Qed.
Lemma mfi_rule_adds a l : rule_adds 1 0 (mfi_rule a l).
Proof. unfold mfi_rule. adds_tac. Qed.

Lemma run_rules_adds nb nn r rs mb mn :
  rule_adds nb nn r → rule_adds mb mn (run_rules rs) →
  rule_adds (nb + mb) (nn + mn) (run_rules (r :: rs)).
Proof.
  intros Hr Hrs s. rewrite run_rules_cons.
  destruct (Hr s) as [H1 H2].
  destruct (r s) as [[[]|e] s1]; cbn [snd] in *; [|lia].
  destruct (Hrs s1) as [H3 H4]. lia.
Qed.

(** X13. Every report of [generate_trading_signals] has at most six
    entries in its buy and sell lists together (one for each block) and at
    most one neutral entry (only the RSI block writes one). *)
Theorem report_has_at_most_six_signals (ta : TaLib) (a : analyzer) :
  let r := fst (generate_trading_signals ta a) in
  (length (buy r) + length (sell r) ≤ 6)%nat ∧ (length (neutral r) ≤ 1)%nat.
Proof.
  cbn zeta. rewrite generate_fst.
  set (a' := ensure_indicators ta a).
  assert (rule_adds 6 1 (run_rules (rules a' latest_idx (prev_idx a')))) as H.
  { unfold rules.
    apply (run_rules_adds 1 1 _ _ 5 0); [apply rsi_rule_adds|].
    apply (run_rules_adds 1 0 _ _ 4 0); [apply macd_rule_adds|].
    apply (run_rules_adds 1 0 _ _ 3 0); [apply bollinger_rule_adds|].
    apply (run_rules_adds 1 0 _ _ 2 0); [apply moving_average_rule_adds|].
    apply (run_rules_adds 1 0 _ _ 1 0); [apply williams_rule_adds|].
    apply (run_rules_adds 1 0 _ _ 0 0); [apply mfi_rule_adds|].
    intros s. change (run_rules [] s) with (Ok tt, s). cbn [snd]. lia. }
  destruct (H empty_signals) as [H1 H2].
  change (buy empty_signals) with (@nil string) in H1.
  change (sell empty_signals) with (@nil string) in H1.
  change (neutral empty_signals) with (@nil string) in H2.
  cbn [length] in H1, H2. lia.
Qed.

(** The eight series the rule blocks read. *)
Definition scorer_keys : list string :=
  ["RSI_14"; "MACD"; "MACD_signal"; "BB_percent"; "SMA_20"; "SMA_50";
   "Williams_R"; "MFI"].

(** X14. For every frame, [calculate_all_indicators] on a fresh analyzer
    stores 41 series, and the eight series the scorer's blocks read are
    among them, so after it no block fails on a missing key. *)
Theorem full_set_has_41_names_with_the_scorer_keys (ta : TaLib) (d : DataFrame) :
  size (all_indicators ta d) = 41%nat
  ∧ Forall (λ key, is_Some (all_indicators ta d !! key)) scorer_keys.
Proof.
  split.
  - rewrite <- (size_dom (D := gset string)).
    vm_compute. reflexivity.
  - unfold scorer_keys. repeat constructor; vm_compute; eauto.
Qed.


Lemma all_indicators_nonempty ta d : all_indicators ta d ≠ ∅.
Proof.
  intros E. assert (all_indicators ta d !! "OBV" = None) as H
    by (rewrite E; apply lookup_empty).
  vm_compute in H. discriminate.
Qed.

Lemma ensure_indicators_nonempty ta a : indicators (ensure_indicators ta a) ≠ ∅.
Proof.
  unfold ensure_indicators. case_bool_decide as Hempty; [|exact Hempty].
  destruct a as [d inds]. cbn in Hempty. subst inds.
  change (indicators (snd (calculate_all_indicators ta (Analyzer d ∅))))
    with (all_indicators ta d).
  apply all_indicators_nonempty.
Qed.

Lemma ensure_indicators_idem ta a :
  ensure_indicators ta (ensure_indicators ta a) = ensure_indicators ta a.
Proof.
  pose proof (ensure_indicators_nonempty ta a) as H.
  unfold ensure_indicators at 1. case_bool_decide; [contradiction | reflexivity].
Qed.

(** X15. [generate_trading_signals] can be repeated: called on the
    analyzer it leaves behind, it returns the same report and leaves the
    same analyzer (the stored indicators are never empty after a call, so
    they are not computed again and the report list does not grow). *)
Theorem scoring_twice_gives_the_same_report (ta : TaLib) (a : analyzer) :
  generate_trading_signals ta (snd (generate_trading_signals ta a))
  = generate_trading_signals ta a.
Proof.
  assert (snd (generate_trading_signals ta a) = ensure_indicators ta a) as ->.
  { unfold generate_trading_signals. destruct (run_rules _ _). reflexivity. }
  unfold generate_trading_signals. rewrite ensure_indicators_idem. reflexivity.
Qed.

(** X16. Calling [calculate_all_indicators] before
    [generate_trading_signals], as [analyze_crypto] does, changes neither
    the report nor the final analyzer compared with scoring the fresh
    analyzer directly. *)
Theorem precomputing_indicators_is_optional (ta : TaLib) (d : DataFrame) :
  generate_trading_signals ta (snd (calculate_all_indicators ta (init d)))
  = generate_trading_signals ta (init d).
Proof.
  assert (ensure_indicators ta (init d) = snd (calculate_all_indicators ta (init d)))
    as Hfresh by reflexivity.
  unfold generate_trading_signals.
  rewrite <- Hfresh, ensure_indicators_idem. reflexivity.
Qed.

(** X17. After [calculate_trend_indicators] alone the stored dictionary is
    not empty, so [generate_trading_signals] does not compute the rest:
    the first block fails on the missing ['RSI_14'], the exception is
    swallowed and the report is empty with score 0, although the trend
    readings (MACD, SMA) are there. *)
Theorem trend_indicators_alone_give_an_empty_report (ta : TaLib) (d : DataFrame) :
  let a := snd (calculate_trend_indicators ta (init d)) in
  generate_trading_signals ta a = (empty_signals, a).
Proof.
  intros a.
  assert (ensure_indicators ta a = a) as Hens.
  { unfold ensure_indicators. case_bool_decide as Hempty; [|reflexivity].
    exfalso. assert (indicators a !! "MACD" = None) as H
      by (rewrite Hempty; apply lookup_empty).
    vm_compute in H. discriminate. }
  unfold generate_trading_signals. rewrite Hens.
  unfold rules. rewrite run_rules_cons.
  assert (∀ s, rsi_rule a latest_idx s = (Raise (Exn KeyError "'RSI_14'"), s)) as Hrsi.
  { intros s. unfold rsi_rule. step_scorer. unfold indicator_at, getitem.
    assert (indicators a !! "RSI_14" = None) as -> by (vm_compute; reflexivity).
    reflexivity. }
  rewrite Hrsi. reflexivity.
Qed.

End ScorerExtras.

(** ** Facts about the indicator summary *)

Module SummaryFacts.
Import Analyzer AnalyzerFacts AnalyzerMore Fetcher FetcherFacts.

Definition out_of_bounds : exn :=
  Exn IndexError "single positional indexer is out-of-bounds".

Lemma iloc_raises s i e : iloc s i = Raise e → e = out_of_bounds.
Proof.
  unfold iloc. destruct (_ && _); [destruct (s !! _)|]; intros [= <-]; reflexivity.
Qed.

Lemma iloc_nil i : iloc [] i = Raise out_of_bounds.
Proof.
  unfold iloc. cbn [length]. destruct (_ && _) eqn:E; [|reflexivity].
  apply andb_true_iff in E as [E1 E2].
  apply Z.leb_le in E1. apply Z.ltb_lt in E2. lia.
Qed.

Lemma summarize_indicators_raises R a keys : ∀ acc e,
  summarize_indicators R a keys acc = Raise e → e = out_of_bounds.
Proof.
  induction keys as [|k keys IH]; intros acc e; cbn; [discriminate|].
  destruct (indicators a !! k) as [series|]; [|apply IH].
  destruct (iloc series (-1)) as [v|e'] eqn:Hv; cbn.
  - apply IH.
  - intros [= <-]. eapply iloc_raises, Hv.
Qed.

Lemma ensure_indicators_data ta a : data (ensure_indicators ta a) = data a.
Proof. unfold ensure_indicators. case_bool_decide; reflexivity. Qed.

(** X18. [get_indicator_summary] has no [try]: on an empty frame it raises
    the IndexError of [iloc[-1]], from an indicator series or from the
    close column. *)
Theorem summary_of_an_empty_frame_raises (R : Rounding) (ta : TaLib) (a : analyzer) :
  data a = [] →
  fst (get_indicator_summary R ta a) = Raise out_of_bounds.
Proof.
  intros Hd. unfold get_indicator_summary. cbn [fst].
  rewrite ensure_indicators_data, Hd.
  destruct (summarize_indicators R _ key_indicators ∅) as [summary|e] eqn:Hs; cbn.
  - unfold column. cbn [map]. rewrite iloc_nil. reflexivity.
  - f_equal. eapply summarize_indicators_raises, Hs.
Qed.

Definition plain_rounding : Rounding :=
  {| py_round := λ x _, x; np_round := λ x _, x |}.

Lemma summary_of_an_empty_frame_raises_witness :
  fst (get_indicator_summary plain_rounding constant_ta (init []))
  = Raise out_of_bounds.
Proof. apply summary_of_an_empty_frame_raises. reflexivity. Defined.

(** The entry of a key indicator: its last value rounded to three
    decimals, unless the indicator is missing or that value is NaN. *)
Definition summary_entry (R : Rounding) (a : analyzer) (key : string) : option float :=
  match indicators a !! key with
  | Some series =>
      match iloc series (-1) with
      | Ok v => if is_nan v then None else Some (py_round R v 3)
      | Raise _ => None
      end
  | None => None
  end.

Definition price_key (period : Z) : string := "Price_vs_" +:+ ("SMA_" +:+ pretty period).

Lemma summarize_indicators_lookup R a keys : ∀ acc res,
  NoDup keys →
  (∀ k, k ∈ keys → acc !! k = None) →
  summarize_indicators R a keys acc = Ok res →
  ∀ k, res !! k = if decide (k ∈ keys) then summary_entry R a k else acc !! k.
Proof.
  induction keys as [|key keys IH]; intros acc res Hnd Hfresh H k; cbn in H.
  - injection H as <-. rewrite decide_False by apply not_elem_of_nil. reflexivity.
  - apply NoDup_cons in Hnd as [Hnotin Hnd].
    assert (∀ acc', summarize_indicators R a keys acc' = Ok res →
                    acc' !! key = summary_entry R a key →
                    (∀ j, j ≠ key → acc' !! j = acc !! j) →
                    res !! k = if decide (k ∈ key :: keys)
                               then summary_entry R a k else acc !! k) as Hstep.
    { intros acc' Hrun Hkey Hother.
      assert (∀ j, j ∈ keys → acc' !! j = None) as Hfresh'.
      { intros j Hj. rewrite Hother by (intros ->; contradiction).
        apply Hfresh. right. exact Hj. }
      rewrite (IH acc' res Hnd Hfresh' Hrun k).
      destruct (decide (k = key)) as [->|Hne].
      - rewrite decide_False by exact Hnotin.
        rewrite decide_True by (left). exact Hkey.
      - destruct (decide (k ∈ keys)) as [Hin|Hnin].
        + rewrite decide_True by (right; exact Hin). reflexivity.
        + rewrite decide_False by (rewrite elem_of_cons; tauto).
          apply Hother, Hne. }
    assert (acc !! key = None) as Hkey0 by (apply Hfresh; left).
    unfold summary_entry in Hstep.
    destruct (indicators a !! key) as [series|] eqn:Hk.
    + destruct (iloc series (-1)) as [v|e]; [|discriminate]. cbn in H.
      destruct (is_nan v); cbn [negb] in H.
      * apply (Hstep acc H); auto.
      * apply (Hstep _ H); [apply lookup_insert_eq|].
        intros j Hj. apply lookup_insert_ne. congruence.
    + apply (Hstep acc H); auto.
Qed.

Lemma summarize_prices_lookup R a close periods : ∀ acc res,
  summarize_prices R a close periods acc = Ok res →
  ∀ k, k ∉ price_key <$> periods → res !! k = acc !! k.
Proof.
  induction periods as [|p periods IH]; intros acc res H k Hk; cbn in H.
  - injection H as <-. reflexivity.
  - rewrite fmap_cons, not_elem_of_cons in Hk. destruct Hk as [Hne Hk].
    destruct (indicators a !! _) as [series|]; [|apply (IH _ _ H k Hk)].
    destruct (iloc series (-1)) as [v|e]; [|discriminate]. cbn in H.
    rewrite (IH _ _ H k Hk).
    destruct (negb (is_nan v)); [|reflexivity].
    apply lookup_insert_ne. unfold price_key in Hne. congruence.
Qed.

(** X19. When [get_indicator_summary] returns, each of the eight key
    indicators is in the summary exactly when the series is stored and its
    last value is not NaN, and then with that value rounded to three
    decimals; the price-versus-average entries never overwrite one. *)
Theorem summary_holds_the_defined_key_indicators
    (R : Rounding) (ta : TaLib) (a : analyzer) (summary : gmap string float)
    (key : string) :
  fst (get_indicator_summary R ta a) = Ok summary →
  key ∈ key_indicators →
  summary !! key = summary_entry R (ensure_indicators ta a) key.
Proof.
  unfold get_indicator_summary. cbn [fst]. intros H Hkey.
  apply bind_Ok in H as (s1 & Hs1 & H).
  apply bind_Ok in H as (close & _ & H).
  rewrite (summarize_prices_lookup _ _ _ _ _ _ H).
  - assert (NoDup key_indicators) as Hnd
      by (apply (bool_decide_unpack _); vm_compute; exact I).
    rewrite (summarize_indicators_lookup _ _ _ _ _ Hnd
               (λ k _, lookup_empty k) Hs1).
    rewrite decide_True by exact Hkey. reflexivity.
  - revert Hkey. unfold key_indicators. rewrite !elem_of_cons, elem_of_nil.
    intros Hkey Hin. cbn [fmap list_fmap] in Hin.
    rewrite !elem_of_cons, elem_of_nil in Hin.
    destruct Hkey as [->|[->|[->|[->|[->|[->|[->|[->|[]]]]]]]]];
      destruct Hin as [Hin|[Hin|[Hin|[]]]]; vm_compute in Hin; discriminate Hin.
Qed.

Definition summary_analyzer : analyzer :=
  Analyzer [Bar 0 1 1 1 10 1]
    (<["RSI_14" := [nan; 42.5]%float]> (<["ATR" := [nan]]> ∅)).

Lemma summary_holds_the_defined_key_indicators_witness :
  ∃ summary,
    fst (get_indicator_summary plain_rounding constant_ta summary_analyzer) = Ok summary
    ∧ summary !! "RSI_14" = Some 42.5%float
    ∧ summary !! "ATR" = None.
Proof.
  destruct (fst (get_indicator_summary plain_rounding constant_ta summary_analyzer))
    as [summary|e] eqn:Hrun; [|vm_compute in Hrun; discriminate].
  exists summary. split; [reflexivity|].
  split.
  - rewrite (summary_holds_the_defined_key_indicators plain_rounding constant_ta
               summary_analyzer summary "RSI_14" Hrun);
      [reflexivity | apply (bool_decide_unpack _); vm_compute; exact I].
  - rewrite (summary_holds_the_defined_key_indicators plain_rounding constant_ta
               summary_analyzer summary "ATR" Hrun);
      [reflexivity | apply (bool_decide_unpack _); vm_compute; exact I].
Defined.

End SummaryFacts.

(** ** Facts about the menus and displays *)

Module PresentationFacts.
Import Analyzer AnalyzerFacts Fetcher FetcherFacts Presentation.

Definition labelled (label : string) (results : list signals) : nat :=
  length (List.filter (λ r, String.eqb (row_recommendation (score r)) label) results).

Definition scored (n : Z) (results : list signals) : nat :=
  length (List.filter (λ r, score r =? n) results).

Lemma labelled_Permutation label rows results :
  rows ≡ₚ results → labelled label rows = labelled label results.
Proof.
  unfold labelled. induction 1 as [|r l l' _ IH|r r' l|l l' l'' _ IH1 _ IH2].
  - reflexivity.
  - cbn [List.filter]. destruct (String.eqb _ _); cbn [length]; congruence.
  - cbn [List.filter]. do 2 destruct (String.eqb _ _); reflexivity.
  - congruence.
Qed.

Lemma totals_and_labels results :
  (buy_count results + hold_count results + sell_count results = length results)%nat
  ∧ labelled "买入" results = buy_count results
  ∧ (labelled "持有" results + scored (-10) results = hold_count results)%nat
  ∧ labelled "卖出" results = (sell_count results + scored (-10) results)%nat.
Proof.
  unfold buy_count, hold_count, sell_count, labelled, scored, row_recommendation.
  induction results as [|r results (IH1 & IH2 & IH3 & IH4)]; [repeat split|].
  cbn [List.filter].
  destruct (Z.ltb_spec 10 (score r)), (Z.ltb_spec (-10) (score r)),
           (Z.leb_spec (-10) (score r)), (Z.leb_spec (score r) 10),
           (Z.ltb_spec (score r) (-10)), (Z.eqb_spec (score r) (-10));
    try lia; cbn [andb length];
    repeat match goal with
           | |- context [String.eqb ?a ?b] =>
               let v := eval vm_compute in (String.eqb a b) in
               change (String.eqb a b) with v
           end; cbn [length]; lia.
Qed.

(** X20. [display_batch_results]: the three totals printed under the table
    count every result exactly once; the rows labelled buy are as many as
    the buy total; but a score of exactly -10 gets the row label sell
    while the totals count it as hold, so the sell rows exceed the sell
    total by the number of results scored -10. The rows are the results in
    sorted order, that is some permutation of them. *)
Theorem batch_totals_and_row_labels (results sorted_results : list signals) :
  sorted_results ≡ₚ results →
  (buy_count results + hold_count results + sell_count results = length results)%nat
  ∧ labelled "买入" sorted_results = buy_count results
  ∧ (labelled "持有" sorted_results + scored (-10) results = hold_count results)%nat
  ∧ labelled "卖出" sorted_results = (sell_count results + scored (-10) results)%nat.
Proof.
  intros Hp. rewrite !(labelled_Permutation _ _ _ Hp). apply totals_and_labels.
Qed.

Definition batch_of (scores : list Z) : list signals :=
  map (Signals [] [] []) scores.

Lemma batch_totals_and_row_labels_witness :
  let results := batch_of [-10; 40; 0] in
  let sorted_results := batch_of [40; 0; -10] in
  labelled "卖出" sorted_results = 1%nat
  ∧ sell_count results = 0%nat
  ∧ hold_count results = 2%nat.
Proof.
  cbn zeta.
  destruct (batch_totals_and_row_labels (batch_of [-10; 40; 0]) (batch_of [40; 0; -10]))
    as (_ & _ & _ & Hsell).
  - symmetry. apply (Permutation_cons_append (batch_of [40; 0]) (Signals [] [] [] (-10))).
  - split; [rewrite Hsell; reflexivity|]. split; reflexivity.
Defined.

(** The granularities the docstring of [get_crypto_data_bitget] lists. *)
Definition bitget_granularities : list string :=
  ["1min"; "5min"; "15min"; "30min"; "1h"; "4h"; "6h"; "12h"; "1day"; "1week"].

Lemma menu_granularity_cases typed :
  (typed = "2" ∧ menu_granularity typed = "1hour")
  ∨ (typed = "3" ∧ menu_granularity typed = "15min")
  ∨ (typed ≠ "2" ∧ typed ≠ "3" ∧ menu_granularity typed = "1day").
Proof.
  unfold menu_granularity.
  destruct (String.eqb typed "") eqn:E0.
  { apply String.eqb_eq in E0. subst. right. right. repeat split; discriminate || reflexivity. }
  unfold menu_granularity_map. cbn [list_to_map foldr fst snd].
  destruct (decide (typed = "1")) as [->|H1].
  { right. right. repeat split; discriminate || reflexivity. }
  destruct (decide (typed = "2")) as [->|H2]; [left; split; reflexivity|].
  destruct (decide (typed = "3")) as [->|H3]; [right; left; split; reflexivity|].
  right. right. repeat split; auto.
  rewrite !lookup_insert_ne by congruence. rewrite lookup_empty. reflexivity.
Qed.

(** X21. Option 1 of the menu of [crypto_analyzer.main]: the limit sent is
    between 10 and 200 for Bitget and between 10 and 1000 for Binance; the
    granularity sent to Bitget is one of those its docstring lists unless
    choice 2 is typed (['1hour'] is not in the list); and on the Binance
    side choice 3 gives ['15m'] and every other input, choice 2 included,
    gives daily candles. *)
Theorem menu_never_asks_binance_for_hourly_candles
    (symbol typed_granularity : string) (typed_limit : option Z) :
  let granularity := menu_granularity typed_granularity in
  let limit := menu_limit typed_limit in
  10 ≤ req_limit (bitget_request symbol granularity limit) ≤ 200
  ∧ 10 ≤ req_limit (binance_request symbol (binance_interval granularity) limit) ≤ 1000
  ∧ (granularity ∈ bitget_granularities ↔ typed_granularity ≠ "2")
  ∧ binance_interval granularity
    = (if decide (typed_granularity = "3") then "15m" else "1d").
Proof.
  cbn zeta.
  assert (10 ≤ menu_limit typed_limit ≤ 1000) as Hl
    by (unfold menu_limit; destruct typed_limit; lia).
  split; [cbn; lia|]. split; [cbn; lia|].
  destruct (menu_granularity_cases typed_granularity)
    as [[-> ->]|[[-> ->]|(H2 & H3 & ->)]].
  - split; [|reflexivity]. split; [|congruence].
    intros H. exfalso. revert H. apply (bool_decide_unpack _). vm_compute. exact I.
  - split; [|reflexivity]. split; [discriminate|].
    intros _. apply (bool_decide_unpack _). vm_compute. exact I.
  - split.
    + split; [intros _; exact H2|].
      intros _. apply (bool_decide_unpack _). vm_compute. exact I.
    + rewrite decide_False by exact H3. reflexivity.
Qed.

(** X22. [analyze_single_stock]: a period choice that is none of 1 to 5
    (the empty line included) gives ['3mo'], which is option 2 of the menu
    and not option 3, the default the prompt announces. *)
Theorem unknown_period_choice_means_three_months (period_choice : string) :
  period_choice ∉ ["1"; "2"; "3"; "4"; "5"] →
  stock_period period_choice = "3mo"
  ∧ stock_period period_choice = stock_period "2"
  ∧ stock_period period_choice ≠ stock_period "3".
Proof.
  intros H. rewrite !not_elem_of_cons in H.
  destruct H as (H1 & H2 & H3 & H4 & H5 & _).
  assert (stock_period period_choice = "3mo") as ->.
  { unfold stock_period, period_map. cbn [list_to_map foldr fst snd].
    rewrite !lookup_insert_ne by congruence. rewrite lookup_empty. reflexivity. }
  repeat split. vm_compute. discriminate.
Qed.

Lemma unknown_period_choice_means_three_months_witness :
  stock_period "" = "3mo".
Proof.
  apply (unknown_period_choice_means_three_months "").
  apply (bool_decide_unpack _). vm_compute. exact I.
Defined.

(** X23. The label of a row of [display_batch_results] is the advice of
    [display_analysis_result] for the same score without its strength:
    buy for buy and strong buy, hold for hold, sell for sell and strong
    sell; both use the thresholds 10 and -10 with the same strictness. *)
Theorem row_label_is_single_advice_without_strength (score : Z) :
  (row_recommendation score = "买入"
   ↔ stock_recommendation score ∈ ["🚀 强烈买入"; "📈 买入"])
  ∧ (row_recommendation score = "持有"
     ↔ stock_recommendation score = "⚖️ 持有/观望")
  ∧ (row_recommendation score = "卖出"
     ↔ stock_recommendation score ∈ ["📉 卖出"; "🔻 强烈卖出"]).
Proof.
  unfold row_recommendation, stock_recommendation.
  destruct (Z.ltb_spec 30 score), (Z.ltb_spec 10 score), (Z.ltb_spec (-10) score),
           (Z.ltb_spec (-30) score); try lia;
    (split; [|split]); split; intros Hlabel;
    solve [ reflexivity | discriminate Hlabel
          | apply (bool_decide_unpack _); vm_compute; exact I
          | exfalso; revert Hlabel; apply (bool_decide_unpack _); vm_compute; exact I ].
Qed.

(** X24. The two front ends advise differently for the same score: above
    10 and below 30 [analyze_crypto] says hold where
    [display_analysis_result] says buy, and above -30 up to -10 it says
    hold where the other says sell. *)
Theorem front_ends_disagree_between_thresholds (score : Z) :
  10 < score < 30 ∨ -30 < score ≤ -10 →
  crypto_recommendation score = "持有 ⚪"
  ∧ stock_recommendation score
    = (if 0 <? score then "📈 买入" else "📉 卖出").
Proof.
  unfold crypto_recommendation, stock_recommendation.
  intros Hband.
  destruct (Z.leb_spec 60 score), (Z.leb_spec 30 score), (Z.leb_spec (-30) score),
           (Z.ltb_spec 30 score), (Z.ltb_spec 10 score), (Z.ltb_spec (-10) score),
           (Z.ltb_spec (-30) score), (Z.ltb_spec 0 score); try lia;
    split; reflexivity.
Qed.

Lemma front_ends_disagree_between_thresholds_witness :
  crypto_recommendation 20 = "持有 ⚪" ∧ stock_recommendation 20 = "📈 买入".
Proof. apply (front_ends_disagree_between_thresholds 20). lia. Defined.

End PresentationFacts.

Module StockFacts.
Import Fetcher FetcherFacts StockFetcher.

Section StockLoop.
Variable history : nat → string → string → string → outcome DataFrame.
Variable w : world.
Variable self : fetcher.
Variables symbol period interval : string.
Hypothesis delay_nonneg : (0 <= retry_delay self)%Q.
Hypothesis random_unit : ∀ n, (0 <= random w n)%Q.
Hypothesis random_le : ∀ n, (random w n <= 1)%Q.
Hypothesis sleepable : backoff_sleepable self.

(** The [n]-th call yields a frame with rows. *)
Definition yields (n : nat) (df : DataFrame) : Prop :=
  history n symbol period interval = Ok df ∧ df ≠ [].

Definition yields_nothing (n : nat) : Prop := ∀ df, ¬ yields n df.

Lemma stock_backoff_run attempt e st :
  ∃ st', stock_backoff w self attempt e st = (Ok Continue, st') ∧ sent st' = sent st.
Proof.
  unfold stock_backoff.
  destruct (Z.ltb_spec attempt (retry_count self - 1)) as [Hlt|];
    [|cbv [mbind IO_bind mret IO_ret]; eauto].
  destruct (exponential_product_Ok self delay_nonneg sleepable attempt Hlt)
    as [Hprod Hmax].
  pose proof (exponential_term_nonneg self delay_nonneg attempt) as He.
  pose proof (draw_ge w random_unit 1 3 (drawn st) ltac:(lra)) as Hj.
  pose proof (draw_le w random_le 1 3 (drawn st) ltac:(lra)) as Hj'.
  pose proof (draw_le w random_le 5 15 (S (drawn st)) ltac:(lra)) as Hf.
  assert (25 <= sleep_max)%Q as H25 by (unfold sleep_max; vm_compute; discriminate).
  unfold draw in Hj, Hj', Hf.
  cbv [mbind IO_bind mret IO_ret uniform lift]. rewrite Hprod.
  destruct (is_too_many_requests _); cbn [drawn sent trace].
  - rewrite sleep_in_range; [eauto | | apply Q.max_lub; lra].
    eapply Qle_trans; [|apply Q.le_max_l]. lra.
  - rewrite sleep_in_range by lra. eauto.
Qed.

Lemma stock_attempt_run attempt st :
  ∃ st', sent st' = S (sent st)
         ∧ stock_attempt history w self symbol period interval attempt st
           = (Ok match history (sent st) symbol period interval with
                 | Ok (row :: rows) => Returned (row :: rows)
                 | _ => Continue
                 end, st').
Proof.
  unfold stock_attempt, try_except. cbv [mbind IO_bind mret IO_ret].
  assert (∃ st1, (if 0 <? attempt
                  then random_delay ← uniform w 0.5 2; sleep random_delay
                  else mret tt) st = (Ok tt, st1) ∧ sent st1 = sent st)
    as (st1 & Hpre & Hs1).
  { destruct (0 <? attempt); [|eauto].
    rewrite (FetcherExtras.pause_run w random_unit random_le) by lra. eauto. }
  cbv [mbind IO_bind mret IO_ret] in Hpre. rewrite Hpre.
  unfold ticker_history. rewrite Hs1.
  destruct (history (sent st) symbol period interval) as [[|row rows]|e].
  - eexists. split; [|reflexivity]. cbn. lia.
  - eexists. split; [|reflexivity]. cbn. lia.
  - destruct (stock_backoff_run attempt e (Io (S (sent st)) (drawn st1) (trace st1)))
      as (st' & Hrun & Hs'). rewrite Hrun. exists st'. split; [|reflexivity].
    rewrite Hs'. reflexivity.
Qed.

Lemma yields_nothing_empty n :
  (∀ row rows, history n symbol period interval ≠ Ok (row :: rows)) →
  yields_nothing n.
Proof.
  intros Hh df [Hy Hne]. destruct df as [|row rows]; [congruence|].
  apply (Hh row rows Hy).
Qed.

Lemma stock_loop_run c : ∀ (k : nat) (st : io),
  ∃ res st',
    attempts_loop (stock_attempt history w self symbol period interval)
                  (map Z.of_nat (seq k c)) st = (Ok res, st')
    ∧ ((∃ i df, (i < c)%nat
                ∧ (∀ j, (j < i)%nat → yields_nothing (sent st + j))
                ∧ yields (sent st + i) df
                ∧ res = Some df ∧ sent st' = (sent st + S i)%nat)
       ∨ ((∀ j, (j < c)%nat → yields_nothing (sent st + j))
          ∧ res = None ∧ sent st' = (sent st + c)%nat)).
Proof.
  induction c as [|c IH]; intros k st.
  - exists None, st. split; [reflexivity|]. right.
    split; [lia|]. split; [reflexivity|lia].
  - cbn [seq map attempts_loop]. cbv [mbind IO_bind].
    destruct (stock_attempt_run (Z.of_nat k) st) as (st1 & Hs1 & Hrun). rewrite Hrun.
    assert ((∃ row rows, history (sent st) symbol period interval = Ok (row :: rows))
            ∨ (yields_nothing (sent st)
               ∧ match history (sent st) symbol period interval with
                 | Ok (row :: rows) => Returned (row :: rows)
                 | _ => Continue
                 end = Continue)) as [(row & rows & Hh)|[Hnone Hcont]].
    { destruct (history (sent st) symbol period interval) as [[|row rows]|e] eqn:Hh.
      - right. split; [|reflexivity]. apply yields_nothing_empty. congruence.
      - left. eauto.
      - right. split; [|reflexivity]. apply yields_nothing_empty. congruence. }
    + rewrite Hh. exists (Some (row :: rows)), st1. split; [reflexivity|]. left.
      exists 0%nat, (row :: rows). rewrite Nat.add_0_r.
      split; [lia|]. split; [lia|]. split; [split; [exact Hh|discriminate]|].
      split; [reflexivity|lia].
    + rewrite Hcont.
      destruct (IH (S k) st1) as (res & st' & Hloop & Hcase).
      exists res, st'. split; [exact Hloop|].
      rewrite Hs1 in Hcase.
      assert (∀ m, (∀ j, (j < m)%nat → yields_nothing (S (sent st) + j)) →
                   ∀ j, (j < S m)%nat → yields_nothing (sent st + j)) as Hshift.
      { intros m Hm [|j] Hj; [rewrite Nat.add_0_r; exact Hnone|].
        replace (sent st + S j)%nat with (S (sent st) + j)%nat by lia.
        apply Hm. lia. }
      destruct Hcase as [(i & df & Hi & Hbefore & Hy & Hres & Hs')|(Hall & Hres & Hs')].
      * left. exists (S i), df.
        replace (sent st + S i)%nat with (S (sent st) + i)%nat by lia.
        split; [lia|]. split; [apply Hshift, Hbefore|]. split; [exact Hy|].
        split; [exact Hres|lia].
      * right. split; [apply Hshift, Hall|]. split; [exact Hres|lia].
Qed.

End StockLoop.

Section StockBatch.
Variable history : nat → string → string → string → outcome DataFrame.
Variable w : world.
Variable self : fetcher.
Variable period : string.
Hypothesis delay_nonneg : (0 <= retry_delay self)%Q.
Hypothesis random_unit : ∀ n, (0 <= random w n)%Q.
Hypothesis random_le : ∀ n, (random w n <= 1)%Q.
Hypothesis sleepable : backoff_sleepable self.

Lemma stock_batch_loop_run total items : ∀ (acc : gmap string DataFrame) (st : io),
  ∃ res st',
    stock_batch_loop history w self period total items acc st = (Ok res, st')
    ∧ (∀ s df, res !! s = Some df →
         acc !! s = Some df ∨ (s ∈ items.*2 ∧ df ≠ []))
    ∧ (sent st' ≤ sent st + Z.to_nat (retry_count self) * length items)%nat.
Proof.
  induction items as [|[i symbol] items IH]; intros acc st.
  - exists acc, st. cbn. repeat split; auto. lia.
  - cbn [stock_batch_loop]. cbv [mbind IO_bind].
    destruct (stock_loop_run history w self symbol period "1d" delay_nonneg random_unit
                random_le sleepable (Z.to_nat (retry_count self)) 0%nat st)
      as (data & st1 & Hrun & Hcase).
    unfold get_stock_data, range. rewrite Hrun.
    assert ((∀ df, data = Some df → df ≠ [])
            ∧ (sent st1 ≤ sent st + Z.to_nat (retry_count self))%nat) as [Hsome Hle].
    { destruct Hcase as [(k & df & Hk & _ & [_ Hne] & -> & Hs)|(_ & -> & Hs)].
      - split; [intros ? [= <-]; exact Hne | lia].
      - split; [discriminate | lia]. }
    set (acc1 := match data with Some df => <[symbol:=df]> acc | None => acc end).
    assert (∃ st2, (if (i <? total)%nat
                    then delay ← uniform w 2 5; sleep delay else mret tt) st1
                   = (Ok tt, st2)
                   ∧ sent st2 = sent st1)
      as (st2 & Hpause & Hs2).
    { destruct (i <? total)%nat; [|eauto].
      rewrite (FetcherExtras.pause_run w random_unit random_le) by lra. eauto. }
    cbv [mbind IO_bind] in Hpause. rewrite Hpause.
    destruct (IH acc1 st2) as (res & st' & Hloop & Hfrom & Hlen).
    exists res, st'. split; [exact Hloop|]. split.
    + intros s df Hs. destruct (Hfrom s df Hs) as [Hacc1|[Hin Hne]].
      * subst acc1. destruct data as [df1|]; [|auto].
        destruct (decide (symbol = s)) as [->|Hne].
        -- rewrite lookup_insert_eq in Hacc1. injection Hacc1 as <-.
           right. split; [cbn; left | apply Hsome; reflexivity].
        -- rewrite lookup_insert_ne in Hacc1 by exact Hne. auto.
      * right. split; [cbn; right; exact Hin | exact Hne].
    + rewrite Hs2 in Hlen. cbn [length]. lia.
Qed.

End StockBatch.

(** X25. On a fetcher whose backoffs can be slept (non-negative
    [retry_delay], [backoff_sleepable]) and for draws in the unit
    interval, [get_stock_data] returns without raising and calls [history]
    at most [retry_count] times: it returns the frame of the first call
    that yields rows, calling no further, and [None] exactly when none of
    the [retry_count] calls yields rows; an empty frame is never
    returned. *)
Theorem stock_fetch_returns_first_frame_with_rows
    (history : nat → string → string → string → outcome DataFrame)
    (w : world) (self : fetcher) (symbol period interval : string) (st : io) :
  (0 <= retry_delay self)%Q →
  backoff_sleepable self →
  (∀ n, 0 <= random w n <= 1)%Q →
  let rc := Z.to_nat (retry_count self) in
  ∃ res st',
    get_stock_data history w self symbol period interval st = (Ok res, st')
    ∧ ((∃ i df, (i < rc)%nat
          ∧ (∀ j, (j < i)%nat → yields_nothing history symbol period interval (sent st + j))
          ∧ yields history symbol period interval (sent st + i) df
          ∧ res = Some df ∧ sent st' = (sent st + S i)%nat)
       ∨ ((∀ j, (j < rc)%nat → yields_nothing history symbol period interval (sent st + j))
          ∧ res = None ∧ sent st' = (sent st + rc)%nat)).
Proof.
  intros Hd Hfit Hr rc. unfold get_stock_data, range.
  apply (stock_loop_run history w self symbol period interval Hd
           (λ n, proj1 (Hr n)) (λ n, proj2 (Hr n)) Hfit rc 0%nat st).
Qed.

Definition empty_then_rows : nat → string → string → string → outcome DataFrame :=
  λ n _ _ _,
    match n with
    | O => Ok []
    | 1%nat => Raise (Exn RequestException "Too Many Requests. Rate limited.")
    | _ => Ok [Bar 1000 1 2 0.5 1.5 10]
    end.

Lemma stock_fetch_returns_first_frame_with_rows_witness :
  ∃ res st',
    get_stock_data empty_then_rows failover_world default_stock_fetcher
      "AAPL" "3mo" "1d" io0 = (Ok res, st')
    ∧ res = Some [Bar 1000 1 2 0.5 1.5 10] ∧ sent st' = 3%nat.
Proof.
  destruct (stock_fetch_returns_first_frame_with_rows empty_then_rows failover_world
              default_stock_fetcher "AAPL" "3mo" "1d" io0)
    as (res & st' & Hrun & Hcase).
  - vm_compute. discriminate.
  - split; vm_compute; discriminate.
  - intros n. split; vm_compute; discriminate.
  - exists res, st'. split; [exact Hrun|].
    vm_compute in Hrun. injection Hrun as <- <-. split; reflexivity.
Defined.

(** X26. On a fetcher whose backoffs can be slept (non-negative
    [retry_delay], [backoff_sleepable]) and for draws in the unit
    interval, [get_multiple_stocks] returns without raising; every key of
    its result is one of the requested symbols and its frame has rows; it
    calls [history] at most [retry_count] times for each symbol. *)
Theorem stock_batch_reports_only_symbols_with_rows
    (history : nat → string → string → string → outcome DataFrame)
    (w : world) (self : fetcher) (symbols : list string) (period : string) (st : io) :
  (0 <= retry_delay self)%Q →
  backoff_sleepable self →
  (∀ n, 0 <= random w n <= 1)%Q →
  ∃ results st',
    get_multiple_stocks history w self symbols period st = (Ok results, st')
    ∧ (∀ s df, results !! s = Some df → s ∈ symbols ∧ df ≠ [])
    ∧ (sent st' ≤ sent st + Z.to_nat (retry_count self) * length symbols)%nat.
Proof.
  intros Hd Hfit Hr. unfold get_multiple_stocks.
  destruct (stock_batch_loop_run history w self period Hd
              (λ n, proj1 (Hr n)) (λ n, proj2 (Hr n)) Hfit (length symbols)
              (zip (seq 1 (length symbols)) symbols) ∅ st)
    as (res & st' & Hrun & Hfrom & Hlen).
  exists res, st'. split; [exact Hrun|].
  assert ((zip (seq 1 (length symbols)) symbols).*2 = symbols) as Hsnd.
  { apply snd_zip. rewrite length_seq. lia. }
  rewrite Hsnd in Hfrom. split.
  - intros s df Hs. destruct (Hfrom s df Hs) as [Hempty|H]; [|exact H].
    rewrite lookup_empty in Hempty. discriminate.
  - rewrite length_zip_with, length_seq, Nat.min_id in Hlen. exact Hlen.
Qed.

Lemma stock_batch_reports_only_symbols_with_rows_witness :
  ∃ results st',
    get_multiple_stocks empty_then_rows failover_world default_stock_fetcher
      ["AAPL"; "TSLA"] "1mo" io0 = (Ok results, st')
    ∧ (∀ s df, results !! s = Some df → s ∈ ["AAPL"; "TSLA"] ∧ df ≠ [])
    ∧ (sent st' ≤ 0 + 5 * 2)%nat.
Proof.
  apply (stock_batch_reports_only_symbols_with_rows empty_then_rows failover_world
           default_stock_fetcher ["AAPL"; "TSLA"] "1mo" io0).
  - vm_compute. discriminate.
  - split; vm_compute; discriminate.
  - intros n. split; vm_compute; discriminate.
Defined.

End StockFacts.

